(** * Internal booking system: the booking-conflict rule and the routes
      that guard the [bookings] table with it.

    Sources embedded here:
    - [src/shared/schema.ts]      the [resources] and [bookings] tables;
    - [src/server/storage.ts]     [DatabaseStorage], module [ServerStorage];
    - [src/unnamed/part_001]      a second copy of [DatabaseStorage],
                                  module [StoragePart001];
    - [src/unnamed/part_000]      [registerRoutes], module [Routes]:
                                  each handler run in one go ([handle])
                                  and cut at its awaits ([task]);
    - [src/client/src/pages]      the status of a booking and the
                                  figures of the dashboard.

    Instants ([Date], the [timestamp] columns) are integers: milliseconds
    since the epoch.  Table rows are kept in a list, in insertion order.

    The database server, its driver and the query library are not part
    of the repository.  What the properties need of them is taken as a
    parameter and said where it enters: the statements they refuse
    ([refuses]), the zone in which the driver writes a [Date]
    ([localTime]) and what the query builder makes of [query.where]
    ([query_where]). *)

From Stdlib Require Import ZArith List Bool Lia String.
Import ListNotations.
Open Scope Z_scope.

(* ================================================================== *)
(** ** shared/schema.ts *)
(* ================================================================== *)

(** A [Date] that holds an instant.  [new Date(str)] of a string that is
    no date gives an Invalid Date, which holds none and is no value of
    this type: the requests below are those whose dates are instants. *)
Definition Date := Z.

(** [resources = pgTable("resources", ...)], type [Resource]. *)
Module Resource.
Record t : Type := mk {
  id : Z;
  name : string;
  description : option string;
  location : string;
  capacity : Z;
  isAvailable : bool
}.
End Resource.

(** [insertResourceSchema]: a resource without its [id]. *)
Module InsertResource.
Record t : Type := mk {
  name : string;
  description : option string;
  location : string;
  capacity : Z;
  isAvailable : bool
}.
End InsertResource.

(** [bookings = pgTable("bookings", ...)], type [Booking]. *)
Module Booking.
Record t : Type := mk {
  id : Z;
  resourceId : Z;
  startTime : Date;
  endTime : Date;
  bookedBy : string;
  purpose : string
}.
End Booking.

(** [insertBookingSchema]: a booking without its [id]. *)
Module InsertBooking.
Record t : Type := mk {
  resourceId : Z;
  startTime : Date;
  endTime : Date;
  bookedBy : string;
  purpose : string
}.
End InsertBooking.

(** [insertBookingSchema.partial()]: every field optional. *)
Module PartialInsertBooking.
Record t : Type := mk {
  resourceId : option Z;
  startTime : option Date;
  endTime : option Date;
  bookedBy : option string;
  purpose : option string
}.
End PartialInsertBooking.

(** [BookingWithResource]: a booking row left-joined with its resource. *)
Module BookingWithResource.
Record t : Type := mk {
  bookings : Booking.t;
  resources : option Resource.t
}.
End BookingWithResource.

(** The columns of the [bookings] table, as the query conditions name
    them ([bookings.resourceId], [bookings.startTime], ...). *)
Module bookings.
Definition id : Booking.t -> Z := Booking.id.
Definition resourceId : Booking.t -> Z := Booking.resourceId.
Definition startTime : Booking.t -> Date := Booking.startTime.
Definition endTime : Booking.t -> Date := Booking.endTime.
End bookings.

(* ================================================================== *)
(** ** The condition builders used by the queries

    A condition is read as the row filter of the [WHERE] clause it
    builds.  All columns involved are [NOT NULL], so a condition is
    two-valued.  An operand is a column of the row or a bound value; the
    two copies of the checker write their comparisons with the operands
    in either order, which the operand type lets us transcribe as is.
    [val v] is the value the database receives; how a JavaScript value
    becomes that value is said where the value is bound. *)
(* ================================================================== *)

Module Drizzle.
Definition Condition := Booking.t -> bool.
Definition Operand := Booking.t -> Z.

Definition col (c : Booking.t -> Z) : Operand := c.
Definition val (v : Z) : Operand := fun _ => v.

Definition eq (a b : Operand) : Condition := fun row => a row =? b row.
Definition lte (a b : Operand) : Condition := fun row => a row <=? b row.
Definition gte (a b : Operand) : Condition := fun row => b row <=? a row.
Definition not (c : Condition) : Condition := fun row => negb (c row).
Definition and (cs : list Condition) : Condition :=
  fun row => forallb (fun c => c row) cs.
Definition or (cs : list Condition) : Condition :=
  fun row => existsb (fun c => c row) cs.

(** [db.select().from(bookings).where(c)] run against the table. *)
Definition select_where (c : Condition) (rows : list Booking.t)
  : list Booking.t := filter c rows.
End Drizzle.

(** JavaScript truthiness of an optional number: [undefined] and [0] are
    falsy ([NaN] does not occur: ids are parsed and checked before). *)
Definition truthy (n : option Z) : bool :=
  match n with
  | Some v => negb (v =? 0)
  | None => false
  end.

(** [a || b] on an optional number with a number fallback. *)
Definition orElse (n : option Z) (fallback : Z) : Z :=
  match n with
  | Some v => if v =? 0 then fallback else v
  | None => fallback
  end.

(** [a || b] on an optional [Date] (an object, hence truthy when present). *)
Definition orElseDate (d : option Date) (fallback : Date) : Date :=
  match d with
  | Some v => v
  | None => fallback
  end.

(* ================================================================== *)
(** ** src/unnamed/part_001: [DatabaseStorage.checkBookingConflict]

    This copy writes each comparison with the column on the left:
    [lte(bookings.startTime, startTime)].  The candidate [Date] is bound
    through the encoder of the [timestamp] column, as the stored rows
    were, so both sides of a comparison are instants on one scale.  The
    function below is the answer of the statement when the database
    accepts it; the statements it refuses are the matter of
    [Storage.checkBookingConflict]. *)
(* ================================================================== *)

Module StoragePart001.
Import Drizzle.

(** The [or(...)] of the three commented cases, lines 106-113. *)
Definition overlapCases (startTime endTime : Date) : Condition :=
  or [ (* New booking starts during existing booking *)
       and [lte (col bookings.startTime) (val startTime);
            gte (col bookings.endTime) (val startTime)];
       (* New booking ends during existing booking *)
       and [lte (col bookings.startTime) (val endTime);
            gte (col bookings.endTime) (val endTime)];
       (* New booking completely encompasses existing booking *)
       and [gte (col bookings.startTime) (val startTime);
            lte (col bookings.endTime) (val endTime)] ].

Definition conditions (resourceId : Z) (startTime endTime : Date)
    (excludeBookingId : option Z) : list Condition :=
  let conditions :=
    [ eq (col bookings.resourceId) (val resourceId);
      overlapCases startTime endTime ] in
  if truthy excludeBookingId then
    match excludeBookingId with
    | Some x => conditions ++ [not (eq (col bookings.id) (val x))]
    | None => conditions
    end
  else conditions.

(** [const [conflict] = await db.select().from(bookings)
      .where(and(...conditions)); return !!conflict;] *)
Definition checkBookingConflict (rows : list Booking.t)
    (resourceId : Z) (startTime endTime : Date)
    (excludeBookingId : option Z) : bool :=
  match select_where
          (and (conditions resourceId startTime endTime excludeBookingId))
          rows with
  | conflict :: _ => true
  | [] => false
  end.
End StoragePart001.

(* ================================================================== *)
(** ** src/server/storage.ts: [DatabaseStorage.checkBookingConflict]

    This copy writes each comparison with the candidate [Date] on the
    left: [gte(startTime, bookings.startTime)].  A value on the right of
    a column is bound through the encoder of that column, which writes
    the instant the way the stored rows were written.  A value on the
    left has no column to take an encoder from: it reaches the driver as
    the [Date] it is, and the driver writes a [Date] as the wall-clock
    time of the zone the process runs in.  [localTime t] is what the
    database then compares with the stored instants when the candidate
    instant is [t]; it is the identity when the process runs in UTC.

    The exclusion branch passes [query.where] to [and].  That name is the
    builder's method, not the condition installed by the first [.where];
    what [and] and the database make of it is decided by the query
    library, which is not part of this repository.  It is kept open here:
    [query_where c] is the row filter this operand contributes when the
    builder holds condition [c], or [None] when the query is refused and
    the promise is rejected.  The evident intent is [Some c]. *)
(* ================================================================== *)

Module ServerStorage.
Import Drizzle.

Section WithLocalTime.
Variable localTime : Date -> Date.

(** A [Date] standing on the left of a comparison. *)
Definition date (d : Date) : Operand := val (localTime d).

(** The [or(...)] of the three commented cases, lines 110-117. *)
Definition overlapCases (startTime endTime : Date) : Condition :=
  or [ (* New booking starts during existing booking *)
       and [gte (date startTime) (col bookings.startTime);
            lte (date startTime) (col bookings.endTime)];
       (* New booking ends during existing booking *)
       and [gte (date endTime) (col bookings.startTime);
            lte (date endTime) (col bookings.endTime)];
       (* New booking completely encompasses existing booking *)
       and [lte (date startTime) (col bookings.startTime);
            gte (date endTime) (col bookings.endTime)] ].

Section WithQueryWhere.
Variable query_where : Condition -> option Condition.

(** The condition the query ends up with, lines 104-123. *)
Definition query (resourceId : Z) (startTime endTime : Date)
    (excludeBookingId : option Z) : option Condition :=
  let query :=
    and [ eq (col bookings.resourceId) (val resourceId);
          overlapCases startTime endTime ] in
  if truthy excludeBookingId then
    match excludeBookingId, query_where query with
    | Some x, Some qw => Some (and [qw; eq (col bookings.id) (val x)])
    | Some x, None => None
    | None, _ => Some query
    end
  else Some query.

(** [const conflicts = await query; return conflicts.length > 0;]
    [None] is a rejected promise. *)
Definition checkBookingConflict (rows : list Booking.t)
    (resourceId : Z) (startTime endTime : Date)
    (excludeBookingId : option Z) : option bool :=
  match query resourceId startTime endTime excludeBookingId with
  | Some q =>
      let conflicts := select_where q rows in
      Some (0 <? Z.of_nat (List.length conflicts))
  | None => None
  end.
End WithQueryWhere.
End WithLocalTime.

(** A process running in UTC, and one running [minutes] east of it. *)
Definition utc : Date -> Date := fun t => t.
Definition zone (minutes : Z) : Date -> Date := fun t => t + minutes * 60000.

(** The reading under which [query.where] stands for the condition the
    builder already holds. *)
Definition intended : Condition -> option Condition := fun c => Some c.
(** The reading under which the query is refused. *)
Definition refused : Condition -> option Condition := fun _ => None.
End ServerStorage.

(* ================================================================== *)
(** ** The database behind [db], and the promises of the storage layer *)
(* ================================================================== *)

(** [insertResourceSchema.partial()]. *)
Module PartialInsertResource.
Record t : Type := mk {
  name : option string;
  description : option (option string);
  location : option string;
  capacity : option Z;
  isAvailable : option bool
}.
End PartialInsertResource.

(** The two tables and their [serial] sequences (next value to hand out). *)
Record Database : Type := mkDatabase {
  resources_table : list Resource.t;
  bookings_table : list Booking.t;
  resources_id_seq : Z;
  bookings_id_seq : Z
}.

(** The calls made on [storage], in the order they are made. *)
Inductive Call : Type :=
| CallCreateResource (resource : InsertResource.t)
| CallUpdateResource (id : Z) (resource : PartialInsertResource.t)
| CallDeleteResource (id : Z)
| CallGetBooking (id : Z)
| CallCreateBooking (booking : InsertBooking.t)
| CallUpdateBooking (id : Z) (booking : PartialInsertBooking.t)
| CallDeleteBooking (id : Z)
| CallCheckBookingConflict (resourceId : Z) (startTime endTime : Date)
    (excludeBookingId : option Z).

Record World : Type := mkWorld {
  database : Database;
  calls : list Call
}.

Inductive Error : Type :=
| ZodError        (* thrown by [schema.parse] *)
| DatabaseError.  (* a statement the database or the driver refuses *)

Inductive Outcome (A : Type) : Type :=
| Resolved (a : A)
| Rejected (e : Error).
Arguments Resolved {A} a.
Arguments Rejected {A} e.

(** An [async] computation: it runs against the world and either resolves
    or is rejected. *)
Definition Promise (A : Type) : Type := World -> Outcome A * World.

Definition ret {A} (a : A) : Promise A := fun w => (Resolved a, w).
Definition throw {A} (e : Error) : Promise A := fun w => (Rejected e, w).
Definition bind {A B} (p : Promise A) (k : A -> Promise B) : Promise B :=
  fun w =>
    match p w with
    | (Resolved a, w') => k a w'
    | (Rejected e, w') => (Rejected e, w')
    end.

Declare Scope promise_scope.
Delimit Scope promise_scope with promise.
Notation "x <- p ;; k" := (bind p (fun x => k))
  (at level 61, p at next level, right associativity) : promise_scope.
Notation "p ;; k" := (bind p (fun _ => k))
  (at level 61, right associativity) : promise_scope.
Open Scope promise_scope.

Definition getDatabase : Promise Database :=
  fun w => (Resolved (database w), w).
Definition setDatabase (d : Database) : Promise unit :=
  fun w => (Resolved tt, mkWorld d (calls w)).
Definition called (c : Call) : Promise unit :=
  fun w => (Resolved tt, mkWorld (database w) (calls w ++ [c])).

(** [.set(patch)] on a booking row: the fields present overwrite. *)
Definition setBooking (patch : PartialInsertBooking.t) (row : Booking.t)
  : Booking.t :=
  Booking.mk
    (Booking.id row)
    (match PartialInsertBooking.resourceId patch with
     | Some v => v | None => Booking.resourceId row end)
    (match PartialInsertBooking.startTime patch with
     | Some v => v | None => Booking.startTime row end)
    (match PartialInsertBooking.endTime patch with
     | Some v => v | None => Booking.endTime row end)
    (match PartialInsertBooking.bookedBy patch with
     | Some v => v | None => Booking.bookedBy row end)
    (match PartialInsertBooking.purpose patch with
     | Some v => v | None => Booking.purpose row end).

Definition setResource (patch : PartialInsertResource.t) (row : Resource.t)
  : Resource.t :=
  Resource.mk
    (Resource.id row)
    (match PartialInsertResource.name patch with
     | Some v => v | None => Resource.name row end)
    (match PartialInsertResource.description patch with
     | Some v => v | None => Resource.description row end)
    (match PartialInsertResource.location patch with
     | Some v => v | None => Resource.location row end)
    (match PartialInsertResource.capacity patch with
     | Some v => v | None => Resource.capacity row end)
    (match PartialInsertResource.isAvailable patch with
     | Some v => v | None => Resource.isAvailable row end).

(** [resource_id ... references(() => resources.id)]. *)
Definition resourceExists (d : Database) (resourceId : Z) : bool :=
  existsb (fun r => Resource.id r =? resourceId) (resources_table d).

Definition hasId (id : Z) (row : Booking.t) : bool := Booking.id row =? id.

(* ================================================================== *)
(** ** [DatabaseStorage]: the methods of [IStorage] the routes call

    The two copies of the class differ only in [checkBookingConflict];
    the other methods are the same statements.  The section takes the
    copy's conflict query as [conflictQuery]: [None] is a rejected
    promise.

    Every method sends one statement.  The query library or the database
    refuses some statements for their arguments alone, whatever the
    tables hold: [.set({})] throws when the payload names no column, an
    [integer] or [serial] column takes no number beyond 32 bits, and the
    [timestamp] encoder cannot write every [Date].  [refuses c] says that
    the statement of call [c] is one of them; the promise is then
    rejected and nothing is written, not even a sequence is advanced.
    The refusals that depend on the tables (the foreign keys) are written
    out in the methods. *)
(* ================================================================== *)

Module Storage.
Section WithConflictQuery.
Variable refuses : Call -> bool.
Variable conflictQuery :
  list Booking.t -> Z -> Date -> Date -> option Z -> option bool.

(** The call is logged; its statement is sent unless it is refused. *)
Definition statement (c : Call) : Promise unit :=
  called c ;;
  if refuses c then throw DatabaseError else ret tt.

(** [db.insert(resources).values(resource).returning()] *)
Definition createResource (resource : InsertResource.t)
  : Promise Resource.t :=
  statement (CallCreateResource resource) ;;
  d <- getDatabase ;;
  let newResource :=
    Resource.mk (resources_id_seq d)
      (InsertResource.name resource)
      (InsertResource.description resource)
      (InsertResource.location resource)
      (InsertResource.capacity resource)
      (InsertResource.isAvailable resource) in
  setDatabase (mkDatabase (resources_table d ++ [newResource])
                 (bookings_table d)
                 (resources_id_seq d + 1) (bookings_id_seq d)) ;;
  ret newResource.

(** [db.update(resources).set(resource).where(eq(resources.id, id))] *)
Definition updateResource (id : Z) (resource : PartialInsertResource.t)
  : Promise (option Resource.t) :=
  statement (CallUpdateResource id resource) ;;
  d <- getDatabase ;;
  let updated :=
    map (fun row => if Resource.id row =? id
                    then setResource resource row else row)
        (resources_table d) in
  setDatabase (mkDatabase updated (bookings_table d)
                 (resources_id_seq d) (bookings_id_seq d)) ;;
  ret (find (fun row => Resource.id row =? id) updated).

(** [db.delete(resources).where(eq(resources.id, id))]: refused while a
    booking still references the resource. *)
Definition deleteResource (id : Z) : Promise bool :=
  statement (CallDeleteResource id) ;;
  d <- getDatabase ;;
  let deleted :=
    filter (fun row => Resource.id row =? id) (resources_table d) in
  match deleted with
  | [] => ret false
  | _ :: _ =>
      if existsb (fun b => Booking.resourceId b =? id) (bookings_table d)
      then throw DatabaseError
      else
        setDatabase
          (mkDatabase
             (filter (fun row => negb (Resource.id row =? id))
                (resources_table d))
             (bookings_table d)
             (resources_id_seq d) (bookings_id_seq d)) ;;
        ret true
  end.

(** [select().from(bookings).leftJoin(resources, ...)
      .where(eq(bookings.id, id))], first row. *)
Definition getBooking (id : Z) : Promise (option BookingWithResource.t) :=
  statement (CallGetBooking id) ;;
  d <- getDatabase ;;
  match filter (hasId id) (bookings_table d) with
  | booking :: _ =>
      ret (Some (BookingWithResource.mk booking
             (find (fun r => Resource.id r =? Booking.resourceId booking)
                (resources_table d))))
  | [] => ret None
  end.

(** [db.insert(bookings).values(booking).returning()]: the sequence
    hands out the id; the row is refused when its resource is missing. *)
Definition createBooking (booking : InsertBooking.t) : Promise Booking.t :=
  statement (CallCreateBooking booking) ;;
  d <- getDatabase ;;
  let newBooking :=
    Booking.mk (bookings_id_seq d)
      (InsertBooking.resourceId booking)
      (InsertBooking.startTime booking)
      (InsertBooking.endTime booking)
      (InsertBooking.bookedBy booking)
      (InsertBooking.purpose booking) in
  if resourceExists d (InsertBooking.resourceId booking) then
    setDatabase (mkDatabase (resources_table d)
                   (bookings_table d ++ [newBooking])
                   (resources_id_seq d) (bookings_id_seq d + 1)) ;;
    ret newBooking
  else
    setDatabase (mkDatabase (resources_table d) (bookings_table d)
                   (resources_id_seq d) (bookings_id_seq d + 1)) ;;
    throw DatabaseError.

(** The rows [.set(booking).where(eq(bookings.id, id))] rewrites. *)
Definition updatedRows (id : Z) (booking : PartialInsertBooking.t)
    (rows : list Booking.t) : list Booking.t :=
  map (fun row => if hasId id row then setBooking booking row else row)
      rows.

(** The foreign key on [resource_id]: the update is refused when a row
    it rewrites changes to a resource that does not exist. *)
Definition refusedUpdate (d : Database) (id : Z)
    (booking : PartialInsertBooking.t) : bool :=
  existsb (fun row =>
             (hasId id row &&
              negb (Booking.resourceId (setBooking booking row)
                    =? Booking.resourceId row)) &&
             negb (resourceExists d
                     (Booking.resourceId (setBooking booking row))))
    (bookings_table d).

(** [db.update(bookings).set(booking).where(eq(bookings.id, id))
      .returning()], first row. *)
Definition updateBooking (id : Z) (booking : PartialInsertBooking.t)
  : Promise (option Booking.t) :=
  statement (CallUpdateBooking id booking) ;;
  d <- getDatabase ;;
  if refusedUpdate d id booking then throw DatabaseError
  else
    let updated := updatedRows id booking (bookings_table d) in
    setDatabase (mkDatabase (resources_table d) updated
                   (resources_id_seq d) (bookings_id_seq d)) ;;
    ret (find (hasId id) updated).

(** [db.delete(bookings).where(eq(bookings.id, id))], [rowCount > 0]. *)
Definition deleteBooking (id : Z) : Promise bool :=
  statement (CallDeleteBooking id) ;;
  d <- getDatabase ;;
  setDatabase (mkDatabase (resources_table d)
                 (filter (fun row => negb (hasId id row)) (bookings_table d))
                 (resources_id_seq d) (bookings_id_seq d)) ;;
  ret (existsb (hasId id) (bookings_table d)).

(** [checkBookingConflict]: one [select] against the current table. *)
Definition checkBookingConflict (resourceId : Z) (startTime endTime : Date)
    (excludeBookingId : option Z) : Promise bool :=
  statement (CallCheckBookingConflict resourceId startTime endTime
               excludeBookingId) ;;
  d <- getDatabase ;;
  match conflictQuery (bookings_table d) resourceId startTime endTime
          excludeBookingId with
  | Some hasConflict => ret hasConflict
  | None => throw DatabaseError
  end.
End WithConflictQuery.
End Storage.

(* ================================================================== *)
(** ** src/unnamed/part_000: [registerRoutes]

    The routes that write.  The [GET] routes only read and are left out.
    A request carries what Express hands to the handler: the [:id]
    parameter after [parseInt] ([None] for [NaN]) and the body after
    [schema.parse] ([None] when the schema rejects it). *)
(* ================================================================== *)

Inductive Json : Type :=
| JMessage (message : string)
| JResource (resource : Resource.t)
| JBooking (booking : Booking.t)
| JNone.

Record Response : Type := mkResponse {
  status : Z;
  json : Json
}.

Inductive Request : Type :=
| POST_api_resources (body : option InsertResource.t)
| PUT_api_resources (id : option Z) (body : option PartialInsertResource.t)
| DELETE_api_resources (id : option Z)
| POST_api_bookings (body : option InsertBooking.t)
| PUT_api_bookings (id : option Z) (body : option PartialInsertBooking.t)
| DELETE_api_bookings (id : option Z).

Definition conflictMessage : string :=
  "This resource is already booked during the requested time. Please choose another slot or resource, or adjust your times.".

Definition isSome {A} (o : option A) : bool :=
  match o with Some _ => true | None => false end.

(** An [async] handler as the event loop sees it: it has answered, or it
    waits for a statement and goes on with its outcome.  Between two
    awaits of one handler the other handlers may run. *)
Inductive Task : Type :=
| Done (res : Response)
| Await (A : Type) (statement : Promise A) (next : Outcome A -> Task).
Arguments Await {A} statement next.

(** The handler running with nothing in between. *)
Fixpoint complete (t : Task) (w : World) : Response * World :=
  match t with
  | Done res => (res, w)
  | Await statement next =>
      let '(outcome, w') := statement w in complete (next outcome) w'
  end.

(** The [n]-th handler runs up to its next await (or stays as it is when
    it has answered). *)
Fixpoint advance (n : nat) (tasks : list Task) (w : World)
  : list Task * World :=
  match tasks with
  | [] => ([], w)
  | t :: rest =>
      match n with
      | O =>
          match t with
          | Done _ => (tasks, w)
          | Await statement next =>
              let '(outcome, w') := statement w in (next outcome :: rest, w')
          end
      | S n' =>
          let '(rest', w') := advance n' rest w in (t :: rest', w')
      end
  end.

(** The handlers run interleaved: [picks] names, step after step, the
    handler whose awaited statement completes next. *)
Definition interleave (picks : list nat) (tasks : list Task) (w : World)
  : list Task * World :=
  fold_left (fun state n => advance n (fst state) (snd state)) picks
    (tasks, w).

Definition answer (t : Task) : option Response :=
  match t with
  | Done res => Some res
  | Await _ _ => None
  end.

Module Routes.
Section WithConflictQuery.
Variable refuses : Call -> bool.
Variable conflictQuery :
  list Booking.t -> Z -> Date -> Date -> option Z -> option bool.

(** [schema.parse(req.body)] *)
Definition parse {A} (body : option A) : Promise A :=
  match body with
  | Some validatedData => ret validatedData
  | None => throw ZodError
  end.

(** [try { ... } catch (error) { ZodError -> 400 ...; else -> 500 ... }] *)
Definition tryCatch (handler : Promise Response)
    (invalidData failed : string) : World -> Response * World :=
  fun w =>
    match handler w with
    | (Resolved res, w') => (res, w')
    | (Rejected ZodError, w') => (mkResponse 400 (JMessage invalidData), w')
    | (Rejected DatabaseError, w') => (mkResponse 500 (JMessage failed), w')
    end.

(** [try { ... } catch (error) { -> 500 ... }] *)
Definition catchAll (handler : Promise Response) (failed : string)
  : World -> Response * World :=
  fun w =>
    match handler w with
    | (Resolved res, w') => (res, w')
    | (Rejected _, w') => (mkResponse 500 (JMessage failed), w')
    end.

Definition post_api_resources (body : option InsertResource.t) :=
  tryCatch
    (validatedData <- parse body ;;
     resource <- Storage.createResource refuses validatedData ;;
     ret (mkResponse 201 (JResource resource)))
    "Invalid resource data" "Failed to create resource".

Definition put_api_resources (id : option Z)
    (body : option PartialInsertResource.t) :=
  tryCatch
    (match id with
     | None => ret (mkResponse 400 (JMessage "Invalid resource ID"))
     | Some id =>
         validatedData <- parse body ;;
         resource <- Storage.updateResource refuses id validatedData ;;
         match resource with
         | None => ret (mkResponse 404 (JMessage "Resource not found"))
         | Some resource => ret (mkResponse 200 (JResource resource))
         end
     end)
    "Invalid resource data" "Failed to update resource".

Definition delete_api_resources (id : option Z) :=
  catchAll
    (match id with
     | None => ret (mkResponse 400 (JMessage "Invalid resource ID"))
     | Some id =>
         deleted <- Storage.deleteResource refuses id ;;
         if deleted : bool then ret (mkResponse 204 JNone)
         else ret (mkResponse 404 (JMessage "Resource not found"))
     end)
    "Failed to delete resource".

(** [app.post("/api/bookings", ...)], lines 140-171. *)
Definition post_api_bookings (body : option InsertBooking.t) :=
  tryCatch
    (validatedData <- parse body ;;
     (* Check for conflicts *)
     hasConflict <- Storage.checkBookingConflict refuses conflictQuery
                      (InsertBooking.resourceId validatedData)
                      (InsertBooking.startTime validatedData)
                      (InsertBooking.endTime validatedData)
                      None ;;
     if hasConflict : bool then
       ret (mkResponse 409 (JMessage conflictMessage))
     (* Validate that end time is after start time *)
     else if InsertBooking.endTime validatedData
             <=? InsertBooking.startTime validatedData then
       ret (mkResponse 400 (JMessage "End time must be after start time"))
     else
       booking <- Storage.createBooking refuses validatedData ;;
       ret (mkResponse 201 (JBooking booking)))
    "Invalid booking data" "Failed to create booking".

(** The test of line 183: the payload updates time or resource. *)
Definition updatesTimeOrResource (validatedData : PartialInsertBooking.t)
  : bool :=
  truthy (PartialInsertBooking.resourceId validatedData)
  || isSome (PartialInsertBooking.startTime validatedData)
  || isSome (PartialInsertBooking.endTime validatedData).

(** Lines 189-191: the candidate [(resourceId, startTime, endTime)], each
    taken from the payload or else from the stored booking. *)
Definition candidate (validatedData : PartialInsertBooking.t)
    (existing : Booking.t) : Z * Date * Date :=
  (orElse (PartialInsertBooking.resourceId validatedData)
          (Booking.resourceId existing),
   orElseDate (PartialInsertBooking.startTime validatedData)
              (Booking.startTime existing),
   orElseDate (PartialInsertBooking.endTime validatedData)
              (Booking.endTime existing)).

(** The guarded block of the update route, lines 183-210: [Some res] is
    an early [return res], [None] falls through to the update. *)
Definition put_api_bookings_guard (id : Z)
    (validatedData : PartialInsertBooking.t) : Promise (option Response) :=
  (* If updating time or resource, check for conflicts *)
  if updatesTimeOrResource validatedData then
    existingBooking <- Storage.getBooking refuses id ;;
    match existingBooking with
    | None => ret (Some (mkResponse 404 (JMessage "Booking not found")))
    | Some existingBooking =>
        let '(resourceId, startTime, endTime) :=
          candidate validatedData
            (BookingWithResource.bookings existingBooking) in
        hasConflict <- Storage.checkBookingConflict refuses conflictQuery
                         resourceId startTime endTime (Some id) ;;
        if hasConflict : bool then
          ret (Some (mkResponse 409 (JMessage conflictMessage)))
        (* Validate that end time is after start time *)
        else if endTime <=? startTime then
          ret (Some (mkResponse 400
                       (JMessage "End time must be after start time")))
        else ret None
    end
  else ret None.

(** [app.put("/api/bookings/:id", ...)], lines 173-226. *)
Definition put_api_bookings (id : option Z)
    (body : option PartialInsertBooking.t) :=
  tryCatch
    (match id with
     | None => ret (mkResponse 400 (JMessage "Invalid booking ID"))
     | Some id =>
         validatedData <- parse body ;;
         early <- put_api_bookings_guard id validatedData ;;
         match early with
         | Some res => ret res
         | None =>
             booking <- Storage.updateBooking refuses id validatedData ;;
             match booking with
             | None => ret (mkResponse 404 (JMessage "Booking not found"))
             | Some booking => ret (mkResponse 200 (JBooking booking))
             end
         end
     end)
    "Invalid booking data" "Failed to update booking".

(** [app.delete("/api/bookings/:id", ...)], lines 228-245. *)
Definition delete_api_bookings (id : option Z) :=
  catchAll
    (match id with
     | None => ret (mkResponse 400 (JMessage "Invalid booking ID"))
     | Some id =>
         deleted <- Storage.deleteBooking refuses id ;;
         if deleted : bool then ret (mkResponse 204 JNone)
         else ret (mkResponse 404 (JMessage "Booking not found"))
     end)
    "Failed to delete booking".

Definition handle (req : Request) : World -> Response * World :=
  match req with
  | POST_api_resources body => post_api_resources body
  | PUT_api_resources id body => put_api_resources id body
  | DELETE_api_resources id => delete_api_resources id
  | POST_api_bookings body => post_api_bookings body
  | PUT_api_bookings id body => put_api_bookings id body
  | DELETE_api_bookings id => delete_api_bookings id
  end.

(** The requests served one at a time: each handler has answered before
    the next one starts.  This is one of the ways the server can run
    them; [interleave] on the tasks below gives all of them. *)
Definition serve (reqs : list Request) (w : World) : World :=
  fold_left (fun w req => snd (handle req w)) reqs w.

(** The [catch] clauses, on the error caught. *)
Definition caught (invalidData failed : string) (e : Error) : Response :=
  match e with
  | ZodError => mkResponse 400 (JMessage invalidData)
  | DatabaseError => mkResponse 500 (JMessage failed)
  end.

(** The handlers again, cut at their [await]s. *)
Definition post_api_resources_task (body : option InsertResource.t) : Task :=
  match body with
  | None => Done (mkResponse 400 (JMessage "Invalid resource data"))
  | Some validatedData =>
      Await (Storage.createResource refuses validatedData)
        (fun outcome =>
           match outcome with
           | Resolved resource => Done (mkResponse 201 (JResource resource))
           | Rejected e =>
               Done (caught "Invalid resource data"
                       "Failed to create resource" e)
           end)
  end.

Definition put_api_resources_task (id : option Z)
    (body : option PartialInsertResource.t) : Task :=
  match id, body with
  | None, _ => Done (mkResponse 400 (JMessage "Invalid resource ID"))
  | Some id, None => Done (mkResponse 400 (JMessage "Invalid resource data"))
  | Some id, Some validatedData =>
      Await (Storage.updateResource refuses id validatedData)
        (fun outcome =>
           match outcome with
           | Resolved None =>
               Done (mkResponse 404 (JMessage "Resource not found"))
           | Resolved (Some resource) =>
               Done (mkResponse 200 (JResource resource))
           | Rejected e =>
               Done (caught "Invalid resource data"
                       "Failed to update resource" e)
           end)
  end.

Definition delete_api_resources_task (id : option Z) : Task :=
  match id with
  | None => Done (mkResponse 400 (JMessage "Invalid resource ID"))
  | Some id =>
      Await (Storage.deleteResource refuses id)
        (fun outcome =>
           match outcome with
           | Resolved true => Done (mkResponse 204 JNone)
           | Resolved false =>
               Done (mkResponse 404 (JMessage "Resource not found"))
           | Rejected _ =>
               Done (mkResponse 500 (JMessage "Failed to delete resource"))
           end)
  end.

Definition post_api_bookings_task (body : option InsertBooking.t) : Task :=
  match body with
  | None => Done (mkResponse 400 (JMessage "Invalid booking data"))
  | Some validatedData =>
      Await (Storage.checkBookingConflict refuses conflictQuery
               (InsertBooking.resourceId validatedData)
               (InsertBooking.startTime validatedData)
               (InsertBooking.endTime validatedData)
               None)
        (fun outcome =>
           match outcome with
           | Rejected e =>
               Done (caught "Invalid booking data"
                       "Failed to create booking" e)
           | Resolved true => Done (mkResponse 409 (JMessage conflictMessage))
           | Resolved false =>
               if InsertBooking.endTime validatedData
                  <=? InsertBooking.startTime validatedData then
                 Done (mkResponse 400
                         (JMessage "End time must be after start time"))
               else
                 Await (Storage.createBooking refuses validatedData)
                   (fun outcome =>
                      match outcome with
                      | Resolved booking =>
                          Done (mkResponse 201 (JBooking booking))
                      | Rejected e =>
                          Done (caught "Invalid booking data"
                                  "Failed to create booking" e)
                      end)
           end)
  end.

(** The last await of the update route, lines 212-218. *)
Definition put_api_bookings_update (id : Z)
    (validatedData : PartialInsertBooking.t) : Task :=
  Await (Storage.updateBooking refuses id validatedData)
    (fun outcome =>
       match outcome with
       | Resolved None => Done (mkResponse 404 (JMessage "Booking not found"))
       | Resolved (Some booking) => Done (mkResponse 200 (JBooking booking))
       | Rejected e =>
           Done (caught "Invalid booking data" "Failed to update booking" e)
       end).

Definition put_api_bookings_task (id : option Z)
    (body : option PartialInsertBooking.t) : Task :=
  match id, body with
  | None, _ => Done (mkResponse 400 (JMessage "Invalid booking ID"))
  | Some id, None => Done (mkResponse 400 (JMessage "Invalid booking data"))
  | Some id, Some validatedData =>
      if updatesTimeOrResource validatedData then
        Await (Storage.getBooking refuses id)
          (fun outcome =>
             match outcome with
             | Rejected e =>
                 Done (caught "Invalid booking data"
                         "Failed to update booking" e)
             | Resolved None =>
                 Done (mkResponse 404 (JMessage "Booking not found"))
             | Resolved (Some existingBooking) =>
                 let '(resourceId, startTime, endTime) :=
                   candidate validatedData
                     (BookingWithResource.bookings existingBooking) in
                 Await (Storage.checkBookingConflict refuses conflictQuery
                          resourceId startTime endTime (Some id))
                   (fun outcome =>
                      match outcome with
                      | Rejected e =>
                          Done (caught "Invalid booking data"
                                  "Failed to update booking" e)
                      | Resolved true =>
                          Done (mkResponse 409 (JMessage conflictMessage))
                      | Resolved false =>
                          if endTime <=? startTime then
                            Done (mkResponse 400
                                    (JMessage
                                       "End time must be after start time"))
                          else put_api_bookings_update id validatedData
                      end)
             end)
      else put_api_bookings_update id validatedData
  end.

Definition delete_api_bookings_task (id : option Z) : Task :=
  match id with
  | None => Done (mkResponse 400 (JMessage "Invalid booking ID"))
  | Some id =>
      Await (Storage.deleteBooking refuses id)
        (fun outcome =>
           match outcome with
           | Resolved true => Done (mkResponse 204 JNone)
           | Resolved false =>
               Done (mkResponse 404 (JMessage "Booking not found"))
           | Rejected _ =>
               Done (mkResponse 500 (JMessage "Failed to delete booking"))
           end)
  end.

(** The handler of a request, up to its first await. *)
Definition task (req : Request) : Task :=
  match req with
  | POST_api_resources body => post_api_resources_task body
  | PUT_api_resources id body => put_api_resources_task id body
  | DELETE_api_resources id => delete_api_resources_task id
  | POST_api_bookings body => post_api_bookings_task body
  | PUT_api_bookings id body => put_api_bookings_task id body
  | DELETE_api_bookings id => delete_api_bookings_task id
  end.
End WithConflictQuery.
End Routes.

(** The refusals known of the database and of the query library, for the
    worked examples; the properties are proved for every [refuses].
    [int4] is the range of an [integer] or [serial] column; [year10000]
    is the first instant the [timestamp] encoder writes in a form the
    database does not read. *)
Definition int4 (n : Z) : bool := (-2147483648 <=? n) && (n <=? 2147483647).

Definition year10000 : Date := 253402300800000.

Definition unwritable (t : Date) : bool := year10000 <=? t.

Definition beyond {A} (test : A -> bool) (o : option A) : bool :=
  match o with Some v => test v | None => false end.

(** The payload names no column: [.set({})]. *)
Definition emptyBookingPatch (p : PartialInsertBooking.t) : bool :=
  negb (isSome (PartialInsertBooking.resourceId p)
        || isSome (PartialInsertBooking.startTime p)
        || isSome (PartialInsertBooking.endTime p)
        || isSome (PartialInsertBooking.bookedBy p)
        || isSome (PartialInsertBooking.purpose p)).

Definition emptyResourcePatch (p : PartialInsertResource.t) : bool :=
  negb (isSome (PartialInsertResource.name p)
        || isSome (PartialInsertResource.description p)
        || isSome (PartialInsertResource.location p)
        || isSome (PartialInsertResource.capacity p)
        || isSome (PartialInsertResource.isAvailable p)).

(** [encodedDates] tells whether the copy's conflict query binds its
    dates through the column encoder: part_001 does, storage.ts does
    not. *)
Definition knownRefusals (encodedDates : bool) (c : Call) : bool :=
  match c with
  | CallCreateResource resource =>
      negb (int4 (InsertResource.capacity resource))
  | CallUpdateResource id resource =>
      negb (int4 id) || emptyResourcePatch resource
      || beyond (fun n => negb (int4 n))
           (PartialInsertResource.capacity resource)
  | CallDeleteResource id => negb (int4 id)
  | CallGetBooking id => negb (int4 id)
  | CallCreateBooking booking =>
      negb (int4 (InsertBooking.resourceId booking))
      || unwritable (InsertBooking.startTime booking)
      || unwritable (InsertBooking.endTime booking)
  | CallUpdateBooking id booking =>
      negb (int4 id) || emptyBookingPatch booking
      || beyond (fun n => negb (int4 n))
           (PartialInsertBooking.resourceId booking)
      || beyond unwritable (PartialInsertBooking.startTime booking)
      || beyond unwritable (PartialInsertBooking.endTime booking)
  | CallDeleteBooking id => negb (int4 id)
  | CallCheckBookingConflict resourceId startTime endTime excludeBookingId =>
      negb (int4 resourceId)
      || (encodedDates && (unwritable startTime || unwritable endTime))
      || (truthy excludeBookingId
          && beyond (fun n => negb (int4 n)) excludeBookingId)
  end.

Definition part001Refusals : Call -> bool := knownRefusals true.
Definition serverRefusals : Call -> bool := knownRefusals false.

(** The empty store: no rows, both sequences at their first value. *)
Definition emptyWorld : World := mkWorld (mkDatabase [] [] 1 1) [].

(** The routes running on either copy of the storage class: the answer
    of the copy's conflict query when its statement is not refused. *)
Definition part001Query : list Booking.t -> Z -> Date -> Date -> option Z
                          -> option bool :=
  fun rows r s e x => Some (StoragePart001.checkBookingConflict rows r s e x).

Definition serverQuery (localTime : Date -> Date)
    (query_where : Drizzle.Condition -> option Drizzle.Condition) :=
  ServerStorage.checkBookingConflict localTime query_where.

(* ================================================================== *)
(** ** The vocabulary of the properties *)
(* ================================================================== *)

(** The overlap rule in the words of the specification, section 4.1:
    intervals [[s1, e1)] and [[s2, e2)] conflict iff
    [s1 <= e2 AND s2 <= e1]. *)
Definition specOverlapRule (s1 e1 s2 e2 : Date) : Prop :=
  s1 <= e2 /\ s2 <= e1.


(** Booking [b] holds its resource at instant [t]. *)
Definition occupies (b : Booking.t) (t : Date) : Prop :=
  Booking.startTime b <= t < Booking.endTime b.

(** No two rows for resource [R] share an instant. *)
Definition pairwiseNonOverlapping (R : Z) (rows : list Booking.t) : Prop :=
  forall a b, In a rows -> In b rows -> a <> b ->
    Booking.resourceId a = R -> Booking.resourceId b = R ->
    forall t, ~ (occupies a t /\ occupies b t).

(** An instant of the day, in milliseconds: [clock 10 30] is 10:30. *)
Definition clock (h m : Z) : Date := (h * 60 + m) * 60000.

(** The bookings of the worked cases of section 8. *)
Definition bookingA (id resourceId : Z) : Booking.t :=
  Booking.mk id resourceId (clock 10 0) (clock 11 0) "ann" "standup".

(** What the routes rely on in a conflict query: when it answers false,
    no row of the asked resource, the excluded one apart, falls under the
    three cases. *)
Definition soundQuery
    (q : list Booking.t -> Z -> Date -> Date -> option Z -> option bool)
  : Prop :=
  forall rows r s e x,
    q rows r s e x = Some false ->
    forall b, In b rows -> Booking.resourceId b = r ->
      (truthy x = true -> Some (Booking.id b) <> x) ->
      StoragePart001.overlapCases s e b = false.

(** The state of the tables the routes maintain: ids come from the
    sequences (hence are positive and unique), stored intervals have
    [end > start], and two bookings of one resource do not even touch. *)
Record Consistent (d : Database) : Prop := mkConsistent {
  booking_seq_positive : 1 <= bookings_id_seq d;
  booking_ids_issued :
    forall b, In b (bookings_table d) ->
      1 <= Booking.id b < bookings_id_seq d;
  booking_ids_unique : NoDup (map Booking.id (bookings_table d));
  booking_intervals_valid :
    forall b, In b (bookings_table d) ->
      Booking.startTime b < Booking.endTime b;
  booking_resources_positive :
    forall b, In b (bookings_table d) -> 1 <= Booking.resourceId b;
  resource_seq_positive : 1 <= resources_id_seq d;
  resource_ids_positive :
    forall r, In r (resources_table d) -> 1 <= Resource.id r;
  bookings_apart :
    forall a b, In a (bookings_table d) -> In b (bookings_table d) ->
      Booking.id a <> Booking.id b ->
      Booking.resourceId a = Booking.resourceId b ->
      ~ specOverlapRule (Booking.startTime a) (Booking.endTime a)
          (Booking.startTime b) (Booking.endTime b)
}.

(** The calls made on [storage] between two worlds. *)
Definition newCalls (before after : World) : list Call :=
  skipn (List.length (calls before)) (calls after).

(** Requests that create a room and a booking. *)
Definition roomRequest : Request :=
  POST_api_resources (Some (InsertResource.mk "Room 1" None "HQ" 4 true)).

Definition bookingRequest (resourceId : Z) (startTime endTime : Date)
  : Request :=
  POST_api_bookings
    (Some (InsertBooking.mk resourceId startTime endTime "ann" "standup")).

(** The worked store: resource 1 and, on it, booking 1 = [10:00,11:00),
    both created through the routes. *)
Definition worldA : World :=
  Routes.serve part001Refusals part001Query
    [roomRequest; bookingRequest 1 (clock 10 0) (clock 11 0)] emptyWorld.

(** A payload that changes only the purpose, and one that moves the
    booking in time. *)
Definition purposeOnly : PartialInsertBooking.t :=
  PartialInsertBooking.mk None None None None (Some "retro"%string).

Definition moveTo (startTime endTime : Date) : PartialInsertBooking.t :=
  PartialInsertBooking.mk None (Some startTime) (Some endTime) None None.

(* ================================================================== *)
(** ** Further code of the repository

    [DatabaseStorage.getBookings] (both copies, lines 57-62) and the
    parts of the client pages that compute on bookings: the status of a
    booking (bookings.tsx) and the figures of the dashboard
    (dashboard.tsx).  The pages receive the rows of [GET /api/bookings]
    as JSON and rebuild each instant with [new Date(...)]; [now] is the
    page's [new Date()], and [today] its local midnight
    [new Date(now.getFullYear(), now.getMonth(), now.getDate())], both
    taken as given. *)
(* ================================================================== *)

Module StorageReads.
(** [select().from(bookings).leftJoin(resources,
      eq(bookings.resourceId, resources.id))] *)
Definition getBookings (d : Database) : list BookingWithResource.t :=
  map (fun booking =>
         BookingWithResource.mk booking
           (find (fun r => Resource.id r =? Booking.resourceId booking)
              (resources_table d)))
      (bookings_table d).
End StorageReads.

(** src/client/src/pages/bookings.tsx *)
Module BookingsPage.
(** [getBookingStatus], lines 77-87.  The row type has its [bookings]
    member always present, so the ["unknown"] exit is not taken. *)
Definition getBookingStatus (now : Date) (booking : BookingWithResource.t)
  : string :=
  let start := Booking.startTime (BookingWithResource.bookings booking) in
  let end_ := Booking.endTime (BookingWithResource.bookings booking) in
  if (start <=? now) && (now <? end_) then "active"
  else if now <? start then "upcoming"
  else "completed".
End BookingsPage.

(** src/client/src/pages/dashboard.tsx *)
Module Dashboard.
Record DashboardStats : Type := mkStats {
  totalResources : Z;
  availableNow : Z;
  todayBookings : Z;
  upcomingBookings : Z
}.

Definition count {A} (l : list A) : Z := Z.of_nat (List.length l).

(** [tomorrow = new Date(today.getTime() + 24 * 60 * 60 * 1000)] *)
Definition tomorrow (today : Date) : Date := today + 24 * 60 * 60 * 1000.

Definition startOf (b : BookingWithResource.t) : Date :=
  Booking.startTime (BookingWithResource.bookings b).
Definition endOf (b : BookingWithResource.t) : Date :=
  Booking.endTime (BookingWithResource.bookings b).

(** [stats], lines 28-41. *)
Definition stats (now today : Date) (resources : list Resource.t)
    (bookings : list BookingWithResource.t) : DashboardStats :=
  mkStats
    (count resources)
    (count (filter (fun r => Resource.isAvailable r) resources))
    (count (filter (fun b => (today <=? startOf b)
                             && (startOf b <? tomorrow today)) bookings))
    (count (filter (fun b => now <? startOf b) bookings)).

(** The test of lines 44-49: the booking is happening now. *)
Definition happeningNow (now : Date) (b : BookingWithResource.t) : bool :=
  (startOf b <=? now) && (now <? endOf b).

(** [activeBookings], lines 44-49: the first three bookings happening
    now. *)
Definition activeBookings (now : Date)
    (bookings : list BookingWithResource.t) : list BookingWithResource.t :=
  firstn 3 (filter (happeningNow now) bookings).

(** [bookedResourceIds], line 52: the resource ids of the active
    bookings, [.filter(Boolean)] dropping 0; the set is kept as the list
    of its members. *)
Definition bookedResourceIds (now : Date)
    (bookings : list BookingWithResource.t) : list Z :=
  filter (fun id => negb (id =? 0))
    (map (fun b => Booking.resourceId (BookingWithResource.bookings b))
       (activeBookings now bookings)).

(** [availableResources], lines 53-55. *)
Definition availableResources (now : Date) (resources : list Resource.t)
    (bookings : list BookingWithResource.t) : list Resource.t :=
  firstn 3
    (filter (fun r =>
               Resource.isAvailable r
               && negb (existsb (fun id => id =? Resource.id r)
                          (bookedResourceIds now bookings)))
       resources).
End Dashboard.


(** The request does not address the booking with this id. *)
Definition leavesAlone (req : Request) (id : Z) : Prop :=
  match req with
  | PUT_api_bookings (Some target) _ => target <> id
  | DELETE_api_bookings (Some target) => target <> id
  | _ => True
  end.

(* ================================================================== *)
(** * Properties of the conflict query *)
(* ================================================================== *)

Section QueryFacts.
Implicit Types (rows : list Booking.t) (b : Booking.t) (c : Drizzle.Condition).

(** [!!conflict] on the first selected row: some row passes the filter. *)
Lemma first_row_true_iff c rows :
  match Drizzle.select_where c rows with
  | _ :: _ => true
  | [] => false
  end = true <-> exists b, In b rows /\ c b = true.
Proof.
  unfold Drizzle.select_where.
  destruct (filter c rows) as [|hd tl] eqn:E; split.
  - discriminate.
  - intros (b & Hin & Hc).
    assert (In b (filter c rows)) as H by (apply filter_In; auto).
    rewrite E in H. destruct H.
  - intros _. exists hd.
    apply filter_In. rewrite E. left; reflexivity.
  - reflexivity.
Qed.

(** [conflicts.length > 0] says the same. *)
Lemma length_positive_first_row c rows :
  (0 <? Z.of_nat (List.length (Drizzle.select_where c rows))) =
  match Drizzle.select_where c rows with
  | _ :: _ => true
  | [] => false
  end.
Proof.
  destruct (Drizzle.select_where c rows); simpl; [reflexivity|].
  apply Z.ltb_lt. lia.
Qed.

(** storage.ts: its three cases are those of part_001 asked about the
    local reading of the candidate instants. *)
Lemma server_overlapCases_local (localTime : Date -> Date) (s e : Date) b :
  ServerStorage.overlapCases localTime s e b =
  StoragePart001.overlapCases (localTime s) (localTime e) b.
Proof. reflexivity. Qed.

(** The three cases, spelled out on a row. *)
Lemma overlapCases_true_iff (s e : Date) b :
  StoragePart001.overlapCases s e b = true <->
  (Booking.startTime b <= s /\ s <= Booking.endTime b) \/
  (Booking.startTime b <= e /\ e <= Booking.endTime b) \/
  (s <= Booking.startTime b /\ Booking.endTime b <= e).
Proof.
  unfold StoragePart001.overlapCases, Drizzle.or, Drizzle.and,
    Drizzle.lte, Drizzle.gte, Drizzle.col, Drizzle.val,
    bookings.startTime, bookings.endTime.
  simpl. rewrite !orb_true_iff, !andb_true_iff, !Z.leb_le.
  intuition (try discriminate; auto).
Qed.

(** For well-formed intervals the three cases collapse to the single
    closed-interval inequality. *)
Lemma overlapCases_closed (s e : Date) b :
  s <= e -> Booking.startTime b <= Booking.endTime b ->
  (StoragePart001.overlapCases s e b = true <->
   specOverlapRule s e (Booking.startTime b) (Booking.endTime b)).
Proof.
  intros Hse Hb. rewrite overlapCases_true_iff. unfold specOverlapRule.
  lia.
Qed.

(** What a row must satisfy to be selected by the part_001 query. *)
Lemma conditions_true_iff (r : Z) (s e : Date) (x : option Z) b :
  Drizzle.and (StoragePart001.conditions r s e x) b = true <->
  Booking.resourceId b = r /\
  StoragePart001.overlapCases s e b = true /\
  (truthy x = true -> Some (Booking.id b) <> x).
Proof.
  unfold StoragePart001.conditions.
  destruct x as [v|]; simpl truthy.
  - destruct (v =? 0) eqn:Hv; simpl negb; cbv iota.
    + unfold Drizzle.and. simpl forallb.
      unfold Drizzle.eq at 1, Drizzle.col, Drizzle.val, bookings.resourceId.
      rewrite !andb_true_iff, Z.eqb_eq.
      intuition discriminate.
    + unfold Drizzle.and. simpl forallb.
      unfold Drizzle.not, Drizzle.eq, Drizzle.col, Drizzle.val,
        bookings.resourceId, bookings.id.
      rewrite !andb_true_iff, Z.eqb_eq, negb_true_iff, Z.eqb_neq.
      split.
      * intros (Hr & Ho & Hid & _). repeat split; auto.
        intros _ Heq. injection Heq as Heq. contradiction.
      * intros (Hr & Ho & Hid). repeat split; auto.
        intros Heq. apply Hid; [reflexivity | congruence].
  - unfold Drizzle.and. simpl forallb.
    unfold Drizzle.eq at 1, Drizzle.col, Drizzle.val, bookings.resourceId.
    rewrite !andb_true_iff, Z.eqb_eq.
    intuition discriminate.
Qed.

(** part_001: the answer is [true] exactly when some row of the
    resource, other than the excluded one, falls under the three cases. *)
Lemma part001_true_iff rows (r : Z) (s e : Date) (x : option Z) :
  StoragePart001.checkBookingConflict rows r s e x = true <->
  exists b, In b rows /\ Booking.resourceId b = r /\
            StoragePart001.overlapCases s e b = true /\
            (truthy x = true -> Some (Booking.id b) <> x).
Proof.
  unfold StoragePart001.checkBookingConflict.
  rewrite first_row_true_iff.
  split; intros (b & Hin & H); exists b; split; auto;
    apply conditions_true_iff; exact H.
Qed.

Lemma part001_false_iff rows (r : Z) (s e : Date) (x : option Z) :
  StoragePart001.checkBookingConflict rows r s e x = false <->
  forall b, In b rows -> Booking.resourceId b = r ->
            (truthy x = true -> Some (Booking.id b) <> x) ->
            StoragePart001.overlapCases s e b = false.
Proof.
  split.
  - intros Hf b Hin Hr Hx.
    destruct (StoragePart001.overlapCases s e b) eqn:Ho; [|reflexivity].
    assert (StoragePart001.checkBookingConflict rows r s e x = true) as Ht
      by (apply part001_true_iff; exists b; auto).
    congruence.
  - intros H.
    destruct (StoragePart001.checkBookingConflict rows r s e x) eqn:Hc;
      [|reflexivity].
    apply part001_true_iff in Hc. destruct Hc as (b & Hin & Hr & Ho & Hx).
    rewrite (H b Hin Hr Hx) in Ho. discriminate.
Qed.

(** storage.ts: without a truthy exclusion id the query is the one of
    part_001 asked about the local reading of the candidate instants,
    whatever [query.where] stands for. *)
Lemma server_without_exclusion (localTime : Date -> Date)
    (qw : Drizzle.Condition -> option Drizzle.Condition)
    rows (r : Z) (s e : Date) (x : option Z) :
  truthy x = false ->
  ServerStorage.checkBookingConflict localTime qw rows r s e x =
  Some (StoragePart001.checkBookingConflict rows r
          (localTime s) (localTime e) x).
Proof.
  intros Hx.
  unfold ServerStorage.checkBookingConflict, ServerStorage.query,
    StoragePart001.checkBookingConflict, StoragePart001.conditions.
  rewrite Hx. cbv zeta. rewrite length_positive_first_row.
  reflexivity.
Qed.

(** storage.ts: with a truthy exclusion id, only the row carrying that
    very id can be reported. *)
Lemma server_reports_only_excluded (localTime : Date -> Date)
    (qw : Drizzle.Condition -> option Drizzle.Condition)
    rows (r : Z) (s e : Date) (x : Z) :
  x <> 0 ->
  ServerStorage.checkBookingConflict localTime qw rows r s e (Some x)
  = Some true ->
  exists b, In b rows /\ Booking.id b = x.
Proof.
  intros Hx.
  unfold ServerStorage.checkBookingConflict, ServerStorage.query.
  simpl truthy. apply Z.eqb_neq in Hx. rewrite Hx. simpl negb. cbv iota.
  destruct (qw _) as [q|]; [|discriminate].
  rewrite length_positive_first_row. intros H. injection H as H.
  apply first_row_true_iff in H. destruct H as (b & Hin & Hc).
  exists b. split; [exact Hin|].
  unfold Drizzle.and in Hc. simpl in Hc.
  apply andb_true_iff in Hc. destruct Hc as (_ & Hc).
  apply andb_true_iff in Hc. destruct Hc as (Hc & _).
  unfold Drizzle.eq, Drizzle.col, Drizzle.val, bookings.id in Hc.
  apply Z.eqb_eq in Hc. exact Hc.
Qed.
(** storage.ts, [query.where] read as the installed condition: with a
    truthy exclusion id the rows reported are those of the resource that
    fall under the three cases and carry the excluded id. *)
Lemma server_intended_true_iff (localTime : Date -> Date)
    rows (r : Z) (s e : Date) (x : Z) :
  x <> 0 ->
  (ServerStorage.checkBookingConflict localTime ServerStorage.intended
     rows r s e (Some x) = Some true <->
   exists b, In b rows /\ Booking.resourceId b = r /\
             StoragePart001.overlapCases (localTime s) (localTime e) b
             = true /\
             Booking.id b = x).
Proof.
  intros Hx. apply Z.eqb_neq in Hx.
  unfold ServerStorage.checkBookingConflict, ServerStorage.query,
    ServerStorage.intended.
  simpl truthy. rewrite Hx. simpl negb. cbv iota.
  rewrite length_positive_first_row.
  split.
  - intros H. injection H as H. apply first_row_true_iff in H.
    destruct H as (b & Hin & Hc). exists b. split; [exact Hin|].
    unfold Drizzle.and in Hc. simpl in Hc.
    unfold Drizzle.eq, Drizzle.col, Drizzle.val, bookings.resourceId,
      bookings.id in Hc.
    rewrite !andb_true_iff, !Z.eqb_eq in Hc.
    destruct Hc as ((Hr & Ho & _) & Hid & _). auto.
  - intros (b & Hin & Hr & Ho & Hid). f_equal.
    apply first_row_true_iff. exists b. split; [exact Hin|].
    unfold Drizzle.and. simpl.
    unfold Drizzle.eq, Drizzle.col, Drizzle.val, bookings.resourceId,
      bookings.id.
    rewrite !andb_true_iff, !Z.eqb_eq.
    change (ServerStorage.overlapCases localTime s e b)
      with (StoragePart001.overlapCases (localTime s) (localTime e) b).
    auto.
Qed.

(** storage.ts always resolves under that reading. *)
Lemma server_intended_resolves (localTime : Date -> Date)
    rows (r : Z) (s e : Date) (x : option Z) :
  exists answer,
    ServerStorage.checkBookingConflict localTime ServerStorage.intended
      rows r s e x
    = Some answer.
Proof.
  unfold ServerStorage.checkBookingConflict, ServerStorage.query,
    ServerStorage.intended.
  destruct (truthy x); [destruct x|]; eexists; reflexivity.
Qed.

(** part_001: a table without rows of the resource gives no conflict. *)
Lemma other_resources_never_conflict_part001 rows (r : Z) (s e : Date)
    (x : option Z) :
  (forall b, In b rows -> Booking.resourceId b <> r) ->
  StoragePart001.checkBookingConflict rows r s e x = false.
Proof.
  intros Hother. apply part001_false_iff.
  intros b Hin Hr _. destruct (Hother b Hin Hr).
Qed.
(** storage.ts: the same, without exclusion id under every reading and
    with any exclusion id under the intended one. *)
Lemma other_resources_never_conflict_server (localTime : Date -> Date)
    rows (r : Z) (s e : Date) :
  (forall b, In b rows -> Booking.resourceId b <> r) ->
  (forall qw,
     ServerStorage.checkBookingConflict localTime qw rows r s e None
     = Some false) /\
  (forall x,
     ServerStorage.checkBookingConflict localTime ServerStorage.intended
       rows r s e x
     = Some false).
Proof.
  intros Hother.
  assert (forall qw x, truthy x = false ->
            ServerStorage.checkBookingConflict localTime qw rows r s e x
            = Some false)
    as Hplain.
  { intros qw x Hx. rewrite server_without_exclusion by exact Hx.
    rewrite other_resources_never_conflict_part001 by exact Hother.
    reflexivity. }
  split; [intros qw; apply Hplain; reflexivity|].
  intros x. destruct (truthy x) eqn:Hx; [|apply Hplain; exact Hx].
  destruct x as [v|]; [|discriminate].
  assert (v <> 0) as Hv
    by (simpl in Hx; apply negb_true_iff, Z.eqb_neq in Hx; exact Hx).
  destruct (server_intended_resolves localTime rows r s e (Some v))
    as ([|] & Hans);
    [|exact Hans].
  apply server_intended_true_iff in Hans; [|exact Hv].
  destruct Hans as (b & Hin & Hr & _). destruct (Hother b Hin Hr).
Qed.
End QueryFacts.

(* ================================================================== *)
(** * The overlap rule (claims C1, C3, C7, C8) *)
(* ================================================================== *)

(** C8.  For intervals [[s1,e1)] and [[s2,e2)] with [s1 < e1] and
    [s2 < e2], the three-case condition of the checker (start within, end
    within, encloses), in either copy, holds of an existing row exactly
    when the single inequality [s1 <= e2 AND s2 <= e1] does; for
    storage.ts [s1] and [e1] are the candidate's instants as the database
    receives them, which are the instants themselves in UTC. *)
Theorem three_cases_equal_single_inequality :
  forall (s1 e1 : Date) (existing : Booking.t),
    s1 < e1 ->
    Booking.startTime existing < Booking.endTime existing ->
    (StoragePart001.overlapCases s1 e1 existing = true <->
     specOverlapRule s1 e1
       (Booking.startTime existing) (Booking.endTime existing)) /\
    (ServerStorage.overlapCases ServerStorage.utc s1 e1 existing = true <->
     specOverlapRule s1 e1
       (Booking.startTime existing) (Booking.endTime existing)) /\
    (forall localTime : Date -> Date,
       localTime s1 < localTime e1 ->
       (ServerStorage.overlapCases localTime s1 e1 existing = true <->
        specOverlapRule (localTime s1) (localTime e1)
          (Booking.startTime existing) (Booking.endTime existing))).
Proof.
  intros s1 e1 b H1 H2.
  split; [apply overlapCases_closed; lia|].
  split.
  - rewrite server_overlapCases_local.
    apply overlapCases_closed; unfold ServerStorage.utc; lia.
  - intros localTime Hlocal. rewrite server_overlapCases_local.
    apply overlapCases_closed; lia.
Qed.

Lemma three_cases_equal_single_inequality_witness :
  (StoragePart001.overlapCases (clock 10 30) (clock 11 30) (bookingA 5 1)
     = true <->
   specOverlapRule (clock 10 30) (clock 11 30) (clock 10 0) (clock 11 0)) /\
  (ServerStorage.overlapCases ServerStorage.utc
     (clock 10 30) (clock 11 30) (bookingA 5 1)
     = true <->
   specOverlapRule (clock 10 30) (clock 11 30) (clock 10 0) (clock 11 0)) /\
  (ServerStorage.overlapCases (ServerStorage.zone 120)
     (clock 10 30) (clock 11 30) (bookingA 5 1)
     = true <->
   specOverlapRule (clock 12 30) (clock 13 30) (clock 10 0) (clock 11 0)).
Proof.
  destruct (three_cases_equal_single_inequality
              (clock 10 30) (clock 11 30) (bookingA 5 1))
    as (Hpart & Hutc & Hlocal).
  - vm_compute. reflexivity.
  - vm_compute. reflexivity.
  - split; [exact Hpart|]. split; [exact Hutc|].
    apply (Hlocal (ServerStorage.zone 120)). vm_compute. reflexivity.
Defined.




(** C3, as stated, fails: with A = [10:00,11:00) on resource R stored, the
    candidate [11:00,12:00) on R does not get [false] (storage.ts: run
    in UTC). *)
Lemma abutting_candidate_not_cleared :
  ~ (forall (rows : list Booking.t) (id R : Z),
       In (bookingA id R) rows ->
       StoragePart001.checkBookingConflict rows R
         (clock 11 0) (clock 12 0) None = false) /\
  ~ (forall (rows : list Booking.t) (id R : Z),
       In (bookingA id R) rows ->
       ServerStorage.checkBookingConflict ServerStorage.utc
         ServerStorage.intended rows R
         (clock 11 0) (clock 12 0) None = Some false).
Proof.
  split; intros H;
    specialize (H [bookingA 1 1] 1 1 (or_introl Logic.eq_refl));
    vm_compute in H; discriminate.
Qed.

(** C3 (amended).  For every store state containing a booking A on
    resource R, a candidate on R that starts exactly at the instant A
    ends is reported as a conflict; in particular A = [10:00,11:00)
    against [11:00,12:00) returns true.  This holds of part_001, and of
    storage.ts whenever the process's zone leaves the candidate's start
    as it is, as UTC does. *)
Theorem abutting_candidate_conflicts :
  forall (rows : list Booking.t) (A : Booking.t) (endTime : Date),
    In A rows ->
    Booking.startTime A <= Booking.endTime A ->
    Booking.endTime A <= endTime ->
    StoragePart001.checkBookingConflict rows (Booking.resourceId A)
      (Booking.endTime A) endTime None = true /\
    (forall (localTime : Date -> Date) qw,
       localTime (Booking.endTime A) = Booking.endTime A ->
       ServerStorage.checkBookingConflict localTime qw rows
         (Booking.resourceId A) (Booking.endTime A) endTime None
       = Some true).
Proof.
  intros rows A e Hin HA He.
  assert (forall e', StoragePart001.checkBookingConflict rows
            (Booking.resourceId A) (Booking.endTime A) e' None = true)
    as Hpart.
  { intros e'. apply part001_true_iff. exists A. repeat split; auto.
    - apply overlapCases_true_iff. left. lia.
    - discriminate. }
  split; [apply Hpart|].
  intros localTime qw Hs.
  rewrite server_without_exclusion by reflexivity.
  rewrite Hs, Hpart. reflexivity.
Qed.

Lemma abutting_candidate_conflicts_witness :
  StoragePart001.checkBookingConflict [bookingA 1 1] 1
    (clock 11 0) (clock 12 0) None = true /\
  (forall qw,
     ServerStorage.checkBookingConflict ServerStorage.utc qw [bookingA 1 1] 1
       (clock 11 0) (clock 12 0) None = Some true).
Proof.
  destruct (abutting_candidate_conflicts [bookingA 1 1] (bookingA 1 1)
              (clock 12 0)) as (Hpart & Hserver).
  - simpl. left. reflexivity.
  - vm_compute. discriminate.
  - vm_compute. discriminate.
  - split; [exact Hpart|].
    intros qw. apply (Hserver ServerStorage.utc qw). reflexivity.
Defined.

(** storage.ts away from UTC: run two hours east of it, the checker
    clears the candidate [11:00,12:00) although A = [10:00,11:00) ends
    the instant it starts, and clears even the candidate [10:30,11:30),
    which shares half an hour with A; it reports [08:30,09:30), which
    ends half an hour before A starts. *)
Lemma server_storage_compares_local_time :
  forall qw,
    ServerStorage.checkBookingConflict (ServerStorage.zone 120) qw
      [bookingA 1 1] 1 (clock 11 0) (clock 12 0) None = Some false /\
    ServerStorage.checkBookingConflict (ServerStorage.zone 120) qw
      [bookingA 1 1] 1 (clock 10 30) (clock 11 30) None = Some false /\
    ServerStorage.checkBookingConflict (ServerStorage.zone 120) qw
      [bookingA 1 1] 1 (clock 8 30) (clock 9 30) None = Some true.
Proof. intros qw. repeat split. Qed.

(** C7.  Bookings on other resources never count: the answer of
    [checkBookingConflict] is the answer on the rows of the asked
    resource alone, so a store holding only bookings of other resources
    yields no conflict whatever the times; a candidate on resource 2 over
    [10:00,11:00) does not conflict with the same interval booked on
    resource 1.  (For storage.ts: in every zone, the call without
    exclusion id under every reading of [query.where], any call under the
    intended one.) *)
Theorem other_resources_never_conflict :
  forall (rows : list Booking.t) (resourceId : Z) (startTime endTime : Date)
         (excludeBookingId : option Z),
    let sameResource := fun b => Booking.resourceId b =? resourceId in
    StoragePart001.checkBookingConflict rows resourceId startTime endTime
      excludeBookingId =
    StoragePart001.checkBookingConflict (filter sameResource rows)
      resourceId startTime endTime excludeBookingId /\
    (forall (localTime : Date -> Date) qw,
       ServerStorage.checkBookingConflict localTime qw rows resourceId
         startTime endTime None =
       ServerStorage.checkBookingConflict localTime qw
         (filter sameResource rows) resourceId startTime endTime None) /\
    ((forall b, In b rows -> Booking.resourceId b <> resourceId) ->
     StoragePart001.checkBookingConflict rows resourceId startTime endTime
       excludeBookingId = false /\
     (forall (localTime : Date -> Date) qw,
        ServerStorage.checkBookingConflict localTime qw rows resourceId
          startTime endTime None = Some false) /\
     (forall localTime : Date -> Date,
        ServerStorage.checkBookingConflict localTime ServerStorage.intended
          rows resourceId startTime endTime excludeBookingId = Some false)).
Proof.
  intros rows r s e x sameResource.
  assert (forall s' e' y,
            StoragePart001.checkBookingConflict rows r s' e' y =
            StoragePart001.checkBookingConflict (filter sameResource rows)
              r s' e' y) as Hfilter.
  { intros s' e' y. apply eq_true_iff_eq. rewrite !part001_true_iff.
    split; intros (b & Hin & Hr & H); exists b.
    - split; [|split; [exact Hr | exact H]].
      apply filter_In. split; [exact Hin|]. apply Z.eqb_eq. exact Hr.
    - split; [|split; [exact Hr | exact H]].
      apply filter_In in Hin. apply Hin. }
  split; [apply Hfilter|]. split.
  - intros localTime qw.
    rewrite !server_without_exclusion by reflexivity.
    rewrite <- Hfilter. reflexivity.
  - intros Hother.
    split; [apply other_resources_never_conflict_part001; exact Hother|].
    split.
    + intros localTime qw.
      apply (other_resources_never_conflict_server localTime rows r s e
               Hother).
    + intros localTime.
      apply (other_resources_never_conflict_server localTime rows r s e
               Hother).
Qed.

Lemma other_resources_never_conflict_witness :
  StoragePart001.checkBookingConflict [bookingA 1 1] 2
    (clock 10 0) (clock 11 0) None = false /\
  (forall (localTime : Date -> Date) qw,
     ServerStorage.checkBookingConflict localTime qw [bookingA 1 1] 2
       (clock 10 0) (clock 11 0) None = Some false) /\
  (forall localTime : Date -> Date,
     ServerStorage.checkBookingConflict localTime ServerStorage.intended
       [bookingA 1 1] 2 (clock 10 0) (clock 11 0) None = Some false).
Proof.
  apply (other_resources_never_conflict [bookingA 1 1] 2
           (clock 10 0) (clock 11 0) None).
  intros b [<-|[]]. vm_compute. discriminate.
Defined.

(* ================================================================== *)
(** * The exclusion parameter (claims C2, C10) *)
(* ================================================================== *)

(** part_001 does what the exclusion parameter is for: with a non-zero
    [excludeBookingId] the answer is the one obtained without exclusion
    on the table with that booking taken out. *)
Lemma part001_exclusion_removes_booking :
  forall (rows : list Booking.t) (resourceId : Z) (startTime endTime : Date)
         (x : Z),
    x <> 0 ->
    StoragePart001.checkBookingConflict rows resourceId startTime endTime
      (Some x) =
    StoragePart001.checkBookingConflict
      (filter (fun b => negb (Booking.id b =? x)) rows)
      resourceId startTime endTime None.
Proof.
  intros rows r s e x Hx. apply eq_true_iff_eq. rewrite !part001_true_iff.
  assert (truthy (Some x) = true) as Ht
    by (simpl; apply Z.eqb_neq in Hx; rewrite Hx; reflexivity).
  split; intros (b & Hin & Hr & Ho & Hid); exists b.
  - split; [|split; [exact Hr | split; [exact Ho | discriminate]]].
    apply filter_In. split; [exact Hin|].
    apply negb_true_iff, Z.eqb_neq. intros Heq. apply (Hid Ht). congruence.
  - apply filter_In in Hin. destruct Hin as (Hin & Hne).
    split; [exact Hin | split; [exact Hr | split; [exact Ho |]]].
    intros _ Heq. apply negb_true_iff, Z.eqb_neq in Hne. congruence.
Qed.

(** The worked case of C2 on part_001: in every store in which booking 5
    = [10:00,11:00) is the only booking of its resource, the candidate
    [10:30,11:30) on that resource is cleared when booking 5 is excluded
    and reported when it is not. *)
Lemma part001_update_self_exclusion :
  forall (rows : list Booking.t) (R : Z),
    In (bookingA 5 R) rows ->
    (forall b, In b rows -> Booking.resourceId b = R -> b = bookingA 5 R) ->
    StoragePart001.checkBookingConflict rows R
      (clock 10 30) (clock 11 30) (Some 5) = false /\
    StoragePart001.checkBookingConflict rows R
      (clock 10 30) (clock 11 30) None = true.
Proof.
  intros rows R Hin Honly. split.
  - apply part001_false_iff. intros b Hb Hr Hx.
    rewrite (Honly b Hb Hr) in Hx. exfalso. apply Hx; reflexivity.
  - apply part001_true_iff. exists (bookingA 5 R).
    repeat split; auto. discriminate.
Qed.

(** C2 on src/server/storage.ts.  The exclusion branch adds
    [eq(bookings.id, excludeBookingId)] where the claim needs its
    negation.  For booking 5 = [10:00,11:00) alone and candidate
    [10:30,11:30) with [excludeBookingId = 5] the call answers true (a
    conflict with itself) when [query.where] is read as the installed
    condition, and is rejected when the query is refused: it does not
    answer false by exclusion.  And whatever [query.where] contributes, a
    conflict with any other booking (here booking 6) is never reported,
    though the same call without exclusion reports it.  (The answers
    [true] are those of a process in UTC; what is never reported and what
    is rejected is so in every zone.) *)
Theorem server_storage_exclusion_selects_the_excluded :
  ServerStorage.checkBookingConflict ServerStorage.utc ServerStorage.intended
    [bookingA 5 1] 1 (clock 10 30) (clock 11 30) (Some 5) = Some true /\
  (forall localTime : Date -> Date,
     ServerStorage.checkBookingConflict localTime ServerStorage.refused
       [bookingA 5 1] 1 (clock 10 30) (clock 11 30) (Some 5) = None) /\
  (forall (localTime : Date -> Date) qw,
     ServerStorage.checkBookingConflict localTime qw [bookingA 6 1] 1
       (clock 10 30) (clock 11 30) (Some 5) <> Some true) /\
  (forall qw,
     ServerStorage.checkBookingConflict ServerStorage.utc qw [bookingA 6 1] 1
       (clock 10 30) (clock 11 30) None = Some true).
Proof.
  split; [reflexivity|]. split; [reflexivity|]. split.
  - intros localTime qw H.
    apply server_reports_only_excluded in H; [|discriminate].
    destruct H as (b & [<-|[]] & Hid). vm_compute in Hid. discriminate.
  - intros qw. reflexivity.
Qed.

(** C10.  Passing [excludeBookingId = 0] is the same as passing none, in
    both copies: the guard [if (excludeBookingId)] takes 0 for absent, so
    a booking whose id is 0 stays in the comparison set and is reported
    when it overlaps (for storage.ts: in every zone, when it falls under
    the three cases as the database receives the candidate). *)
Theorem exclude_zero_is_no_exclusion :
  forall (rows : list Booking.t) (resourceId : Z) (startTime endTime : Date),
    StoragePart001.checkBookingConflict rows resourceId startTime endTime
      (Some 0) =
    StoragePart001.checkBookingConflict rows resourceId startTime endTime
      None /\
    (forall (localTime : Date -> Date) qw,
       ServerStorage.checkBookingConflict localTime qw rows resourceId
         startTime endTime (Some 0) =
       ServerStorage.checkBookingConflict localTime qw rows resourceId
         startTime endTime None) /\
    (forall b,
       In b rows -> Booking.id b = 0 -> Booking.resourceId b = resourceId ->
       (StoragePart001.overlapCases startTime endTime b = true ->
        StoragePart001.checkBookingConflict rows resourceId startTime endTime
          (Some 0) = true /\
        forall qw,
          ServerStorage.checkBookingConflict ServerStorage.utc qw rows
            resourceId startTime endTime (Some 0) = Some true) /\
       (forall (localTime : Date -> Date) qw,
          ServerStorage.overlapCases localTime startTime endTime b = true ->
          ServerStorage.checkBookingConflict localTime qw rows resourceId
            startTime endTime (Some 0) = Some true)).
Proof.
  intros rows r s e.
  split; [reflexivity|]. split; [intros localTime qw; reflexivity|].
  intros b Hin Hid Hr.
  assert (forall s' e', StoragePart001.overlapCases s' e' b = true ->
            StoragePart001.checkBookingConflict rows r s' e' (Some 0) = true)
    as Hpart.
  { intros s' e' Ho. apply part001_true_iff. exists b. repeat split; auto.
    simpl. discriminate. }
  assert (forall (localTime : Date -> Date) qw,
            ServerStorage.overlapCases localTime s e b = true ->
            ServerStorage.checkBookingConflict localTime qw rows r s e
              (Some 0) = Some true) as Hserver.
  { intros localTime qw Ho.
    rewrite server_without_exclusion by reflexivity.
    rewrite Hpart; [reflexivity|]. exact Ho. }
  split; [|exact Hserver].
  intros Ho. split; [apply Hpart; exact Ho|].
  intros qw. apply Hserver. exact Ho.
Qed.

Lemma exclude_zero_is_no_exclusion_witness :
  StoragePart001.checkBookingConflict [bookingA 0 1] 1
    (clock 10 30) (clock 11 30) (Some 0) = true /\
  forall qw,
    ServerStorage.checkBookingConflict ServerStorage.utc qw [bookingA 0 1] 1
      (clock 10 30) (clock 11 30) (Some 0) = Some true.
Proof.
  destruct (exclude_zero_is_no_exclusion [bookingA 0 1] 1
              (clock 10 30) (clock 11 30)) as (_ & _ & H).
  destruct (H (bookingA 0 1)) as (Hutc & _).
  - simpl. left. reflexivity.
  - reflexivity.
  - reflexivity.
  - apply Hutc. vm_compute. reflexivity.
Defined.

(* ================================================================== *)
(** * The checker as a query, and the validation gate of the routes
      (claims C9, C5, C6) *)
(* ================================================================== *)

(** A statement: the call is logged, and refused or let through. *)
Lemma statement_run (refuses : Call -> bool) (c : Call) (w : World) :
  Storage.statement refuses c w =
  (if refuses c then Rejected DatabaseError else Resolved tt,
   mkWorld (database w) (calls w ++ [c])).
Proof.
  unfold Storage.statement, bind, called, throw, ret.
  destruct (refuses c); reflexivity.
Qed.

(** One run of the storage method: the answer of the conflict query on
    the current table unless the statement is refused, the call
    recorded, the database as it was. *)
Lemma checkBookingConflict_run (refuses : Call -> bool)
    (q : list Booking.t -> Z -> Date -> Date -> option Z -> option bool)
    (r : Z) (s e : Date) (x : option Z) (w : World) :
  Storage.checkBookingConflict refuses q r s e x w =
  (if refuses (CallCheckBookingConflict r s e x)
   then Rejected DatabaseError
   else match q (bookings_table (database w)) r s e x with
        | Some hasConflict => Resolved hasConflict
        | None => Rejected DatabaseError
        end,
   mkWorld (database w) (calls w ++ [CallCheckBookingConflict r s e x])).
Proof.
  unfold Storage.checkBookingConflict.
  unfold bind at 1. rewrite statement_run.
  destruct (refuses _); [reflexivity|].
  unfold bind, getDatabase. simpl.
  destruct (q (bookings_table (database w)) r s e x); reflexivity.
Qed.

Lemma newCalls_app (w : World) (d : Database) (made : list Call) :
  newCalls w (mkWorld d (calls w ++ made)) = made.
Proof.
  unfold newCalls. simpl.
  induction (calls w) as [|c cs IH]; simpl; [reflexivity | exact IH].
Qed.

(** C9, as stated, fails: the call is a statement sent to the database,
    and the database refuses it for arguments its columns cannot take,
    whatever the tables hold.  On the empty store, where no resource has
    a booking, a call for a resource id beyond 32 bits is rejected on
    both copies, and so is, on part_001, a call for an instant of the
    year 10000: the call fails where the claim has it answer false. *)
Lemma check_fails_on_arguments_the_database_refuses :
  ~ (forall (w : World) (resourceId : Z) (startTime endTime : Date)
            (excludeBookingId : option Z),
       (forall b, In b (bookings_table (database w)) ->
                  Booking.resourceId b <> resourceId) ->
       fst (Storage.checkBookingConflict part001Refusals part001Query
              resourceId startTime endTime excludeBookingId w)
       = Resolved false) /\
  ~ (forall (w : World) (resourceId : Z) (startTime endTime : Date)
            (excludeBookingId : option Z),
       (forall b, In b (bookings_table (database w)) ->
                  Booking.resourceId b <> resourceId) ->
       fst (Storage.checkBookingConflict serverRefusals
              (serverQuery ServerStorage.utc ServerStorage.intended)
              resourceId startTime endTime excludeBookingId w)
       = Resolved false) /\
  fst (Storage.checkBookingConflict part001Refusals part001Query
         1 year10000 (year10000 + clock 1 0) None emptyWorld)
  = Rejected DatabaseError.
Proof.
  split; [|split; [|reflexivity]]; intros H;
    specialize (H emptyWorld 2147483648 (clock 10 0) (clock 11 0) None);
    vm_compute in H; discriminate H; intros b [].
Qed.

(** C9 (amended).  [checkBookingConflict] is a side-effect-free query:
    for every store and every input a call leaves the database unchanged
    and a second call with the same arguments has the same outcome, on
    both copies of the storage, in every zone.  A call whose statement
    the database refuses for its arguments is rejected; every other
    call, on part_001, resolves to the boolean the current bookings
    table determines, and that boolean is false for a resource without
    bookings.  So it is on storage.ts for calls without a non-zero
    exclusion id (the table being asked about the candidate as the
    database receives it). *)
Theorem checkBookingConflict_is_query :
  forall (refuses : Call -> bool) (w : World) (resourceId : Z)
         (startTime endTime : Date) (excludeBookingId : option Z),
    let call := Storage.checkBookingConflict refuses part001Query
                  resourceId startTime endTime excludeBookingId in
    let refused :=
      refuses (CallCheckBookingConflict resourceId startTime endTime
                 excludeBookingId) in
    (database (snd (call w)) = database w /\
     fst (call (snd (call w))) = fst (call w) /\
     fst (call w) =
     if refused then Rejected DatabaseError
     else Resolved (StoragePart001.checkBookingConflict
                      (bookings_table (database w))
                      resourceId startTime endTime excludeBookingId)) /\
    (forall (localTime : Date -> Date) qw,
       let call' := Storage.checkBookingConflict refuses
                      (serverQuery localTime qw)
                      resourceId startTime endTime excludeBookingId in
       database (snd (call' w)) = database w /\
       fst (call' (snd (call' w))) = fst (call' w) /\
       (truthy excludeBookingId = false ->
        fst (call' w) =
        if refused then Rejected DatabaseError
        else Resolved (StoragePart001.checkBookingConflict
                         (bookings_table (database w))
                         resourceId (localTime startTime) (localTime endTime)
                         excludeBookingId))) /\
    ((forall b, In b (bookings_table (database w)) ->
                Booking.resourceId b <> resourceId) ->
     refused = false ->
     fst (call w) = Resolved false /\
     (forall (localTime : Date -> Date) qw,
        truthy excludeBookingId = false ->
        fst (Storage.checkBookingConflict refuses (serverQuery localTime qw)
               resourceId startTime endTime excludeBookingId w)
        = Resolved false)).
Proof.
  intros refuses w r s e x call refused. subst call refused.
  split; [|split].
  - rewrite !checkBookingConflict_run. cbn [database fst snd].
    unfold part001Query.
    split; [reflexivity|]. split; reflexivity.
  - intros localTime qw call'. subst call'.
    rewrite !checkBookingConflict_run. unfold serverQuery.
    cbn [database fst snd].
    split; [reflexivity|]. split; [reflexivity|].
    intros Hx. rewrite server_without_exclusion by exact Hx.
    reflexivity.
  - intros Hnone Hacc. split.
    + rewrite checkBookingConflict_run. cbn [fst]. rewrite Hacc.
      unfold part001Query. f_equal.
      apply other_resources_never_conflict_part001. exact Hnone.
    + intros localTime qw Hx. rewrite checkBookingConflict_run.
      unfold serverQuery. cbn [fst]. rewrite Hacc.
      rewrite server_without_exclusion by exact Hx.
      rewrite other_resources_never_conflict_part001 by exact Hnone.
      reflexivity.
Qed.

Lemma checkBookingConflict_is_query_witness :
  fst (Storage.checkBookingConflict part001Refusals part001Query
         2 (clock 10 0) (clock 11 0) None worldA) = Resolved false /\
  (forall (localTime : Date -> Date) qw,
     fst (Storage.checkBookingConflict serverRefusals
            (serverQuery localTime qw)
            2 (clock 10 0) (clock 11 0) None worldA) = Resolved false).
Proof.
  split.
  - pose proof (checkBookingConflict_is_query part001Refusals worldA 2
                  (clock 10 0) (clock 11 0) None) as H.
    cbv zeta in H. destruct H as (_ & _ & H).
    destruct H as (H & _); [|reflexivity|exact H].
    intros b Hin. vm_compute in Hin. destruct Hin as [<-|[]].
    vm_compute. discriminate.
  - pose proof (checkBookingConflict_is_query serverRefusals worldA 2
                  (clock 10 0) (clock 11 0) None) as H.
    cbv zeta in H. destruct H as (_ & _ & H).
    destruct H as (_ & H); [|reflexivity|].
    + intros b Hin. vm_compute in Hin. destruct Hin as [<-|[]].
      vm_compute. discriminate.
    + intros localTime qw. apply H. reflexivity.
Defined.



(** The creation route on any conflict query: the check is the first
    storage call; an interval with [end <= start] never reaches
    [createBooking]. *)
Lemma post_api_bookings_invalid_interval (refuses : Call -> bool)
    (q : list Booking.t -> Z -> Date -> Date -> option Z -> option bool)
    (w : World) (body : InsertBooking.t) :
  InsertBooking.endTime body <= InsertBooking.startTime body ->
  let check :=
    CallCheckBookingConflict (InsertBooking.resourceId body)
      (InsertBooking.startTime body) (InsertBooking.endTime body) None in
  Routes.post_api_bookings refuses q (Some body) w =
  (if refuses check
   then mkResponse 500 (JMessage "Failed to create booking")
   else
     match q (bookings_table (database w)) (InsertBooking.resourceId body)
             (InsertBooking.startTime body) (InsertBooking.endTime body) None
     with
     | Some true => mkResponse 409 (JMessage conflictMessage)
     | Some false =>
         mkResponse 400 (JMessage "End time must be after start time")
     | None => mkResponse 500 (JMessage "Failed to create booking")
     end,
   mkWorld (database w) (calls w ++ [check])).
Proof.
  intros Hle check. subst check. apply Z.leb_le in Hle.
  unfold Routes.post_api_bookings, Routes.tryCatch, Routes.parse.
  unfold bind at 1. unfold ret at 1. unfold bind at 1.
  rewrite checkBookingConflict_run.
  destruct (refuses _); [reflexivity|].
  destruct (q _ _ _ _ _) as [[|]|]; try reflexivity.
  rewrite Hle. reflexivity.
Qed.

(** C5, as stated, fails: on the store holding booking 1 = [10:00,11:00)
    on resource 1, the request for [10:30,10:30) on resource 1 has
    [end == start] and is answered 409 (conflict), not 400. *)
Lemma empty_interval_on_booked_slot_is_a_conflict :
  let body := InsertBooking.mk 1 (clock 10 30) (clock 10 30) "bob" "sync" in
  InsertBooking.endTime body = InsertBooking.startTime body /\
  fst (Routes.post_api_bookings part001Refusals part001Query (Some body)
         worldA) =
    mkResponse 409 (JMessage conflictMessage) /\
  fst (Routes.post_api_bookings serverRefusals
         (serverQuery ServerStorage.utc ServerStorage.intended)
         (Some body) worldA) =
    mkResponse 409 (JMessage conflictMessage) /\
  mkResponse 409 (JMessage conflictMessage) <>
    mkResponse 400 (JMessage "End time must be after start time").
Proof.
  cbv zeta. repeat split; try reflexivity. discriminate.
Qed.

(** C5 (amended).  For every booking-creation request the conflict check
    is run first and interval validity ([end <= start]) second.  A
    candidate with [end <= start], in particular [end == start], is
    always rejected, nothing is written and the check is the only call
    made on the storage: with a server error (500) when the check
    fails, with the Conflict error (409) when the check reports a
    conflict, and with the InvalidInterval error (400, a distinct
    response) otherwise.  On part_001 the check fails only when the
    database refuses its statement; on storage.ts as well, as the
    creation route passes no exclusion id. *)
Theorem invalid_interval_rejected_after_conflict_check :
  forall (refuses : Call -> bool) (w : World) (body : InsertBooking.t),
    InsertBooking.endTime body <= InsertBooking.startTime body ->
    let check :=
      CallCheckBookingConflict (InsertBooking.resourceId body)
        (InsertBooking.startTime body) (InsertBooking.endTime body) None in
    let rejection (hasConflict : bool) :=
      if refuses check
      then mkResponse 500 (JMessage "Failed to create booking")
      else if hasConflict then mkResponse 409 (JMessage conflictMessage)
      else mkResponse 400 (JMessage "End time must be after start time") in
    (let (res, w') :=
       Routes.post_api_bookings refuses part001Query (Some body) w in
     res = rejection
             (StoragePart001.checkBookingConflict
                (bookings_table (database w))
                (InsertBooking.resourceId body)
                (InsertBooking.startTime body)
                (InsertBooking.endTime body) None) /\
     database w' = database w /\ newCalls w w' = [check])
    /\
    (forall (localTime : Date -> Date) qw,
       exists hasConflict,
         ServerStorage.checkBookingConflict localTime qw
           (bookings_table (database w))
           (InsertBooking.resourceId body)
           (InsertBooking.startTime body)
           (InsertBooking.endTime body) None = Some hasConflict /\
         let (res, w') :=
           Routes.post_api_bookings refuses (serverQuery localTime qw)
             (Some body) w in
         res = rejection hasConflict /\ database w' = database w /\
         newCalls w w' = [check]).
Proof.
  intros refuses w body Hle check rejection.
  subst check rejection. split.
  - rewrite (post_api_bookings_invalid_interval refuses part001Query w body
               Hle).
    unfold part001Query. rewrite newCalls_app.
    destruct (refuses _);
      [|destruct (StoragePart001.checkBookingConflict _ _ _ _ _)];
      repeat split; reflexivity.
  - intros localTime qw.
    rewrite (post_api_bookings_invalid_interval refuses
               (serverQuery localTime qw) w body Hle).
    unfold serverQuery.
    rewrite server_without_exclusion by reflexivity.
    eexists. split; [reflexivity|].
    rewrite newCalls_app.
    destruct (refuses _);
      [|destruct (StoragePart001.checkBookingConflict _ _ _ _ _)];
      repeat split; reflexivity.
Qed.

Lemma invalid_interval_rejected_after_conflict_check_witness :
  let body := InsertBooking.mk 1 (clock 12 0) (clock 12 0) "bob" "sync" in
  let (res, w') :=
    Routes.post_api_bookings part001Refusals part001Query (Some body)
      worldA in
  res = mkResponse 400 (JMessage "End time must be after start time") /\
  database w' = database worldA /\
  newCalls worldA w' =
    [CallCheckBookingConflict 1 (clock 12 0) (clock 12 0) None].
Proof.
  cbv zeta.
  pose proof (invalid_interval_rejected_after_conflict_check part001Refusals
                worldA
                (InsertBooking.mk 1 (clock 12 0) (clock 12 0) "bob" "sync"))
    as H.
  cbv zeta in H. destruct H as (H & _).
  - vm_compute. discriminate.
  - exact H.
Defined.

(** The instants the [timestamp] encoder cannot write: on part_001 the
    creation request for the empty interval at the first instant of the
    year 10000 is answered with a server error, the check being refused;
    on storage.ts, whose check does not go through the encoder, it is
    answered with the InvalidInterval error. *)
Lemma unwritable_empty_interval_requests :
  let body := InsertBooking.mk 1 year10000 year10000 "bob" "sync" in
  fst (Routes.post_api_bookings part001Refusals part001Query (Some body)
         worldA) =
    mkResponse 500 (JMessage "Failed to create booking") /\
  forall qw,
    fst (Routes.post_api_bookings serverRefusals
           (serverQuery ServerStorage.utc qw) (Some body) worldA) =
      mkResponse 400 (JMessage "End time must be after start time").
Proof. cbv zeta. split; [reflexivity | intros qw; reflexivity]. Qed.

(** What one run of [storage.getBooking] does. *)
Lemma getBooking_run (refuses : Call -> bool) (id : Z) (w : World) :
  Storage.getBooking refuses id w =
  (if refuses (CallGetBooking id) then Rejected DatabaseError
   else
     Resolved
       match filter (hasId id) (bookings_table (database w)) with
       | booking :: _ =>
           Some (BookingWithResource.mk booking
                   (find (fun r => Resource.id r =? Booking.resourceId booking)
                      (resources_table (database w))))
       | [] => None
       end,
   mkWorld (database w) (calls w ++ [CallGetBooking id])).
Proof.
  unfold Storage.getBooking. unfold bind at 1. rewrite statement_run.
  destruct (refuses _); [reflexivity|].
  unfold bind, getDatabase. simpl.
  destruct (filter (hasId id) (bookings_table (database w))); reflexivity.
Qed.

(** What one run of [storage.updateBooking] does. *)
Lemma updateBooking_run (refuses : Call -> bool) (id : Z)
    (patch : PartialInsertBooking.t) (w : World) :
  Storage.updateBooking refuses id patch w =
  if refuses (CallUpdateBooking id patch) then
    (Rejected DatabaseError,
     mkWorld (database w) (calls w ++ [CallUpdateBooking id patch]))
  else if Storage.refusedUpdate (database w) id patch then
    (Rejected DatabaseError,
     mkWorld (database w) (calls w ++ [CallUpdateBooking id patch]))
  else
    (Resolved (find (hasId id)
                 (Storage.updatedRows id patch (bookings_table (database w)))),
     mkWorld
       (mkDatabase (resources_table (database w))
          (Storage.updatedRows id patch (bookings_table (database w)))
          (resources_id_seq (database w)) (bookings_id_seq (database w)))
       (calls w ++ [CallUpdateBooking id patch])).
Proof.
  unfold Storage.updateBooking. unfold bind at 1. rewrite statement_run.
  destruct (refuses _); [reflexivity|].
  unfold bind, getDatabase. simpl.
  destruct (Storage.refusedUpdate (database w) id patch); reflexivity.
Qed.

(** The guarded block of the update route, case by case. *)
Lemma put_api_bookings_guard_run (refuses : Call -> bool)
    (q : list Booking.t -> Z -> Date -> Date -> option Z -> option bool)
    (id : Z) (patch : PartialInsertBooking.t) (w : World) :
  Routes.put_api_bookings_guard refuses q id patch w =
  if Routes.updatesTimeOrResource patch then
    if refuses (CallGetBooking id) then
      (Rejected DatabaseError,
       mkWorld (database w) (calls w ++ [CallGetBooking id]))
    else
    match filter (hasId id) (bookings_table (database w)) with
    | [] =>
        (Resolved (Some (mkResponse 404 (JMessage "Booking not found"))),
         mkWorld (database w) (calls w ++ [CallGetBooking id]))
    | existing :: _ =>
        let '(r, s, e) := Routes.candidate patch existing in
        let w' :=
          mkWorld (database w)
            (calls w ++ [CallGetBooking id;
                         CallCheckBookingConflict r s e (Some id)]) in
        if refuses (CallCheckBookingConflict r s e (Some id)) then
          (Rejected DatabaseError, w')
        else
        match q (bookings_table (database w)) r s e (Some id) with
        | Some true =>
            (Resolved (Some (mkResponse 409 (JMessage conflictMessage))), w')
        | Some false =>
            if e <=? s then
              (Resolved
                 (Some (mkResponse 400
                          (JMessage "End time must be after start time"))),
               w')
            else (Resolved None, w')
        | None => (Rejected DatabaseError, w')
        end
    end
  else (Resolved None, w).
Proof.
  unfold Routes.put_api_bookings_guard.
  destruct (Routes.updatesTimeOrResource patch); [|reflexivity].
  unfold bind at 1. rewrite getBooking_run.
  destruct (refuses (CallGetBooking id)); [reflexivity|].
  destruct (filter (hasId id) (bookings_table (database w)))
    as [|existing rest]; [reflexivity|].
  cbn [BookingWithResource.bookings].
  destruct (Routes.candidate patch existing) as ((r, s), e).
  unfold bind. rewrite checkBookingConflict_run.
  cbn [database calls]. rewrite <- app_assoc. cbn [app].
  destruct (refuses _); [reflexivity|].
  destruct (q _ r s e (Some id)) as [[|]|]; try reflexivity.
  destruct (e <=? s); reflexivity.
Qed.

(** The update route in terms of its guarded block. *)
Lemma put_api_bookings_run (refuses : Call -> bool)
    (q : list Booking.t -> Z -> Date -> Date -> option Z -> option bool)
    (id : Z) (patch : PartialInsertBooking.t) (w : World) :
  Routes.put_api_bookings refuses q (Some id) (Some patch) w =
  match Routes.put_api_bookings_guard refuses q id patch w with
  | (Resolved (Some res), w1) => (res, w1)
  | (Resolved None, w1) =>
      if refuses (CallUpdateBooking id patch) then
        (mkResponse 500 (JMessage "Failed to update booking"),
         mkWorld (database w1) (calls w1 ++ [CallUpdateBooking id patch]))
      else if Storage.refusedUpdate (database w1) id patch then
        (mkResponse 500 (JMessage "Failed to update booking"),
         mkWorld (database w1) (calls w1 ++ [CallUpdateBooking id patch]))
      else
        (match find (hasId id)
                 (Storage.updatedRows id patch
                    (bookings_table (database w1))) with
         | None => mkResponse 404 (JMessage "Booking not found")
         | Some booking => mkResponse 200 (JBooking booking)
         end,
         mkWorld
           (mkDatabase (resources_table (database w1))
              (Storage.updatedRows id patch (bookings_table (database w1)))
              (resources_id_seq (database w1))
              (bookings_id_seq (database w1)))
           (calls w1 ++ [CallUpdateBooking id patch]))
  | (Rejected ZodError, w1) =>
      (mkResponse 400 (JMessage "Invalid booking data"), w1)
  | (Rejected DatabaseError, w1) =>
      (mkResponse 500 (JMessage "Failed to update booking"), w1)
  end.
Proof.
  unfold Routes.put_api_bookings, Routes.tryCatch, Routes.parse.
  unfold bind at 1. unfold ret at 1. unfold bind at 1.
  destruct (Routes.put_api_bookings_guard refuses q id patch w)
    as ([[res|]|err], w1).
  - reflexivity.
  - unfold bind. rewrite updateBooking_run.
    destruct (refuses _); [reflexivity|].
    destruct (Storage.refusedUpdate (database w1) id patch);
      [reflexivity|].
    destruct (find _ _); reflexivity.
  - destruct err; reflexivity.
Qed.

(** C6, as stated, fails: on the store holding booking 1, an update that
    changes only the purpose is committed (200, the row is rewritten)
    with [updateBooking] as its only storage call: no conflict check is
    run. *)
Lemma purpose_only_update_skips_conflict_check :
  let (res, w') :=
    Routes.put_api_bookings part001Refusals part001Query (Some 1)
      (Some purposeOnly) worldA in
  status res = 200 /\
  database w' <> database worldA /\
  newCalls worldA w' = [CallUpdateBooking 1 purposeOnly] /\
  forall r s e x, ~ In (CallCheckBookingConflict r s e x) (newCalls worldA w').
Proof.
  vm_compute. repeat split; try discriminate.
  intros r s e x [H|[]]. discriminate.
Qed.

(** C6 (amended).  For every update request whose payload carries a
    non-zero resourceId, a startTime or an endTime, [updateBooking] is
    called only after [getBooking] has found the booking and
    [checkBookingConflict], called with the candidate resource and
    interval (each payload value or else the stored one) and with the
    booking's id as [excludeBookingId], has answered false, and after
    [end > start] has been checked.  An update whose payload carries
    none of the three reaches [updateBooking] without any conflict
    check.  (Stated for the routes on any conflict query, hence on both
    copies of the storage, and whatever the database refuses: neither
    the read nor the check was refused when [updateBooking] is
    called.) *)
Theorem update_checks_conflict_only_for_time_or_resource :
  forall (refuses : Call -> bool)
         (q : list Booking.t -> Z -> Date -> Date -> option Z -> option bool)
         (w : World) (id : Z) (patch : PartialInsertBooking.t),
    let w' :=
      snd (Routes.put_api_bookings refuses q (Some id) (Some patch) w) in
    In (CallUpdateBooking id patch) (newCalls w w') ->
    if Routes.updatesTimeOrResource patch then
      exists existing rest,
        filter (hasId id) (bookings_table (database w)) = existing :: rest /\
        let '(r, s, e) := Routes.candidate patch existing in
        newCalls w w' =
          [CallGetBooking id;
           CallCheckBookingConflict r s e (Some id);
           CallUpdateBooking id patch] /\
        q (bookings_table (database w)) r s e (Some id) = Some false /\
        s < e /\
        refuses (CallGetBooking id) = false /\
        refuses (CallCheckBookingConflict r s e (Some id)) = false
    else newCalls w w' = [CallUpdateBooking id patch].
Proof.
  intros refuses q w id patch w'. subst w'.
  rewrite put_api_bookings_run, put_api_bookings_guard_run.
  destruct (Routes.updatesTimeOrResource patch).
  - destruct (refuses (CallGetBooking id)) eqn:Hget.
    { cbn [snd]. rewrite newCalls_app. intros [H|[]]. discriminate. }
    destruct (filter (hasId id) (bookings_table (database w)))
      as [|existing rest].
    + cbn [snd]. rewrite newCalls_app.
      intros [H|[]]. discriminate.
    + destruct (Routes.candidate patch existing) as ((r, s), e) eqn:Hcand.
      cbv zeta.
      destruct (refuses (CallCheckBookingConflict r s e (Some id)))
        eqn:Hcheck.
      { cbn [snd]. rewrite newCalls_app.
        intros [H|[H|[]]]; discriminate. }
      destruct (q (bookings_table (database w)) r s e (Some id))
        as [[|]|] eqn:Hq.
      * cbn [snd]. rewrite newCalls_app.
        intros [H|[H|[]]]; discriminate.
      * destruct (e <=? s) eqn:Hes.
        -- cbn [snd]. rewrite newCalls_app.
           intros [H|[H|[]]]; discriminate.
        -- intros _. exists existing, rest. split; [reflexivity|].
           rewrite Hcand. apply Z.leb_gt in Hes.
           cbn [database calls].
           destruct (refuses (CallUpdateBooking id patch));
             [|destruct (Storage.refusedUpdate (database w) id patch)];
             cbn [snd]; rewrite <- app_assoc; rewrite newCalls_app;
             repeat split; auto.
      * cbn [snd]. rewrite newCalls_app.
        intros [H|[H|[]]]; discriminate.
  - intros _. cbn [database calls].
    destruct (refuses (CallUpdateBooking id patch));
      [|destruct (Storage.refusedUpdate (database w) id patch)];
      cbn [snd]; rewrite newCalls_app; reflexivity.
Qed.

Lemma update_checks_conflict_only_for_time_or_resource_witness :
  exists existing rest,
    filter (hasId 1) (bookings_table (database worldA)) = existing :: rest /\
    let '(r, s, e) :=
      Routes.candidate (moveTo (clock 10 30) (clock 11 30)) existing in
    newCalls worldA
      (snd (Routes.put_api_bookings part001Refusals part001Query (Some 1)
              (Some (moveTo (clock 10 30) (clock 11 30))) worldA)) =
      [CallGetBooking 1;
       CallCheckBookingConflict r s e (Some 1);
       CallUpdateBooking 1 (moveTo (clock 10 30) (clock 11 30))] /\
    part001Query (bookings_table (database worldA)) r s e (Some 1)
      = Some false /\
    s < e /\
    part001Refusals (CallGetBooking 1) = false /\
    part001Refusals (CallCheckBookingConflict r s e (Some 1)) = false.
Proof.
  apply (update_checks_conflict_only_for_time_or_resource part001Refusals
           part001Query worldA 1 (moveTo (clock 10 30) (clock 11 30))).
  vm_compute. right. right. left. reflexivity.
Defined.

(** The update route and the payload that names no column: [.set({})]
    is refused, so the request is answered with a server error and the
    store is as it was, whether or not the booking exists; so is an
    update addressed to an id beyond 32 bits. *)
Lemma empty_update_is_a_server_error :
  let empty := PartialInsertBooking.mk None None None None None in
  (forall id,
     let (res, w') :=
       Routes.put_api_bookings part001Refusals part001Query (Some id)
         (Some empty) worldA in
     status res = 500 /\ database w' = database worldA) /\
  (let (res, w') :=
     Routes.put_api_bookings part001Refusals part001Query (Some 2147483648)
       (Some purposeOnly) worldA in
   status res = 500 /\ database w' = database worldA).
Proof.
  cbv zeta. split; [|split; reflexivity].
  intros id. rewrite put_api_bookings_run, put_api_bookings_guard_run.
  cbn [Routes.updatesTimeOrResource truthy isSome orb
       PartialInsertBooking.resourceId PartialInsertBooking.startTime
       PartialInsertBooking.endTime].
  assert (part001Refusals
            (CallUpdateBooking id
               (PartialInsertBooking.mk None None None None None)) = true)
    as Href.
  { unfold part001Refusals, knownRefusals, emptyBookingPatch. simpl.
    destruct (int4 id); reflexivity. }
  rewrite Href. split; reflexivity.
Qed.

(* ================================================================== *)
(** * The non-overlap invariant (claim C4) *)
(* ================================================================== *)

Section ListFacts.
Context {A : Type}.

Lemma NoDup_map_injective (f : A -> Z) (l : list A) (a b : A) :
  NoDup (map f l) -> In a l -> In b l -> f a = f b -> a = b.
Proof.
  induction l as [|hd tl IH]; simpl; intros Hnd Ha Hb Hf; [destruct Ha|].
  inversion Hnd as [|? ? Hnotin Hnd']; subst.
  destruct Ha as [<-|Ha], Hb as [<-|Hb]; auto.
  - exfalso. apply Hnotin. rewrite Hf. apply in_map. exact Hb.
  - exfalso. apply Hnotin. rewrite <- Hf. apply in_map. exact Ha.
Qed.

Lemma NoDup_map_filter (f : A -> Z) (p : A -> bool) (l : list A) :
  NoDup (map f l) -> NoDup (map f (filter p l)).
Proof.
  induction l as [|hd tl IH]; simpl; intros Hnd; [constructor|].
  inversion Hnd as [|? ? Hnotin Hnd']; subst.
  destruct (p hd); simpl; [constructor|]; auto.
  intros Hin. apply Hnotin.
  apply in_map_iff in Hin. destruct Hin as (x & Hx & Hin).
  apply filter_In in Hin. rewrite <- Hx. apply in_map. apply Hin.
Qed.
End ListFacts.

Lemma specOverlapRule_sym (s1 e1 s2 e2 : Date) :
  specOverlapRule s1 e1 s2 e2 -> specOverlapRule s2 e2 s1 e1.
Proof. unfold specOverlapRule. lia. Qed.

Lemma resourceExists_positive (d : Database) (r : Z) :
  (forall x, In x (resources_table d) -> 1 <= Resource.id x) ->
  resourceExists d r = true -> 1 <= r.
Proof.
  intros Hpos Hex. unfold resourceExists in Hex.
  apply existsb_exists in Hex. destruct Hex as (x & Hin & Heq).
  apply Z.eqb_eq in Heq. subst r. apply Hpos. exact Hin.
Qed.


Lemma consistent_empty : Consistent (database emptyWorld).
Proof.
  constructor; simpl; try lia; try (intros ? []); try constructor.
Qed.

(** ** Consistency is kept by each statement the storage issues *)

(** Statements on the [resources] table only. *)
Lemma consistent_resources_changed (d : Database)
    (resources' : list Resource.t) (seq' : Z) :
  Consistent d ->
  1 <= seq' ->
  (forall r, In r resources' -> 1 <= Resource.id r) ->
  Consistent (mkDatabase resources' (bookings_table d) seq'
                (bookings_id_seq d)).
Proof.
  intros Hc Hseq Hres. destruct Hc. constructor; simpl; auto.
Qed.

(** A refused insert still consumes a value of the sequence. *)
Lemma consistent_sequence_bumped (d : Database) :
  Consistent d ->
  Consistent (mkDatabase (resources_table d) (bookings_table d)
                (resources_id_seq d) (bookings_id_seq d + 1)).
Proof.
  intros Hc. destruct Hc. constructor; simpl; auto; try lia.
  intros b Hin. specialize (booking_ids_issued0 b Hin). lia.
Qed.

(** An insert of a valid row that touches no row of its resource. *)
Lemma consistent_insert (d : Database) (new : Booking.t) :
  Consistent d ->
  Booking.id new = bookings_id_seq d ->
  Booking.startTime new < Booking.endTime new ->
  1 <= Booking.resourceId new ->
  (forall b, In b (bookings_table d) ->
     Booking.resourceId b = Booking.resourceId new ->
     ~ specOverlapRule (Booking.startTime new) (Booking.endTime new)
         (Booking.startTime b) (Booking.endTime b)) ->
  Consistent (mkDatabase (resources_table d) (bookings_table d ++ [new])
                (resources_id_seq d) (bookings_id_seq d + 1)).
Proof.
  intros Hc Hid Hvalid Hres Hfree. destruct Hc.
  constructor; simpl; auto; try lia.
  - intros b Hin. apply in_app_or in Hin. destruct Hin as [Hin|[<-|[]]].
    + specialize (booking_ids_issued0 b Hin). lia.
    + lia.
  - rewrite map_app. simpl.
    apply NoDup_app; [exact booking_ids_unique0 | repeat constructor; auto |].
    intros i Hin [<-|[]].
    apply in_map_iff in Hin. destruct Hin as (b & Hb & Hin).
    specialize (booking_ids_issued0 b Hin). lia.
  - intros b Hin. apply in_app_or in Hin. destruct Hin as [Hin|[<-|[]]]; auto.
  - intros b Hin. apply in_app_or in Hin. destruct Hin as [Hin|[<-|[]]]; auto.
  - intros a b Ha Hb Hne Hsame.
    apply in_app_or in Ha. apply in_app_or in Hb.
    destruct Ha as [Ha|[<-|[]]], Hb as [Hb|[<-|[]]].
    + apply bookings_apart0; auto.
    + intros Ho. apply (Hfree a Ha Hsame).
      apply specOverlapRule_sym. exact Ho.
    + apply Hfree; auto.
    + congruence.
Qed.

(** A delete on the [bookings] table. *)
Lemma consistent_delete (d : Database) (id : Z) :
  Consistent d ->
  Consistent (mkDatabase (resources_table d)
                (filter (fun row => negb (hasId id row)) (bookings_table d))
                (resources_id_seq d) (bookings_id_seq d)).
Proof.
  intros Hc. destruct Hc. constructor; simpl; auto.
  - intros b Hin. apply filter_In in Hin. apply booking_ids_issued0, Hin.
  - apply NoDup_map_filter. exact booking_ids_unique0.
  - intros b Hin. apply filter_In in Hin.
    apply booking_intervals_valid0, Hin.
  - intros b Hin. apply filter_In in Hin.
    apply booking_resources_positive0, Hin.
  - intros a b Ha Hb. apply filter_In in Ha. apply filter_In in Hb.
    apply bookings_apart0; [apply Ha | apply Hb].
Qed.

Lemma setBooking_id (patch : PartialInsertBooking.t) (row : Booking.t) :
  Booking.id (setBooking patch row) = Booking.id row.
Proof. reflexivity. Qed.

Lemma updatedRows_ids (id : Z) (patch : PartialInsertBooking.t)
    (rows : list Booking.t) :
  map Booking.id (Storage.updatedRows id patch rows) = map Booking.id rows.
Proof.
  unfold Storage.updatedRows. rewrite map_map. apply map_ext.
  intros row. destruct (hasId id row); reflexivity.
Qed.

Lemma in_updatedRows (id : Z) (patch : PartialInsertBooking.t)
    (rows : list Booking.t) (row' : Booking.t) :
  In row' (Storage.updatedRows id patch rows) ->
  exists row, In row rows /\
    ((hasId id row = true /\ row' = setBooking patch row) \/
     (hasId id row = false /\ row' = row)).
Proof.
  unfold Storage.updatedRows. intros Hin.
  apply in_map_iff in Hin. destruct Hin as (row & Heq & Hin).
  exists row. split; [exact Hin|].
  destruct (hasId id row); [left | right]; auto.
Qed.

(** An update whose rewritten rows are valid and touch no other row of
    their resource. *)
Lemma consistent_update (d : Database) (id : Z)
    (patch : PartialInsertBooking.t) :
  Consistent d ->
  (forall row, In row (bookings_table d) -> hasId id row = true ->
     let row' := setBooking patch row in
     Booking.startTime row' < Booking.endTime row' /\
     1 <= Booking.resourceId row' /\
     forall b, In b (bookings_table d) -> Booking.id b <> id ->
       Booking.resourceId b = Booking.resourceId row' ->
       ~ specOverlapRule (Booking.startTime row') (Booking.endTime row')
           (Booking.startTime b) (Booking.endTime b)) ->
  Consistent (mkDatabase (resources_table d)
                (Storage.updatedRows id patch (bookings_table d))
                (resources_id_seq d) (bookings_id_seq d)).
Proof.
  intros Hc Hnew. destruct Hc. constructor; simpl; auto.
  - intros b Hin. apply in_updatedRows in Hin.
    destruct Hin as (row & Hin & [(_ & ->)|(_ & ->)]);
      try rewrite setBooking_id; auto.
  - rewrite updatedRows_ids. exact booking_ids_unique0.
  - intros b Hin. apply in_updatedRows in Hin.
    destruct Hin as (row & Hin & [(Hid & ->)|(_ & ->)]); auto.
    apply (Hnew row Hin Hid).
  - intros b Hin. apply in_updatedRows in Hin.
    destruct Hin as (row & Hin & [(Hid & ->)|(_ & ->)]); auto.
    apply (Hnew row Hin Hid).
  - intros a' b' Ha Hb Hne Hsame.
    apply in_updatedRows in Ha. apply in_updatedRows in Hb.
    destruct Ha as (a & Ha & [(Hida & ->)|(Hida & ->)]);
      destruct Hb as (b & Hb & [(Hidb & ->)|(Hidb & ->)]).
    + unfold hasId in Hida, Hidb. apply Z.eqb_eq in Hida, Hidb.
      rewrite !setBooking_id in Hne. congruence.
    + destruct (Hnew a Ha Hida) as (_ & _ & Hfree).
      apply Hfree; auto.
      unfold hasId in Hidb. apply Z.eqb_neq in Hidb. exact Hidb.
    + destruct (Hnew b Hb Hidb) as (_ & _ & Hfree).
      intros Ho. apply specOverlapRule_sym in Ho. revert Ho.
      apply Hfree; auto.
      unfold hasId in Hida. apply Z.eqb_neq in Hida. exact Hida.
    + apply bookings_apart0; auto.
Qed.

(** ** What survives the foreign key *)

Lemma accepted_update_moves_to_existing (d : Database) (id : Z)
    (patch : PartialInsertBooking.t) (row : Booking.t) :
  Storage.refusedUpdate d id patch = false ->
  In row (bookings_table d) -> hasId id row = true ->
  Booking.resourceId (setBooking patch row) <> Booking.resourceId row ->
  resourceExists d (Booking.resourceId (setBooking patch row)) = true.
Proof.
  intros Hacc Hin Hid Hmoved.
  destruct (resourceExists d (Booking.resourceId (setBooking patch row)))
    eqn:Hex; [reflexivity|].
  assert (Storage.refusedUpdate d id patch = true) as Href.
  { unfold Storage.refusedUpdate. apply existsb_exists.
    exists row. split; [exact Hin|].
    rewrite Hid, Hex. apply Z.eqb_neq in Hmoved. rewrite Hmoved.
    reflexivity. }
  congruence.
Qed.

(** An accepted update leaves a rewritten row on the resource the route
    computed for it ([payload || stored]), and that resource id is
    positive: a payload resourceId of 0 never gets through. *)
Lemma accepted_update_resource (d : Database) (id : Z)
    (patch : PartialInsertBooking.t) (row : Booking.t) :
  Consistent d ->
  Storage.refusedUpdate d id patch = false ->
  In row (bookings_table d) -> hasId id row = true ->
  Booking.resourceId (setBooking patch row) =
    orElse (PartialInsertBooking.resourceId patch) (Booking.resourceId row)
  /\ 1 <= Booking.resourceId (setBooking patch row).
Proof.
  intros Hc Hacc Hin Hid.
  pose proof (booking_resources_positive d Hc row Hin) as Hpos.
  pose proof (accepted_update_moves_to_existing d id patch row Hacc Hin Hid)
    as Hmove.
  assert (Booking.resourceId (setBooking patch row) <> Booking.resourceId row
          -> 1 <= Booking.resourceId (setBooking patch row)) as Hmove'.
  { intros Hne. apply (resourceExists_positive d).
    - apply (resource_ids_positive d Hc).
    - apply Hmove. exact Hne. }
  clear Hmove. revert Hmove'.
  unfold setBooking, orElse. cbn [Booking.resourceId].
  destruct (PartialInsertBooking.resourceId patch) as [v|].
  - destruct (v =? 0) eqn:Hv.
    + apply Z.eqb_eq in Hv. subst v. intros Hmove'.
      assert (1 <= 0) by (apply Hmove'; lia). lia.
    + intros Hmove'. split; [reflexivity|].
      destruct (Z.eq_dec v (Booking.resourceId row)) as [->|Hne]; auto.
  - intros _. split; [reflexivity | exact Hpos].
Qed.

Lemma setBooking_times (patch : PartialInsertBooking.t) (row : Booking.t) :
  Booking.startTime (setBooking patch row) =
    orElseDate (PartialInsertBooking.startTime patch) (Booking.startTime row)
  /\
  Booking.endTime (setBooking patch row) =
    orElseDate (PartialInsertBooking.endTime patch) (Booking.endTime row).
Proof. split; reflexivity. Qed.

(** A payload that updates neither time nor resource. *)
Lemma not_updatesTimeOrResource (patch : PartialInsertBooking.t) :
  Routes.updatesTimeOrResource patch = false ->
  truthy (PartialInsertBooking.resourceId patch) = false /\
  PartialInsertBooking.startTime patch = None /\
  PartialInsertBooking.endTime patch = None.
Proof.
  unfold Routes.updatesTimeOrResource. intros H.
  apply orb_false_iff in H. destruct H as (H & He).
  apply orb_false_iff in H. destruct H as (Hr & Hs).
  destruct (PartialInsertBooking.startTime patch); [discriminate|].
  destruct (PartialInsertBooking.endTime patch); [discriminate|].
  auto.
Qed.

Lemma orElse_not_truthy (n : option Z) (fallback : Z) :
  truthy n = false -> orElse n fallback = fallback.
Proof.
  destruct n as [v|]; simpl; [|reflexivity].
  destruct (v =? 0); [reflexivity | discriminate].
Qed.

(** The first row selected by id is a row of the table with that id. *)
Lemma first_with_id (id : Z) (rows : list Booking.t)
    (existing : Booking.t) (rest : list Booking.t) :
  filter (hasId id) rows = existing :: rest ->
  In existing rows /\ hasId id existing = true.
Proof.
  intros Hf. apply filter_In. rewrite Hf. left. reflexivity.
Qed.

(** ** Every route keeps the store consistent *)

Lemma createBooking_run (refuses : Call -> bool) (body : InsertBooking.t)
    (w : World) :
  Storage.createBooking refuses body w =
  let d := database w in
  let newBooking :=
    Booking.mk (bookings_id_seq d)
      (InsertBooking.resourceId body) (InsertBooking.startTime body)
      (InsertBooking.endTime body) (InsertBooking.bookedBy body)
      (InsertBooking.purpose body) in
  if refuses (CallCreateBooking body) then
    (Rejected DatabaseError, mkWorld d (calls w ++ [CallCreateBooking body]))
  else if resourceExists d (InsertBooking.resourceId body) then
    (Resolved newBooking,
     mkWorld (mkDatabase (resources_table d) (bookings_table d ++ [newBooking])
                (resources_id_seq d) (bookings_id_seq d + 1))
       (calls w ++ [CallCreateBooking body]))
  else
    (Rejected DatabaseError,
     mkWorld (mkDatabase (resources_table d) (bookings_table d)
                (resources_id_seq d) (bookings_id_seq d + 1))
       (calls w ++ [CallCreateBooking body])).
Proof.
  unfold Storage.createBooking. unfold bind at 1. rewrite statement_run.
  cbv zeta. destruct (refuses _); [reflexivity|].
  unfold bind, getDatabase. simpl.
  destruct (resourceExists (database w) (InsertBooking.resourceId body));
    reflexivity.
Qed.

(** The statements on the [resources] table. *)
Lemma createResource_run (refuses : Call -> bool) (body : InsertResource.t)
    (w : World) :
  Storage.createResource refuses body w =
  let d := database w in
  let newResource :=
    Resource.mk (resources_id_seq d)
      (InsertResource.name body) (InsertResource.description body)
      (InsertResource.location body) (InsertResource.capacity body)
      (InsertResource.isAvailable body) in
  if refuses (CallCreateResource body) then
    (Rejected DatabaseError, mkWorld d (calls w ++ [CallCreateResource body]))
  else
    (Resolved newResource,
     mkWorld (mkDatabase (resources_table d ++ [newResource])
                (bookings_table d)
                (resources_id_seq d + 1) (bookings_id_seq d))
       (calls w ++ [CallCreateResource body])).
Proof.
  unfold Storage.createResource. unfold bind at 1. rewrite statement_run.
  cbv zeta. destruct (refuses _); reflexivity.
Qed.

Lemma updateResource_run (refuses : Call -> bool) (id : Z)
    (patch : PartialInsertResource.t) (w : World) :
  Storage.updateResource refuses id patch w =
  let d := database w in
  let updated :=
    map (fun row => if Resource.id row =? id
                    then setResource patch row else row)
        (resources_table d) in
  if refuses (CallUpdateResource id patch) then
    (Rejected DatabaseError,
     mkWorld d (calls w ++ [CallUpdateResource id patch]))
  else
    (Resolved (find (fun row => Resource.id row =? id) updated),
     mkWorld (mkDatabase updated (bookings_table d)
                (resources_id_seq d) (bookings_id_seq d))
       (calls w ++ [CallUpdateResource id patch])).
Proof.
  unfold Storage.updateResource. unfold bind at 1. rewrite statement_run.
  cbv zeta. destruct (refuses _); reflexivity.
Qed.

Lemma deleteResource_run (refuses : Call -> bool) (id : Z) (w : World) :
  Storage.deleteResource refuses id w =
  let d := database w in
  let logged := calls w ++ [CallDeleteResource id] in
  if refuses (CallDeleteResource id) then
    (Rejected DatabaseError, mkWorld d logged)
  else if negb (existsb (fun row => Resource.id row =? id)
                  (resources_table d)) then
    (Resolved false, mkWorld d logged)
  else if existsb (fun b => Booking.resourceId b =? id) (bookings_table d)
  then (Rejected DatabaseError, mkWorld d logged)
  else
    (Resolved true,
     mkWorld (mkDatabase
                (filter (fun row => negb (Resource.id row =? id))
                   (resources_table d))
                (bookings_table d)
                (resources_id_seq d) (bookings_id_seq d))
       logged).
Proof.
  unfold Storage.deleteResource. unfold bind at 1. rewrite statement_run.
  cbv zeta. destruct (refuses _); [reflexivity|].
  unfold bind, getDatabase. cbn [database calls].
  destruct (filter (fun row => Resource.id row =? id)
              (resources_table (database w))) as [|hd tl] eqn:Hf.
  - assert (existsb (fun row => Resource.id row =? id)
              (resources_table (database w)) = false) as ->.
    { destruct (existsb _ _) eqn:Hex; [|reflexivity].
      apply existsb_exists in Hex. destruct Hex as (r & Hin & Hr).
      assert (In r (filter (fun row => Resource.id row =? id)
                      (resources_table (database w)))) as H
        by (apply filter_In; auto).
      rewrite Hf in H. destruct H. }
    reflexivity.
  - assert (existsb (fun row => Resource.id row =? id)
              (resources_table (database w)) = true) as ->.
    { apply existsb_exists. exists hd.
      apply (proj1 (filter_In (fun row => Resource.id row =? id) hd
                      (resources_table (database w)))).
      rewrite Hf. left. reflexivity. }
    cbn [negb].
    destruct (existsb _ (bookings_table (database w))); reflexivity.
Qed.

Lemma deleteBooking_run (refuses : Call -> bool) (id : Z) (w : World) :
  Storage.deleteBooking refuses id w =
  let d := database w in
  if refuses (CallDeleteBooking id) then
    (Rejected DatabaseError, mkWorld d (calls w ++ [CallDeleteBooking id]))
  else
    (Resolved (existsb (hasId id) (bookings_table d)),
     mkWorld (mkDatabase (resources_table d)
                (filter (fun row => negb (hasId id row)) (bookings_table d))
                (resources_id_seq d) (bookings_id_seq d))
       (calls w ++ [CallDeleteBooking id])).
Proof.
  unfold Storage.deleteBooking. unfold bind at 1. rewrite statement_run.
  cbv zeta. destruct (refuses _); reflexivity.
Qed.

Section RoutesKeepConsistency.
Variable refuses : Call -> bool.
Variable q : list Booking.t -> Z -> Date -> Date -> option Z -> option bool.
Hypothesis q_sound : soundQuery q.

Lemma post_api_resources_consistent body w :
  Consistent (database w) ->
  Consistent (database (snd (Routes.post_api_resources refuses body w))).
Proof.
  intros Hc. destruct body as [body|]; [|exact Hc].
  unfold Routes.post_api_resources, Routes.tryCatch, Routes.parse.
  unfold bind at 1. unfold ret at 1. unfold bind at 1.
  rewrite createResource_run. cbv zeta.
  destruct (refuses _); [exact Hc|].
  cbn. apply (consistent_resources_changed (database w)); auto.
  - pose proof (resource_seq_positive _ Hc). lia.
  - intros r Hin. apply in_app_or in Hin. destruct Hin as [Hin|[<-|[]]].
    + apply (resource_ids_positive _ Hc). exact Hin.
    + cbn. apply (resource_seq_positive _ Hc).
Qed.

Lemma put_api_resources_consistent id body w :
  Consistent (database w) ->
  Consistent (database (snd (Routes.put_api_resources refuses id body w))).
Proof.
  intros Hc. destruct id as [id|]; [|exact Hc].
  destruct body as [body|]; [|exact Hc].
  unfold Routes.put_api_resources, Routes.tryCatch, Routes.parse.
  unfold bind at 1. unfold ret at 1. unfold bind at 1.
  rewrite updateResource_run. cbv zeta.
  destruct (refuses _); [exact Hc|].
  unfold ret.
  match goal with
  | |- context [find ?f ?l] => destruct (find f l)
  end; cbn [snd database];
    apply (consistent_resources_changed (database w)); auto;
    try apply (resource_seq_positive _ Hc);
    intros r Hin; apply in_map_iff in Hin;
    destruct Hin as (r0 & <- & Hin);
    pose proof (resource_ids_positive _ Hc r0 Hin);
    destruct (Resource.id r0 =? id); auto.
Qed.

Lemma delete_api_resources_consistent id w :
  Consistent (database w) ->
  Consistent (database (snd (Routes.delete_api_resources refuses id w))).
Proof.
  intros Hc. destruct id as [id|]; [|exact Hc].
  unfold Routes.delete_api_resources, Routes.catchAll.
  unfold bind. rewrite deleteResource_run. cbv zeta.
  destruct (refuses _); [exact Hc|].
  destruct (existsb _ (resources_table (database w))); [|exact Hc].
  cbn [negb].
  destruct (existsb _ (bookings_table (database w))); [exact Hc|].
  cbn [snd database].
  apply (consistent_resources_changed (database w)); auto.
  - apply (resource_seq_positive _ Hc).
  - intros r Hin. apply filter_In in Hin.
    apply (resource_ids_positive _ Hc). apply Hin.
Qed.

Lemma delete_api_bookings_consistent id w :
  Consistent (database w) ->
  Consistent (database (snd (Routes.delete_api_bookings refuses id w))).
Proof.
  intros Hc. destruct id as [id|]; [|exact Hc].
  unfold Routes.delete_api_bookings, Routes.catchAll.
  unfold bind. rewrite deleteBooking_run. cbv zeta.
  destruct (refuses _); [exact Hc|].
  destruct (existsb (hasId id) (bookings_table (database w)));
    cbn [snd database]; apply consistent_delete; exact Hc.
Qed.

Lemma post_api_bookings_consistent body w :
  Consistent (database w) ->
  Consistent (database (snd (Routes.post_api_bookings refuses q body w))).
Proof.
  intros Hc. destruct body as [body|]; [|exact Hc].
  unfold Routes.post_api_bookings, Routes.tryCatch, Routes.parse.
  unfold bind at 1. unfold ret at 1. unfold bind at 1.
  rewrite checkBookingConflict_run.
  destruct (refuses (CallCheckBookingConflict _ _ _ _)); [exact Hc|].
  destruct (q _ _ _ _ None) as [[|]|] eqn:Hq; try exact Hc.
  destruct (InsertBooking.endTime body <=? InsertBooking.startTime body)
    eqn:Hvalid; [exact Hc|].
  apply Z.leb_gt in Hvalid.
  unfold bind. rewrite createBooking_run. cbv zeta. cbn [database].
  destruct (refuses (CallCreateBooking body)); [exact Hc|].
  destruct (resourceExists (database w) (InsertBooking.resourceId body))
    eqn:Hex; cbn [snd database].
  - apply consistent_insert; auto; cbn.
    + apply (resourceExists_positive (database w)); auto.
      apply (resource_ids_positive _ Hc).
    + intros b Hin Hsame.
      pose proof (booking_intervals_valid _ Hc b Hin) as Hb.
      rewrite <- overlapCases_closed by lia.
      rewrite (q_sound _ _ _ _ _ Hq b Hin Hsame); [discriminate|].
      discriminate.
  - apply consistent_sequence_bumped. exact Hc.
Qed.

Lemma put_api_bookings_consistent id body w :
  Consistent (database w) ->
  Consistent (database (snd (Routes.put_api_bookings refuses q id body w))).
Proof.
  intros Hc. destruct id as [id|]; [|exact Hc].
  destruct body as [patch|]; [|exact Hc].
  rewrite put_api_bookings_run, put_api_bookings_guard_run.
  destruct (Routes.updatesTimeOrResource patch) eqn:Hguard.
  - destruct (refuses (CallGetBooking id)); [exact Hc|].
    destruct (filter (hasId id) (bookings_table (database w)))
      as [|existing rest] eqn:Hfound; [exact Hc|].
    destruct (Routes.candidate patch existing) as ((r, s), e) eqn:Hcand.
    cbv zeta.
    destruct (refuses (CallCheckBookingConflict r s e (Some id)));
      [exact Hc|].
    destruct (q _ r s e (Some id)) as [[|]|] eqn:Hq; try exact Hc.
    destruct (e <=? s) eqn:Hvalid; [exact Hc|].
    apply Z.leb_gt in Hvalid. cbn [database].
    destruct (refuses (CallUpdateBooking id patch)); [exact Hc|].
    destruct (Storage.refusedUpdate (database w) id patch) eqn:Hacc;
      [exact Hc|].
    cbn [snd database]. apply consistent_update; [exact Hc|].
    intros row Hin Hid row'. subst row'.
    destruct (first_with_id _ _ _ _ Hfound) as (Hex & Hexid).
    assert (row = existing) as ->.
    { apply (NoDup_map_injective Booking.id (bookings_table (database w)));
        auto.
      - apply (booking_ids_unique _ Hc).
      - unfold hasId in Hid, Hexid. apply Z.eqb_eq in Hid, Hexid.
        congruence. }
    destruct (accepted_update_resource _ id patch existing Hc Hacc Hin Hid)
      as (Hres & Hpos).
    destruct (setBooking_times patch existing) as (Hs & He).
    unfold Routes.candidate in Hcand. injection Hcand as Hr' Hs' He'.
    rewrite Hs, He, Hres, Hr', Hs', He'. rewrite Hres, Hr' in Hpos.
    split; [exact Hvalid|]. split; [exact Hpos|].
    intros b Hb Hne Hsame.
    pose proof (booking_intervals_valid _ Hc b Hb) as Hbvalid.
    rewrite <- overlapCases_closed by lia.
    rewrite (q_sound _ _ _ _ _ Hq b Hb Hsame); [discriminate|].
    intros _ Heq. injection Heq as Heq. contradiction.
  - cbn [database].
    destruct (refuses (CallUpdateBooking id patch)); [exact Hc|].
    destruct (Storage.refusedUpdate (database w) id patch) eqn:Hacc;
      [exact Hc|].
    cbn [snd database]. apply consistent_update; [exact Hc|].
    intros row Hin Hid row'. subst row'.
    destruct (accepted_update_resource _ id patch row Hc Hacc Hin Hid)
      as (Hres & Hpos).
    destruct (setBooking_times patch row) as (Hs & He).
    destruct (not_updatesTimeOrResource patch Hguard) as (Hr0 & Hs0 & He0).
    rewrite orElse_not_truthy in Hres by exact Hr0.
    rewrite Hs0 in Hs. rewrite He0 in He. cbn [orElseDate] in Hs, He.
    rewrite Hs, He, Hres.
    split; [apply (booking_intervals_valid _ Hc); exact Hin|].
    split; [apply (booking_resources_positive _ Hc); exact Hin|].
    intros b Hb Hne Hsame.
    apply (bookings_apart _ Hc); auto.
    unfold hasId in Hid. apply Z.eqb_eq in Hid. congruence.
Qed.

Lemma handle_consistent req w :
  Consistent (database w) ->
  Consistent (database (snd (Routes.handle refuses q req w))).
Proof.
  destruct req; cbn [Routes.handle].
  - apply post_api_resources_consistent.
  - apply put_api_resources_consistent.
  - apply delete_api_resources_consistent.
  - apply post_api_bookings_consistent.
  - apply put_api_bookings_consistent.
  - apply delete_api_bookings_consistent.
Qed.

Lemma serve_consistent reqs w :
  Consistent (database w) ->
  Consistent (database (Routes.serve refuses q reqs w)).
Proof.
  revert w. induction reqs as [|req reqs IH]; intros w Hc; [exact Hc|].
  cbn [Routes.serve fold_left]. apply IH. apply handle_consistent. exact Hc.
Qed.
End RoutesKeepConsistency.

(** part_001's query is sound: this is its [false] answer read back. *)
Lemma part001Query_sound : soundQuery part001Query.
Proof.
  intros rows r s e x Hq b Hin Hr Hx.
  unfold part001Query in Hq. injection Hq as Hq.
  apply (proj1 (part001_false_iff rows r s e x) Hq b Hin Hr Hx).
Qed.


(** The requests of a day on which the invariant is at stake: a room, two
    bookings of it, and the first booking moved onto the second. *)
Lemma routes_store_bookings :
  bookings_table (database
    (Routes.serve part001Refusals part001Query
       [roomRequest;
        bookingRequest 1 (clock 10 0) (clock 11 0);
        bookingRequest 1 (clock 12 0) (clock 13 0);
        bookingRequest 1 (clock 12 30) (clock 13 30);
        PUT_api_bookings (Some 1) (Some (moveTo (clock 12 30) (clock 13 30)));
        PUT_api_bookings (Some 1) (Some (moveTo (clock 10 30) (clock 11 30)))]
       emptyWorld)) =
  [Booking.mk 1 1 (clock 10 30) (clock 11 30) "ann" "standup";
   Booking.mk 2 1 (clock 12 0) (clock 13 0) "ann" "standup"].
Proof. reflexivity. Qed.

(** ** The handlers cut at their awaits *)

(** A handler that nothing interrupts is the handler run in one go. *)
Lemma complete_task (refuses : Call -> bool)
    (q : list Booking.t -> Z -> Date -> Date -> option Z -> option bool)
    (req : Request) (w : World) :
  complete (Routes.task refuses q req) w = Routes.handle refuses q req w.
Proof.
  destruct req as [body|id body|id|body|id body|id];
    cbn [Routes.task Routes.handle].
  - destruct body as [body|]; [|reflexivity].
    unfold Routes.post_api_resources_task, Routes.post_api_resources,
      Routes.tryCatch, Routes.parse.
    cbn [complete]. unfold bind at 1. unfold ret at 1. unfold bind at 1.
    destruct (Storage.createResource refuses body w) as ([res|[|]], w');
      reflexivity.
  - destruct id as [id|]; [|reflexivity].
    destruct body as [body|]; [|reflexivity].
    unfold Routes.put_api_resources_task, Routes.put_api_resources,
      Routes.tryCatch, Routes.parse.
    cbn [complete]. unfold bind at 1. unfold ret at 1. unfold bind at 1.
    destruct (Storage.updateResource refuses id body w)
      as ([[res|]|[|]], w'); reflexivity.
  - destruct id as [id|]; [|reflexivity].
    unfold Routes.delete_api_resources_task, Routes.delete_api_resources,
      Routes.catchAll.
    cbn [complete]. unfold bind at 1.
    destruct (Storage.deleteResource refuses id w) as ([[|]|[|]], w');
      reflexivity.
  - destruct body as [body|]; [|reflexivity].
    unfold Routes.post_api_bookings_task, Routes.post_api_bookings,
      Routes.tryCatch, Routes.parse.
    cbn [complete]. unfold bind at 1. unfold ret at 1. unfold bind at 1.
    destruct (Storage.checkBookingConflict refuses q _ _ _ None w)
      as ([[|]|[|]], w'); try reflexivity.
    destruct (InsertBooking.endTime body <=? InsertBooking.startTime body);
      [reflexivity|].
    cbn [complete]. unfold bind at 1.
    destruct (Storage.createBooking refuses body w') as ([res|[|]], w'');
      reflexivity.
  - destruct id as [id|]; [|reflexivity].
    destruct body as [patch|]; [|reflexivity].
    rewrite put_api_bookings_run, put_api_bookings_guard_run.
    assert (forall w1,
              complete (Routes.put_api_bookings_update refuses id patch) w1 =
              if refuses (CallUpdateBooking id patch) then
                (mkResponse 500 (JMessage "Failed to update booking"),
                 mkWorld (database w1)
                   (calls w1 ++ [CallUpdateBooking id patch]))
              else if Storage.refusedUpdate (database w1) id patch then
                (mkResponse 500 (JMessage "Failed to update booking"),
                 mkWorld (database w1)
                   (calls w1 ++ [CallUpdateBooking id patch]))
              else
                (match find (hasId id)
                         (Storage.updatedRows id patch
                            (bookings_table (database w1))) with
                 | None => mkResponse 404 (JMessage "Booking not found")
                 | Some booking => mkResponse 200 (JBooking booking)
                 end,
                 mkWorld
                   (mkDatabase (resources_table (database w1))
                      (Storage.updatedRows id patch
                         (bookings_table (database w1)))
                      (resources_id_seq (database w1))
                      (bookings_id_seq (database w1)))
                   (calls w1 ++ [CallUpdateBooking id patch])))
      as Hupdate.
    { intros w1. unfold Routes.put_api_bookings_update.
      cbn [complete]. rewrite updateBooking_run.
      destruct (refuses _); [reflexivity|].
      destruct (Storage.refusedUpdate (database w1) id patch);
        [reflexivity|].
      destruct (find _ _); reflexivity. }
    unfold Routes.put_api_bookings_task.
    destruct (Routes.updatesTimeOrResource patch); [|apply Hupdate].
    cbn [complete]. rewrite getBooking_run.
    destruct (refuses (CallGetBooking id)); [reflexivity|].
    destruct (filter (hasId id) (bookings_table (database w)))
      as [|existing rest]; [reflexivity|].
    cbn [BookingWithResource.bookings].
    destruct (Routes.candidate patch existing) as ((r, s), e).
    cbn [complete]. rewrite checkBookingConflict_run.
    cbn [database calls]. rewrite <- app_assoc. cbn [app]. cbv zeta.
    destruct (refuses (CallCheckBookingConflict r s e (Some id)));
      [reflexivity|].
    destruct (q _ r s e (Some id)) as [[|]|]; try reflexivity.
    destruct (e <=? s); [reflexivity|].
    apply Hupdate.
  - destruct id as [id|]; [|reflexivity].
    unfold Routes.delete_api_bookings_task, Routes.delete_api_bookings,
      Routes.catchAll.
    cbn [complete]. unfold bind at 1.
    destruct (Storage.deleteBooking refuses id w) as ([[|]|[|]], w');
      reflexivity.
Qed.

(** Handlers that take their turns one after the other, each running to
    its answer, leave the store [Routes.serve] leaves. *)
Lemma serve_is_one_at_a_time (refuses : Call -> bool)
    (q : list Booking.t -> Z -> Date -> Date -> option Z -> option bool)
    (reqs : list Request) (w : World) :
  fold_left
    (fun w req => snd (complete (Routes.task refuses q req) w)) reqs w
  = Routes.serve refuses q reqs w.
Proof.
  unfold Routes.serve. revert w.
  induction reqs as [|req reqs IH]; intros w; [reflexivity|].
  cbn [fold_left]. rewrite complete_task. apply IH.
Qed.

(** Running the handlers one at a time is one of the ways they can
    interleave. *)
Lemma advance_skip (done ts : list Task) (n : nat) (w : World) :
  advance (List.length done + n) (done ++ ts) w =
  (done ++ fst (advance n ts w), snd (advance n ts w)).
Proof.
  induction done as [|t done IH]; cbn [List.length app Nat.add].
  - destruct (advance n ts w); reflexivity.
  - cbn [advance]. rewrite IH. reflexivity.
Qed.

Lemma interleave_app (picks picks' : list nat) (tasks : list Task)
    (w : World) :
  interleave (picks ++ picks') tasks w =
  interleave picks' (fst (interleave picks tasks w))
    (snd (interleave picks tasks w)).
Proof.
  unfold interleave. rewrite fold_left_app.
  destruct (fold_left _ picks (tasks, w)); reflexivity.
Qed.

Lemma complete_is_a_schedule (t : Task) :
  forall (done rest : list Task) (w : World),
    exists picks,
      interleave picks (done ++ t :: rest) w =
      (done ++ Done (fst (complete t w)) :: rest, snd (complete t w)).
Proof.
  induction t as [res|A statement next IH]; intros done rest w.
  - exists []. reflexivity.
  - cbn [complete]. destruct (statement w) as (outcome, w') eqn:Hrun.
    destruct (IH outcome done rest w') as (picks & Hpicks).
    exists (List.length done :: picks).
    unfold interleave in *. cbn [fold_left fst snd].
    rewrite <- (Nat.add_0_r (List.length done)) at 1.
    rewrite advance_skip. cbn [advance]. rewrite Hrun. cbn [fst snd].
    exact Hpicks.
Qed.

Lemma serve_is_a_schedule (refuses : Call -> bool)
    (q : list Booking.t -> Z -> Date -> Date -> option Z -> option bool)
    (reqs : list Request) :
  forall (done : list Task) (w : World),
    exists picks answered,
      interleave picks (done ++ map (Routes.task refuses q) reqs) w =
      (done ++ answered, Routes.serve refuses q reqs w) /\
      Forall (fun t => answer t <> None) answered.
Proof.
  induction reqs as [|req reqs IH]; intros done w.
  - exists [], []. split; [reflexivity | constructor].
  - cbn [map].
    destruct (complete_is_a_schedule (Routes.task refuses q req) done
                (map (Routes.task refuses q) reqs) w) as (picks & Hfirst).
    rewrite complete_task in Hfirst.
    destruct (IH (done ++ [Done (fst (Routes.handle refuses q req w))])
                (snd (Routes.handle refuses q req w)))
      as (picks' & answered & Hrest & Hall).
    exists (picks ++ picks'),
      (Done (fst (Routes.handle refuses q req w)) :: answered).
    split.
    + rewrite interleave_app, Hfirst. cbn [fst snd].
      rewrite <- app_assoc in Hrest. cbn [app] in Hrest.
      rewrite Hrest. rewrite <- app_assoc. reflexivity.
    + constructor; [discriminate | exact Hall].
Qed.



(** On storage.ts with [query.where] read as the installed condition,
    the update path compares the candidate with the booking itself only:
    moving booking 1 onto booking 2 is accepted and the two overlap.
    This is the defect of the exclusion branch (see C2) seen from the
    routes. *)
Lemma server_storage_intended_lets_update_overlap :
  ~ pairwiseNonOverlapping 1
      (bookings_table (database
         (Routes.serve serverRefusals
            (serverQuery ServerStorage.utc ServerStorage.intended)
            [roomRequest;
             bookingRequest 1 (clock 10 0) (clock 11 0);
             bookingRequest 1 (clock 12 0) (clock 13 0);
             PUT_api_bookings (Some 1)
               (Some (moveTo (clock 12 30) (clock 13 30)))]
            emptyWorld))).
Proof.
  intros H.
  apply (H (Booking.mk 1 1 (clock 12 30) (clock 13 30) "ann" "standup")
           (Booking.mk 2 1 (clock 12 0) (clock 13 0) "ann" "standup"))
    with (t := clock 12 45).
  - vm_compute. left. reflexivity.
  - vm_compute. right. left. reflexivity.
  - discriminate.
  - reflexivity.
  - reflexivity.
  - unfold occupies. vm_compute. repeat split; discriminate.
Qed.

(** On storage.ts away from UTC the creation path compares the local
    reading of the candidate with the stored instants: two hours east of
    UTC, [10:30,11:30) is accepted after [10:00,11:00) on the same room,
    one request after the other, and the two overlap. *)
Lemma server_storage_local_time_lets_creation_overlap :
  forall qw,
    ~ pairwiseNonOverlapping 1
        (bookings_table (database
           (Routes.serve serverRefusals
              (serverQuery (ServerStorage.zone 120) qw)
              [roomRequest;
               bookingRequest 1 (clock 10 0) (clock 11 0);
               bookingRequest 1 (clock 10 30) (clock 11 30)]
              emptyWorld))).
Proof.
  intros qw H.
  apply (H (Booking.mk 1 1 (clock 10 0) (clock 11 0) "ann" "standup")
           (Booking.mk 2 1 (clock 10 30) (clock 11 30) "ann" "standup"))
    with (t := clock 10 45).
  - vm_compute. left. reflexivity.
  - vm_compute. right. left. reflexivity.
  - discriminate.
  - reflexivity.
  - reflexivity.
  - unfold occupies. vm_compute. repeat split; discriminate.
Qed.

(* ================================================================== *)
(** * Further properties of the conflict query *)
(* ================================================================== *)

(** X1.  The answer of [checkBookingConflict] grows with the table: a
    conflict found in a table is found in every table containing its
    rows, so taking bookings away never turns a cleared candidate into a
    conflicting one.  Both copies (storage.ts: in every zone, the call
    without exclusion id). *)
Theorem conflict_survives_more_bookings :
  forall (rows rows' : list Booking.t) (resourceId : Z)
         (startTime endTime : Date) (excludeBookingId : option Z),
    (forall b, In b rows -> In b rows') ->
    (StoragePart001.checkBookingConflict rows resourceId startTime endTime
       excludeBookingId = true ->
     StoragePart001.checkBookingConflict rows' resourceId startTime endTime
       excludeBookingId = true) /\
    (forall (localTime : Date -> Date) qw,
       ServerStorage.checkBookingConflict localTime qw rows resourceId
         startTime endTime None = Some true ->
       ServerStorage.checkBookingConflict localTime qw rows' resourceId
         startTime endTime None = Some true).
Proof.
  intros rows rows' r s e x Hsub.
  assert (forall s' e' y,
            StoragePart001.checkBookingConflict rows r s' e' y = true ->
            StoragePart001.checkBookingConflict rows' r s' e' y = true)
    as Hpart.
  { intros s' e' y H. apply part001_true_iff in H.
    destruct H as (b & Hin & H). apply part001_true_iff.
    exists b. split; [apply Hsub; exact Hin | exact H]. }
  split; [apply Hpart|].
  intros localTime qw. rewrite !server_without_exclusion by reflexivity.
  intros H. injection H as H. rewrite (Hpart _ _ None H). reflexivity.
Qed.

Lemma conflict_survives_more_bookings_witness :
  (StoragePart001.checkBookingConflict [bookingA 1 1] 1
     (clock 10 30) (clock 11 30) None = true ->
   StoragePart001.checkBookingConflict [bookingA 2 2; bookingA 1 1] 1
     (clock 10 30) (clock 11 30) None = true) /\
  (forall (localTime : Date -> Date) qw,
     ServerStorage.checkBookingConflict localTime qw [bookingA 1 1] 1
       (clock 10 30) (clock 11 30) None = Some true ->
     ServerStorage.checkBookingConflict localTime qw
       [bookingA 2 2; bookingA 1 1] 1
       (clock 10 30) (clock 11 30) None = Some true).
Proof.
  apply (conflict_survives_more_bookings
           [bookingA 1 1] [bookingA 2 2; bookingA 1 1]).
  intros b Hin. simpl. right. exact Hin.
Defined.

(** X2.  A candidate that encloses a conflicting candidate conflicts as
    well: widening the requested interval never clears a conflict. *)
Theorem wider_candidate_still_conflicts :
  forall (rows : list Booking.t) (resourceId : Z)
         (startTime endTime startTime' endTime' : Date)
         (excludeBookingId : option Z),
    startTime' <= startTime -> startTime <= endTime -> endTime <= endTime' ->
    StoragePart001.checkBookingConflict rows resourceId startTime endTime
      excludeBookingId = true ->
    StoragePart001.checkBookingConflict rows resourceId startTime' endTime'
      excludeBookingId = true.
Proof.
  intros rows r s e s' e' x Hs Hse He H.
  apply part001_true_iff in H. destruct H as (b & Hin & Hr & Ho & Hx).
  apply part001_true_iff. exists b. repeat split; auto.
  apply overlapCases_true_iff in Ho. apply overlapCases_true_iff. lia.
Qed.

Lemma wider_candidate_still_conflicts_witness :
  StoragePart001.checkBookingConflict [bookingA 1 1] 1
    (clock 9 0) (clock 12 0) None = true.
Proof.
  apply (wider_candidate_still_conflicts [bookingA 1 1] 1
           (clock 10 30) (clock 10 45) (clock 9 0) (clock 12 0) None).
  - vm_compute. discriminate.
  - vm_compute. discriminate.
  - vm_compute. discriminate.
  - reflexivity.
Defined.

(** X3.  The rule is symmetric: for two bookings with [start <= end],
    asking for the interval of one against a table holding the other
    gives the same answer whichever of the two is the stored one. *)
Theorem conflict_is_symmetric :
  forall (a b : Booking.t),
    Booking.startTime a <= Booking.endTime a ->
    Booking.startTime b <= Booking.endTime b ->
    StoragePart001.checkBookingConflict [a] (Booking.resourceId b)
      (Booking.startTime b) (Booking.endTime b) None =
    StoragePart001.checkBookingConflict [b] (Booking.resourceId a)
      (Booking.startTime a) (Booking.endTime a) None.
Proof.
  intros a b Ha Hb. apply eq_true_iff_eq. rewrite !part001_true_iff.
  split; intros (c & [<-|[]] & Hr & Ho & _).
  - exists b. split; [left; reflexivity|]. split; [auto|].
    split; [|discriminate].
    apply overlapCases_true_iff in Ho. apply overlapCases_true_iff. lia.
  - exists a. split; [left; reflexivity|]. split; [auto|].
    split; [|discriminate].
    apply overlapCases_true_iff in Ho. apply overlapCases_true_iff. lia.
Qed.

Lemma conflict_is_symmetric_witness :
  StoragePart001.checkBookingConflict [bookingA 1 1] 1
    (clock 10 30) (clock 11 30) None =
  StoragePart001.checkBookingConflict
    [Booking.mk 2 1 (clock 10 30) (clock 11 30) "bob" "sync"] 1
    (clock 10 0) (clock 11 0) None.
Proof.
  apply (conflict_is_symmetric (bookingA 1 1)
           (Booking.mk 2 1 (clock 10 30) (clock 11 30) "bob" "sync")).
  - vm_compute. discriminate.
  - vm_compute. discriminate.
Defined.

(** X4.  storage.ts with a non-zero [excludeBookingId]: whatever
    [query.where] contributes and whatever the zone, the outcome depends
    on the rows carrying that id alone; every other booking can be taken
    out of the table without changing it. *)
Theorem server_exclusion_ignores_other_bookings :
  forall (localTime : Date -> Date)
         (qw : Drizzle.Condition -> option Drizzle.Condition)
         (rows : list Booking.t) (resourceId : Z)
         (startTime endTime : Date) (x : Z),
    x <> 0 ->
    ServerStorage.checkBookingConflict localTime qw rows resourceId
      startTime endTime (Some x) =
    ServerStorage.checkBookingConflict localTime qw (filter (hasId x) rows)
      resourceId startTime endTime (Some x).
Proof.
  intros localTime qw rows r s e x Hx. apply Z.eqb_neq in Hx.
  unfold ServerStorage.checkBookingConflict, ServerStorage.query.
  simpl truthy. rewrite Hx. simpl negb. cbv iota.
  destruct (qw _) as [q|]; [|reflexivity].
  rewrite !length_positive_first_row. f_equal.
  apply eq_true_iff_eq. rewrite !first_row_true_iff.
  assert (forall b,
            Drizzle.and [q; Drizzle.eq (Drizzle.col bookings.id)
                              (Drizzle.val x)] b = true ->
            hasId x b = true) as Hid.
  { intros b Hc. unfold Drizzle.and in Hc. simpl in Hc.
    apply andb_true_iff in Hc. destruct Hc as (_ & Hc).
    apply andb_true_iff in Hc. apply Hc. }
  split; intros (b & Hin & Hc); exists b; split; auto.
  - apply filter_In. split; [exact Hin | apply Hid; exact Hc].
  - apply filter_In in Hin. apply Hin.
Qed.

Lemma server_exclusion_ignores_other_bookings_witness :
  ServerStorage.checkBookingConflict ServerStorage.utc ServerStorage.intended
    [bookingA 6 1; bookingA 5 1] 1 (clock 10 30) (clock 11 30) (Some 5) =
  ServerStorage.checkBookingConflict ServerStorage.utc ServerStorage.intended
    (filter (hasId 5) [bookingA 6 1; bookingA 5 1]) 1
    (clock 10 30) (clock 11 30) (Some 5).
Proof.
  apply (server_exclusion_ignores_other_bookings ServerStorage.utc
           ServerStorage.intended
           [bookingA 6 1; bookingA 5 1] 1 (clock 10 30) (clock 11 30) 5).
  discriminate.
Defined.


(* ================================================================== *)
(** * Further properties of the routes *)
(* ================================================================== *)

(** The creation route, case by case. *)
Lemma post_api_bookings_run (refuses : Call -> bool)
    (q : list Booking.t -> Z -> Date -> Date -> option Z -> option bool)
    (body : InsertBooking.t) (w : World) :
  Routes.post_api_bookings refuses q (Some body) w =
  let d := database w in
  let r := InsertBooking.resourceId body in
  let s := InsertBooking.startTime body in
  let e := InsertBooking.endTime body in
  let checked := calls w ++ [CallCheckBookingConflict r s e None] in
  let newBooking :=
    Booking.mk (bookings_id_seq d) r s e
      (InsertBooking.bookedBy body) (InsertBooking.purpose body) in
  if refuses (CallCheckBookingConflict r s e None) then
    (mkResponse 500 (JMessage "Failed to create booking"),
     mkWorld d checked)
  else
  match q (bookings_table d) r s e None with
  | Some true =>
      (mkResponse 409 (JMessage conflictMessage), mkWorld d checked)
  | Some false =>
      if e <=? s then
        (mkResponse 400 (JMessage "End time must be after start time"),
         mkWorld d checked)
      else if refuses (CallCreateBooking body) then
        (mkResponse 500 (JMessage "Failed to create booking"),
         mkWorld d (checked ++ [CallCreateBooking body]))
      else if resourceExists d r then
        (mkResponse 201 (JBooking newBooking),
         mkWorld (mkDatabase (resources_table d)
                    (bookings_table d ++ [newBooking])
                    (resources_id_seq d) (bookings_id_seq d + 1))
           (checked ++ [CallCreateBooking body]))
      else
        (mkResponse 500 (JMessage "Failed to create booking"),
         mkWorld (mkDatabase (resources_table d) (bookings_table d)
                    (resources_id_seq d) (bookings_id_seq d + 1))
           (checked ++ [CallCreateBooking body]))
  | None =>
      (mkResponse 500 (JMessage "Failed to create booking"),
       mkWorld d checked)
  end.
Proof.
  unfold Routes.post_api_bookings, Routes.tryCatch, Routes.parse.
  unfold bind at 1. unfold ret at 1. unfold bind at 1.
  rewrite checkBookingConflict_run. cbv zeta.
  destruct (refuses (CallCheckBookingConflict _ _ _ _)); [reflexivity|].
  destruct (q _ _ _ _ None) as [[|]|]; try reflexivity.
  destruct (InsertBooking.endTime body <=? InsertBooking.startTime body);
    [reflexivity|].
  unfold bind. rewrite createBooking_run. cbv zeta. cbn [database calls].
  destruct (refuses (CallCreateBooking body)); [reflexivity|].
  destruct (resourceExists (database w) (InsertBooking.resourceId body));
    reflexivity.
Qed.

(** X6.  When a creation request is accepted.  On a store whose bookings
    have [start < end], [POST /api/bookings] answers 201 exactly when the
    database refuses neither the check nor the insert for their
    arguments, the resource exists, the candidate has [start < end] and
    no stored booking of the resource touches it ([start <= B.end] and
    [B.start <= end]); then the stored row is the payload with the next
    id of the sequence, appended to the table.  In every other case the
    bookings table is left as it was.  (The routes on part_001's
    checker.) *)
Theorem creation_accepted_iff :
  forall (refuses : Call -> bool) (w : World) (body : InsertBooking.t),
    (forall b, In b (bookings_table (database w)) ->
               Booking.startTime b < Booking.endTime b) ->
    let d := database w in
    let r := InsertBooking.resourceId body in
    let s := InsertBooking.startTime body in
    let e := InsertBooking.endTime body in
    let newBooking :=
      Booking.mk (bookings_id_seq d) r s e
        (InsertBooking.bookedBy body) (InsertBooking.purpose body) in
    let res :=
      fst (Routes.post_api_bookings refuses part001Query (Some body) w) in
    let d' :=
      database
        (snd (Routes.post_api_bookings refuses part001Query (Some body) w)) in
    (status res = 201 <->
     refuses (CallCheckBookingConflict r s e None) = false /\
     refuses (CallCreateBooking body) = false /\
     resourceExists d r = true /\ s < e /\
     forall b, In b (bookings_table d) -> Booking.resourceId b = r ->
       ~ specOverlapRule s e (Booking.startTime b) (Booking.endTime b)) /\
    (status res = 201 ->
     res = mkResponse 201 (JBooking newBooking) /\
     bookings_table d' = bookings_table d ++ [newBooking]) /\
    (status res <> 201 -> bookings_table d' = bookings_table d).
Proof.
  intros refuses w body Hvalid d r s e newBooking res d'.
  subst res d'. rewrite post_api_bookings_run. cbv zeta.
  fold d r s e newBooking. unfold part001Query.
  destruct (refuses (CallCheckBookingConflict r s e None)) eqn:Hcheck.
  { cbn [fst snd status database bookings_table].
    split; [|split; [discriminate | reflexivity]].
    split; [discriminate | intros (H & _); discriminate]. }
  destruct (StoragePart001.checkBookingConflict (bookings_table d) r s e None)
    eqn:Hq.
  - cbn [fst snd status database bookings_table].
    split; [|split; [discriminate | reflexivity]].
    split; [discriminate|]. intros (_ & _ & _ & Hse & Hfree). exfalso.
    apply part001_true_iff in Hq. destruct Hq as (b & Hin & Hr & Ho & _).
    apply (Hfree b Hin Hr).
    apply overlapCases_closed; [lia | specialize (Hvalid b Hin); lia | exact Ho].
  - assert (s < e ->
            forall b, In b (bookings_table d) -> Booking.resourceId b = r ->
              ~ specOverlapRule s e (Booking.startTime b) (Booking.endTime b))
      as Hfree.
    { intros Hse b Hin Hr Ho.
      apply overlapCases_closed in Ho;
        [| lia | specialize (Hvalid b Hin); lia].
      rewrite (proj1 (part001_false_iff _ _ _ _ _) Hq b Hin Hr) in Ho;
        discriminate. }
    destruct (e <=? s) eqn:Hes.
    + apply Z.leb_le in Hes.
      cbn [fst snd status database bookings_table].
      split; [|split; [discriminate | reflexivity]].
      split; [discriminate | intros (_ & _ & _ & Hse & _); lia].
    + apply Z.leb_gt in Hes.
      destruct (refuses (CallCreateBooking body)) eqn:Hcreate.
      { cbn [fst snd status database bookings_table].
        split; [|split; [discriminate | reflexivity]].
        split; [discriminate | intros (_ & H & _); discriminate]. }
      destruct (resourceExists d r) eqn:Hex;
        cbn [fst snd status database bookings_table].
      * split; [|split; [auto | intros H; destruct H; reflexivity]].
        split; [|reflexivity].
        intros _. split; [reflexivity|]. split; [reflexivity|].
        split; [reflexivity|]. split; [exact Hes | exact (Hfree Hes)].
      * split; [|split; [discriminate | reflexivity]].
        split; [discriminate | intros (_ & _ & H & _); discriminate].
Qed.

Lemma creation_accepted_iff_witness :
  status (fst (Routes.handle part001Refusals part001Query
                 (bookingRequest 1 (clock 12 0) (clock 13 0)) worldA)) = 201
  <->
  part001Refusals
    (CallCheckBookingConflict 1 (clock 12 0) (clock 13 0) None) = false /\
  part001Refusals
    (CallCreateBooking
       (InsertBooking.mk 1 (clock 12 0) (clock 13 0) "ann" "standup"))
    = false /\
  resourceExists (database worldA) 1 = true /\ clock 12 0 < clock 13 0 /\
  forall b, In b (bookings_table (database worldA)) ->
    Booking.resourceId b = 1 ->
    ~ specOverlapRule (clock 12 0) (clock 13 0)
        (Booking.startTime b) (Booking.endTime b).
Proof.
  apply (creation_accepted_iff part001Refusals worldA
           (InsertBooking.mk 1 (clock 12 0) (clock 13 0) "ann" "standup")).
  intros b Hin. vm_compute in Hin. destruct Hin as [<-|[]].
  vm_compute. reflexivity.
Defined.

Lemma existsb_find {A} (f : A -> bool) (l : list A) :
  existsb f l = true ->
  exists x, find f l = Some x /\ In x l /\ f x = true.
Proof.
  induction l as [|hd tl IH]; simpl; [discriminate|].
  destruct (f hd) eqn:Hf.
  - intros _. exists hd. auto.
  - simpl. intros H. destruct (IH H) as (x & Hfind & Hin & Hx).
    exists x. auto.
Qed.

Lemma filter_none {A} (f : A -> bool) (l : list A) :
  (forall x, In x l -> f x = false) -> filter f l = [].
Proof.
  induction l as [|hd tl IH]; simpl; intros H; [reflexivity|].
  rewrite (H hd (or_introl Logic.eq_refl)). apply IH.
  intros x Hin. apply H. right. exact Hin.
Qed.

(** X7.  A created booking is read back.  On a store in which the next
    id of the sequence is not in use, after [POST /api/bookings] has
    answered 201 [storage.getBooking] of the id handed out, unless the
    database refuses that read, resolves to the stored payload joined
    with its resource, and that resource is present. *)
Theorem created_booking_is_found :
  forall (refuses : Call -> bool) (w : World) (body : InsertBooking.t),
    (forall b, In b (bookings_table (database w)) ->
               Booking.id b <> bookings_id_seq (database w)) ->
    status (fst (Routes.post_api_bookings refuses part001Query (Some body) w))
    = 201 ->
    let w' :=
      snd (Routes.post_api_bookings refuses part001Query (Some body) w) in
    let newBooking :=
      Booking.mk (bookings_id_seq (database w))
        (InsertBooking.resourceId body) (InsertBooking.startTime body)
        (InsertBooking.endTime body) (InsertBooking.bookedBy body)
        (InsertBooking.purpose body) in
    exists resource,
      In resource (resources_table (database w)) /\
      Resource.id resource = InsertBooking.resourceId body /\
      fst (Storage.getBooking refuses (bookings_id_seq (database w)) w') =
      if refuses (CallGetBooking (bookings_id_seq (database w)))
      then Rejected DatabaseError
      else Resolved (Some (BookingWithResource.mk newBooking (Some resource))).
Proof.
  intros refuses w body Hfresh. rewrite post_api_bookings_run. cbv zeta.
  destruct (refuses (CallCheckBookingConflict _ _ _ _)); [discriminate|].
  destruct (part001Query _ _ _ _ None) as [[|]|]; try discriminate.
  destruct (_ <=? _); [discriminate|].
  destruct (refuses (CallCreateBooking body)); [discriminate|].
  destruct (resourceExists (database w) (InsertBooking.resourceId body))
    eqn:Hex; [|discriminate].
  intros _. cbn [snd].
  apply existsb_find in Hex. destruct Hex as (resource & Hfind & Hin & Hid).
  apply Z.eqb_eq in Hid.
  exists resource. split; [exact Hin|]. split; [exact Hid|].
  rewrite getBooking_run. cbn [fst database bookings_table resources_table].
  destruct (refuses (CallGetBooking _)); [reflexivity|].
  rewrite filter_app.
  rewrite (filter_none (hasId (bookings_id_seq (database w)))).
  - cbn [app filter]. unfold hasId at 1. cbn [Booking.id].
    rewrite Z.eqb_refl. cbn [Booking.resourceId]. rewrite Hfind.
    reflexivity.
  - intros b Hb. unfold hasId. apply Z.eqb_neq. apply Hfresh. exact Hb.
Qed.

Lemma created_booking_is_found_witness :
  exists resource,
    In resource (resources_table (database worldA)) /\
    Resource.id resource = 1 /\
    fst (Storage.getBooking part001Refusals 2
           (snd (Routes.handle part001Refusals part001Query
                   (bookingRequest 1 (clock 12 0) (clock 13 0)) worldA))) =
    Resolved
      (Some (BookingWithResource.mk
               (Booking.mk 2 1 (clock 12 0) (clock 13 0) "ann" "standup")
               (Some resource))).
Proof.
  apply (created_booking_is_found part001Refusals worldA
           (InsertBooking.mk 1 (clock 12 0) (clock 13 0) "ann" "standup")).
  - intros b Hin. vm_compute in Hin. destruct Hin as [<-|[]].
    vm_compute. discriminate.
  - reflexivity.
Defined.

(** The delete route on a parsed id. *)
Lemma delete_api_bookings_run (refuses : Call -> bool) (id : Z) (w : World) :
  Routes.delete_api_bookings refuses (Some id) w =
  if refuses (CallDeleteBooking id) then
    (mkResponse 500 (JMessage "Failed to delete booking"),
     mkWorld (database w) (calls w ++ [CallDeleteBooking id]))
  else
  (if existsb (hasId id) (bookings_table (database w))
   then mkResponse 204 JNone
   else mkResponse 404 (JMessage "Booking not found"),
   mkWorld
     (mkDatabase (resources_table (database w))
        (filter (fun row => negb (hasId id row))
           (bookings_table (database w)))
        (resources_id_seq (database w)) (bookings_id_seq (database w)))
     (calls w ++ [CallDeleteBooking id])).
Proof.
  unfold Routes.delete_api_bookings, Routes.catchAll.
  unfold bind. rewrite deleteBooking_run. cbv zeta.
  destruct (refuses _); [reflexivity|].
  destruct (existsb (hasId id) (bookings_table (database w))); reflexivity.
Qed.

(** X8.  Cancelling a booking.  When the database refuses the delete
    statement for its id (an id beyond 32 bits),
    [DELETE /api/bookings/:id] answers 500 and the store is as it was.
    Otherwise it answers 204 exactly when a booking with that id is
    stored and 404 when none is; afterwards the table holds exactly the
    bookings with another id, in their order, and a second request for
    the same id answers 404. *)
Theorem delete_booking_outcome :
  forall (refuses : Call -> bool) (w : World) (id : Z),
    let res := fst (Routes.delete_api_bookings refuses (Some id) w) in
    let w' := snd (Routes.delete_api_bookings refuses (Some id) w) in
    if refuses (CallDeleteBooking id) then
      status res = 500 /\ database w' = database w
    else
      (status res = 204 <->
       exists b, In b (bookings_table (database w)) /\ Booking.id b = id) /\
      (status res = 204 \/ status res = 404) /\
      bookings_table (database w') =
        filter (fun b => negb (Booking.id b =? id))
          (bookings_table (database w)) /\
      status (fst (Routes.delete_api_bookings refuses (Some id) w')) = 404.
Proof.
  intros refuses w id res w'. subst res w'.
  rewrite !delete_api_bookings_run.
  destruct (refuses (CallDeleteBooking id)); [split; reflexivity|].
  cbn [fst snd database bookings_table].
  assert (existsb (hasId id)
            (filter (fun row => negb (hasId id row))
               (bookings_table (database w))) = false) as Hgone.
  { destruct (existsb _ (filter _ _)) eqn:H; [|reflexivity].
    apply existsb_exists in H. destruct H as (b & Hin & Hb).
    apply filter_In in Hin. destruct Hin as (_ & Hin).
    rewrite Hb in Hin. discriminate. }
  rewrite Hgone.
  destruct (existsb (hasId id) (bookings_table (database w))) eqn:Hex;
    cbn [status].
  - repeat split; auto.
    intros _. apply existsb_exists in Hex. destruct Hex as (b & Hin & Hb).
    exists b. split; [exact Hin | apply Z.eqb_eq; exact Hb].
  - repeat split; auto; try discriminate.
    intros (b & Hin & Hb). exfalso.
    assert (existsb (hasId id) (bookings_table (database w)) = true) as H
      by (apply existsb_exists; exists b; split;
          [exact Hin | apply Z.eqb_eq; exact Hb]).
    congruence.
Qed.

(** X9.  Updating a booking that is not there: when no stored booking
    has the id, [PUT /api/bookings/:id] leaves the database as it was,
    whatever the payload and on either copy of the storage.  It answers
    404, unless the database refuses the first statement the route
    sends, the read of the booking when the payload carries a resource
    or a time and the update itself otherwise (as it does for the empty
    payload and for an id beyond 32 bits); then it answers 500. *)
Theorem update_of_missing_booking :
  forall (refuses : Call -> bool)
         (q : list Booking.t -> Z -> Date -> Date -> option Z -> option bool)
         (w : World) (id : Z) (patch : PartialInsertBooking.t),
    (forall b, In b (bookings_table (database w)) -> Booking.id b <> id) ->
    let first :=
      if Routes.updatesTimeOrResource patch then CallGetBooking id
      else CallUpdateBooking id patch in
    let (res, w') :=
      Routes.put_api_bookings refuses q (Some id) (Some patch) w in
    res = (if refuses first
           then mkResponse 500 (JMessage "Failed to update booking")
           else mkResponse 404 (JMessage "Booking not found")) /\
    database w' = database w /\
    newCalls w w' = [first].
Proof.
  intros refuses q w id patch Hmissing first. subst first.
  assert (forall b, In b (bookings_table (database w)) -> hasId id b = false)
    as Hno.
  { intros b Hin. unfold hasId. apply Z.eqb_neq. apply Hmissing. exact Hin. }
  rewrite put_api_bookings_run, put_api_bookings_guard_run.
  destruct (Routes.updatesTimeOrResource patch).
  - destruct (refuses (CallGetBooking id)).
    + rewrite newCalls_app. repeat split; reflexivity.
    + rewrite (filter_none _ _ Hno). rewrite newCalls_app.
      repeat split; reflexivity.
  - destruct (refuses (CallUpdateBooking id patch)).
    { rewrite newCalls_app. repeat split; reflexivity. }
    assert (Storage.refusedUpdate (database w) id patch = false) as Hacc.
    { destruct (Storage.refusedUpdate (database w) id patch) eqn:H;
        [|reflexivity].
      unfold Storage.refusedUpdate in H. apply existsb_exists in H.
      destruct H as (b & Hin & Hb). rewrite (Hno b Hin) in Hb.
      discriminate. }
    rewrite Hacc.
    assert (Storage.updatedRows id patch (bookings_table (database w)) =
            bookings_table (database w)) as Hsame.
    { unfold Storage.updatedRows.
      rewrite <- (map_id (bookings_table (database w))) at 2.
      apply map_ext_in. intros b Hin. rewrite (Hno b Hin). reflexivity. }
    rewrite Hsame.
    assert (find (hasId id) (bookings_table (database w)) = None) as Hfind.
    { destruct (find _ _) eqn:H; [|reflexivity].
      apply find_some in H. destruct H as (Hin & Hb).
      rewrite (Hno _ Hin) in Hb. discriminate. }
    rewrite Hfind. rewrite newCalls_app. split; [reflexivity|].
    split; [|reflexivity].
    cbn [database]. destruct (database w); reflexivity.
Qed.

Lemma update_of_missing_booking_witness :
  (let (res, w') :=
     Routes.put_api_bookings part001Refusals part001Query (Some 7)
       (Some (moveTo (clock 12 0) (clock 13 0))) worldA in
   res = mkResponse 404 (JMessage "Booking not found") /\
   database w' = database worldA /\
   newCalls worldA w' = [CallGetBooking 7]) /\
  (let (res, w') :=
     Routes.put_api_bookings part001Refusals part001Query (Some 7)
       (Some (PartialInsertBooking.mk None None None None None)) worldA in
   res = mkResponse 500 (JMessage "Failed to update booking") /\
   database w' = database worldA /\
   newCalls worldA w' =
     [CallUpdateBooking 7 (PartialInsertBooking.mk None None None None None)]).
Proof.
  split.
  - apply (update_of_missing_booking part001Refusals part001Query worldA 7
             (moveTo (clock 12 0) (clock 13 0))).
    intros b Hin. vm_compute in Hin. destruct Hin as [<-|[]].
    vm_compute. discriminate.
  - apply (update_of_missing_booking part001Refusals part001Query worldA 7
             (PartialInsertBooking.mk None None None None None)).
    intros b Hin. vm_compute in Hin. destruct Hin as [<-|[]].
    vm_compute. discriminate.
Defined.

Lemma consistent_worldA : Consistent (database worldA).
Proof.
  apply serve_consistent; [exact part001Query_sound | exact consistent_empty].
Qed.

(** With unique ids, the foreign key lets an update through exactly when
    the addressed row stays on its resource or moves to a stored one. *)
Lemma refusedUpdate_false_iff (d : Database) (id : Z)
    (patch : PartialInsertBooking.t) (existing : Booking.t) :
  NoDup (map Booking.id (bookings_table d)) ->
  In existing (bookings_table d) -> Booking.id existing = id ->
  (Storage.refusedUpdate d id patch = false <->
   Booking.resourceId (setBooking patch existing) = Booking.resourceId existing
   \/ resourceExists d (Booking.resourceId (setBooking patch existing)) = true).
Proof.
  intros Hnd Hin Hid.
  assert (hasId id existing = true) as Hhas
    by (unfold hasId; apply Z.eqb_eq; exact Hid).
  split.
  - intros Hacc.
    destruct (Z.eq_dec (Booking.resourceId (setBooking patch existing))
                (Booking.resourceId existing)) as [Heq|Hne]; [left; exact Heq|].
    right. apply (accepted_update_moves_to_existing d id patch existing); auto.
  - intros Hok.
    destruct (Storage.refusedUpdate d id patch) eqn:Href; [|reflexivity].
    exfalso. unfold Storage.refusedUpdate in Href.
    apply existsb_exists in Href. destruct Href as (row & Hrow & Hc).
    apply andb_true_iff in Hc. destruct Hc as (Hc & Hmissing).
    apply andb_true_iff in Hc. destruct Hc as (Hrowid & Hmoved).
    assert (row = existing) as ->.
    { apply (NoDup_map_injective Booking.id (bookings_table d)); auto.
      unfold hasId in Hrowid. apply Z.eqb_eq in Hrowid. congruence. }
    apply negb_true_iff in Hmoved, Hmissing. apply Z.eqb_neq in Hmoved.
    destruct Hok as [Heq|Hex]; [contradiction | congruence].
Qed.

Lemma find_updated_row (id : Z) (patch : PartialInsertBooking.t)
    (rows : list Booking.t) :
  (exists existing, In existing rows /\ Booking.id existing = id) <->
  (exists b, find (hasId id) (Storage.updatedRows id patch rows) = Some b).
Proof.
  split.
  - intros (existing & Hin & Hid).
    destruct (find (hasId id) (Storage.updatedRows id patch rows)) as [b|]
      eqn:Hfind; [exists b; reflexivity|].
    exfalso.
    assert (hasId id existing = true) as Hhas
      by (unfold hasId; apply Z.eqb_eq; exact Hid).
    assert (In (setBooking patch existing)
              (Storage.updatedRows id patch rows)) as Hin'.
    { unfold Storage.updatedRows. apply in_map_iff. exists existing.
      rewrite Hhas. auto. }
    pose proof (find_none _ _ Hfind _ Hin') as Hno.
    unfold hasId in Hno. rewrite setBooking_id in Hno.
    apply Z.eqb_neq in Hno. contradiction.
  - intros (b & Hfind). apply find_some in Hfind.
    destruct Hfind as (Hin & Hb). apply in_updatedRows in Hin.
    unfold hasId in Hb. apply Z.eqb_eq in Hb.
    destruct Hin as (row & Hrow & [(Hrid & ->)|(Hrid & ->)]).
    + exists row. split; [exact Hrow|].
      unfold hasId in Hrid. apply Z.eqb_eq in Hrid. exact Hrid.
    + exists row. auto.
Qed.

(** X10.  When an update is accepted.  On a store whose tables are
    consistent (unique ids handed out by the sequence, intervals with
    [start < end], bookings of a resource apart), [PUT /api/bookings/:id]
    on part_001's storage answers 200 exactly when the database does not
    refuse the update statement for its arguments (as it does for a
    payload that names no column), a booking with that id is stored, the
    row stays on its resource or moves to a stored one, and, if the
    payload carries a non-zero resourceId, a startTime or an endTime,
    neither the read nor the check is refused, the candidate has
    [start < end] and touches no other booking of the candidate
    resource: the booking's own old interval does not count. *)
Theorem update_accepted_iff :
  forall (refuses : Call -> bool) (w : World) (id : Z)
         (patch : PartialInsertBooking.t),
    Consistent (database w) ->
    (status (fst (Routes.put_api_bookings refuses part001Query (Some id)
                    (Some patch) w)) = 200 <->
     refuses (CallUpdateBooking id patch) = false /\
     exists existing,
       In existing (bookings_table (database w)) /\
       Booking.id existing = id /\
       (Booking.resourceId (setBooking patch existing)
          = Booking.resourceId existing \/
        resourceExists (database w)
          (Booking.resourceId (setBooking patch existing)) = true) /\
       (Routes.updatesTimeOrResource patch = true ->
        let '(r, s, e) := Routes.candidate patch existing in
        refuses (CallGetBooking id) = false /\
        refuses (CallCheckBookingConflict r s e (Some id)) = false /\
        s < e /\
        forall b, In b (bookings_table (database w)) ->
          Booking.id b <> id -> Booking.resourceId b = r ->
          ~ specOverlapRule s e (Booking.startTime b) (Booking.endTime b))).
Proof.
  intros refuses w id patch Hc.
  pose proof (booking_ids_unique _ Hc) as Hnd.
  rewrite put_api_bookings_run, put_api_bookings_guard_run.
  destruct (Routes.updatesTimeOrResource patch) eqn:Hguard.
  - destruct (refuses (CallGetBooking id)) eqn:Hget.
    { cbn [fst status]. split; [discriminate|].
      intros (_ & existing & _ & _ & _ & Hfree). exfalso.
      destruct (Routes.candidate patch existing) as ((r, s), e).
      destruct (Hfree Logic.eq_refl) as (H & _). discriminate. }
    destruct (filter (hasId id) (bookings_table (database w)))
      as [|existing0 rest] eqn:Hfound.
    + cbn [fst status]. split; [discriminate|].
      intros (_ & existing & Hin & Hid & _). exfalso.
      assert (In existing (filter (hasId id) (bookings_table (database w))))
        as H by (apply filter_In; split;
                 [exact Hin | unfold hasId; apply Z.eqb_eq; exact Hid]).
      rewrite Hfound in H. destruct H.
    + destruct (first_with_id _ _ _ _ Hfound) as (Hin0 & Hhas0).
      assert (Booking.id existing0 = id) as Hid0
        by (unfold hasId in Hhas0; apply Z.eqb_eq in Hhas0; exact Hhas0).
      assert (forall existing, In existing (bookings_table (database w)) ->
                Booking.id existing = id -> existing = existing0) as Huniq.
      { intros existing Hin Hid.
        apply (NoDup_map_injective Booking.id (bookings_table (database w)));
          auto. congruence. }
      assert (truthy (Some id) = true) as Htruthy.
      { pose proof (booking_ids_issued _ Hc existing0 Hin0) as Hpos.
        simpl. apply negb_true_iff, Z.eqb_neq. lia. }
      destruct (Routes.candidate patch existing0) as ((r, s), e) eqn:Hcand.
      cbv zeta.
      destruct (refuses (CallCheckBookingConflict r s e (Some id)))
        eqn:Hcheck.
      { cbn [fst status]. split; [discriminate|].
        intros (_ & existing & Hin & Hid & _ & Hfree). exfalso.
        rewrite (Huniq existing Hin Hid), Hcand in Hfree.
        destruct (Hfree Logic.eq_refl) as (_ & H & _). congruence. }
      unfold part001Query.
      destruct (StoragePart001.checkBookingConflict _ r s e (Some id)) eqn:Hq.
      * cbn [fst status]. split; [discriminate|].
        intros (_ & existing & Hin & Hid & _ & Hfree). exfalso.
        rewrite (Huniq existing Hin Hid), Hcand in Hfree.
        destruct (Hfree Logic.eq_refl) as (_ & _ & Hse & Hfree').
        apply part001_true_iff in Hq.
        destruct Hq as (b & Hb & Hr & Ho & Hx).
        apply (Hfree' b Hb); auto.
        -- intros Heq. apply (Hx Htruthy). congruence.
        -- pose proof (booking_intervals_valid _ Hc b Hb).
           apply overlapCases_closed; [lia | lia | exact Ho].
      * destruct (e <=? s) eqn:Hes.
        -- apply Z.leb_le in Hes. cbn [fst status]. split; [discriminate|].
           intros (_ & existing & Hin & Hid & _ & Hfree). exfalso.
           rewrite (Huniq existing Hin Hid), Hcand in Hfree.
           destruct (Hfree Logic.eq_refl) as (_ & _ & Hse & _). lia.
        -- apply Z.leb_gt in Hes. cbn [database].
           destruct (refuses (CallUpdateBooking id patch)) eqn:Hupd.
           { cbn [fst status]. split; [discriminate|].
             intros (H & _). discriminate. }
           destruct (Storage.refusedUpdate (database w) id patch) eqn:Hacc.
           ++ cbn [fst status]. split; [discriminate|].
              intros (_ & existing & Hin & Hid & Hfk & _). exfalso.
              apply (refusedUpdate_false_iff _ id patch existing Hnd Hin Hid)
                in Hfk. congruence.
           ++ destruct (proj1 (find_updated_row id patch
                                 (bookings_table (database w))))
                as (b' & Hfind); [exists existing0; auto|].
              rewrite Hfind. cbn [fst status]. split; [|reflexivity].
              intros _. split; [reflexivity|].
              exists existing0. split; [exact Hin0|].
              split; [exact Hid0|]. split.
              ** apply (refusedUpdate_false_iff _ id patch existing0 Hnd
                          Hin0 Hid0). exact Hacc.
              ** intros _. rewrite Hcand. split; [reflexivity|].
                 split; [exact Hcheck|]. split; [exact Hes|].
                 intros b Hb Hne Hr.
                 pose proof (booking_intervals_valid _ Hc b Hb).
                 rewrite <- overlapCases_closed by lia.
                 rewrite (proj1 (part001_false_iff _ _ _ _ _) Hq b Hb Hr);
                   [discriminate|].
                 intros _ Heq. injection Heq as Heq. contradiction.
  - cbn [database].
    destruct (refuses (CallUpdateBooking id patch)) eqn:Hupd.
    { cbn [fst status]. split; [discriminate|].
      intros (H & _). discriminate. }
    destruct (Storage.refusedUpdate (database w) id patch) eqn:Hacc.
    + cbn [fst status]. split; [discriminate|].
      intros (_ & existing & Hin & Hid & Hfk & _). exfalso.
      apply (refusedUpdate_false_iff _ id patch existing Hnd Hin Hid) in Hfk.
      congruence.
    + destruct (find (hasId id) (Storage.updatedRows id patch
                                   (bookings_table (database w))))
        as [b'|] eqn:Hfind; cbn [fst status].
      * split; [|reflexivity]. intros _. split; [reflexivity|].
        destruct (proj2 (find_updated_row id patch
                           (bookings_table (database w))))
          as (existing & Hin & Hid); [exists b'; exact Hfind|].
        exists existing. split; [exact Hin|]. split; [exact Hid|].
        split; [|discriminate].
        apply (refusedUpdate_false_iff _ id patch existing Hnd Hin Hid).
        exact Hacc.
      * split; [discriminate|].
        intros (_ & existing & Hin & Hid & _). exfalso.
        destruct (proj1 (find_updated_row id patch
                           (bookings_table (database w))))
          as (b' & Hb'); [exists existing; auto|].
        congruence.
Qed.

Lemma update_accepted_iff_witness :
  status (fst (Routes.put_api_bookings part001Refusals part001Query (Some 1)
                 (Some (moveTo (clock 10 30) (clock 11 30))) worldA)) = 200
  <->
  part001Refusals
    (CallUpdateBooking 1 (moveTo (clock 10 30) (clock 11 30))) = false /\
  exists existing,
    In existing (bookings_table (database worldA)) /\
    Booking.id existing = 1 /\
    (Booking.resourceId
       (setBooking (moveTo (clock 10 30) (clock 11 30)) existing)
       = Booking.resourceId existing \/
     resourceExists (database worldA)
       (Booking.resourceId
          (setBooking (moveTo (clock 10 30) (clock 11 30)) existing)) = true)
    /\
    (Routes.updatesTimeOrResource (moveTo (clock 10 30) (clock 11 30)) = true ->
     let '(r, s, e) :=
       Routes.candidate (moveTo (clock 10 30) (clock 11 30)) existing in
     part001Refusals (CallGetBooking 1) = false /\
     part001Refusals (CallCheckBookingConflict r s e (Some 1)) = false /\
     s < e /\
     forall b, In b (bookings_table (database worldA)) ->
       Booking.id b <> 1 -> Booking.resourceId b = r ->
       ~ specOverlapRule s e (Booking.startTime b) (Booking.endTime b)).
Proof.
  apply (update_accepted_iff part001Refusals worldA 1
           (moveTo (clock 10 30) (clock 11 30))).
  exact consistent_worldA.
Defined.

(** The resource routes never write to the bookings table. *)
Lemma resource_routes_keep_bookings (refuses : Call -> bool) (w : World) :
  (forall body,
     bookings_table
       (database (snd (Routes.post_api_resources refuses body w))) =
     bookings_table (database w)) /\
  (forall id body,
     bookings_table
       (database (snd (Routes.put_api_resources refuses id body w))) =
     bookings_table (database w)) /\
  (forall id,
     bookings_table
       (database (snd (Routes.delete_api_resources refuses id w))) =
     bookings_table (database w)).
Proof.
  split; [|split].
  - intros [body|]; [|reflexivity].
    unfold Routes.post_api_resources, Routes.tryCatch, Routes.parse.
    unfold bind at 1. unfold ret at 1. unfold bind at 1.
    rewrite createResource_run. cbv zeta.
    destruct (refuses _); reflexivity.
  - intros [id|] [body|]; try reflexivity.
    unfold Routes.put_api_resources, Routes.tryCatch, Routes.parse.
    unfold bind at 1. unfold ret at 1. unfold bind at 1.
    rewrite updateResource_run. cbv zeta.
    destruct (refuses _); [reflexivity|].
    unfold ret.
    match goal with
    | |- context [find ?f ?l] => destruct (find f l)
    end; reflexivity.
  - intros [id|]; [|reflexivity].
    unfold Routes.delete_api_resources, Routes.catchAll.
    unfold bind. rewrite deleteResource_run. cbv zeta.
    destruct (refuses _); [reflexivity|].
    destruct (existsb _ (resources_table (database w))); [|reflexivity].
    cbn [negb].
    destruct (existsb _ (bookings_table (database w))); reflexivity.
Qed.

(** The bookings table after an update request is the table itself or
    its rewriting by [updatedRows]. *)
Lemma put_api_bookings_rows (refuses : Call -> bool)
    (q : list Booking.t -> Z -> Date -> Date -> option Z -> option bool)
    (id : Z) (patch : PartialInsertBooking.t) (w : World) :
  let w' :=
    snd (Routes.put_api_bookings refuses q (Some id) (Some patch) w) in
  database w' = database w \/
  database w' =
    mkDatabase (resources_table (database w))
      (Storage.updatedRows id patch (bookings_table (database w)))
      (resources_id_seq (database w)) (bookings_id_seq (database w))
  /\ Storage.refusedUpdate (database w) id patch = false.
Proof.
  cbv zeta. rewrite put_api_bookings_run, put_api_bookings_guard_run.
  destruct (Routes.updatesTimeOrResource patch).
  - destruct (refuses (CallGetBooking id)); [left; reflexivity|].
    destruct (filter (hasId id) (bookings_table (database w)))
      as [|existing rest]; [left; reflexivity|].
    destruct (Routes.candidate patch existing) as ((r, s), e). cbv zeta.
    destruct (refuses (CallCheckBookingConflict r s e (Some id)));
      [left; reflexivity|].
    destruct (q _ r s e (Some id)) as [[|]|]; try (left; reflexivity).
    destruct (e <=? s); [left; reflexivity|]. cbn [database].
    destruct (refuses (CallUpdateBooking id patch)); [left; reflexivity|].
    destruct (Storage.refusedUpdate (database w) id patch);
      [left | right]; auto.
  - cbn [database].
    destruct (refuses (CallUpdateBooking id patch)); [left; reflexivity|].
    destruct (Storage.refusedUpdate (database w) id patch);
      [left | right]; auto.
Qed.

(** X11.  A request changes no booking but the one it addresses: a
    stored booking is still there, unchanged, after any request other
    than an update or a delete of its own id, on any conflict query and
    whatever the database refuses. *)
Theorem requests_leave_other_bookings_alone :
  forall (refuses : Call -> bool)
         (q : list Booking.t -> Z -> Date -> Date -> option Z -> option bool)
         (req : Request) (w : World) (b : Booking.t),
    In b (bookings_table (database w)) ->
    leavesAlone req (Booking.id b) ->
    In b (bookings_table (database (snd (Routes.handle refuses q req w)))).
Proof.
  intros refuses q req w b Hin Halone.
  destruct (resource_routes_keep_bookings refuses w) as (Hpost & Hput & Hdel).
  destruct req; cbn [Routes.handle].
  - rewrite Hpost. exact Hin.
  - rewrite Hput. exact Hin.
  - rewrite Hdel. exact Hin.
  - destruct body as [body|]; [|exact Hin].
    rewrite post_api_bookings_run. cbv zeta.
    destruct (refuses (CallCheckBookingConflict _ _ _ _)); [exact Hin|].
    destruct (q _ _ _ _ None) as [[|]|]; try exact Hin.
    destruct (_ <=? _); [exact Hin|].
    destruct (refuses (CallCreateBooking body)); [exact Hin|].
    destruct (resourceExists _ _); cbn [snd database bookings_table];
      [apply in_or_app; left|]; exact Hin.
  - destruct id as [id|]; [|exact Hin].
    destruct body as [patch|]; [|exact Hin].
    cbn [leavesAlone] in Halone.
    destruct (put_api_bookings_rows refuses q id patch w)
      as [Hsame|(Hupd & _)].
    + rewrite Hsame. exact Hin.
    + rewrite Hupd. cbn [bookings_table].
      unfold Storage.updatedRows. apply in_map_iff. exists b.
      split; [|exact Hin].
      assert (hasId id b = false) as Hno
        by (unfold hasId; apply Z.eqb_neq; auto).
      rewrite Hno. reflexivity.
  - destruct id as [id|]; [|exact Hin].
    cbn [leavesAlone] in Halone.
    rewrite delete_api_bookings_run.
    destruct (refuses (CallDeleteBooking id)); [exact Hin|].
    cbn [snd database bookings_table].
    apply filter_In. split; [exact Hin|].
    unfold hasId. apply negb_true_iff, Z.eqb_neq. auto.
Qed.

Lemma requests_leave_other_bookings_alone_witness :
  In (bookingA 1 1)
    (bookings_table (database
       (snd (Routes.handle part001Refusals part001Query
               (PUT_api_bookings (Some 2)
                  (Some (moveTo (clock 10 0) (clock 11 0))))
               worldA)))).
Proof.
  apply (requests_leave_other_bookings_alone part001Refusals part001Query
           (PUT_api_bookings (Some 2) (Some (moveTo (clock 10 0) (clock 11 0))))
           worldA (bookingA 1 1)).
  - vm_compute. left. reflexivity.
  - vm_compute. discriminate.
Defined.

(** ** Referential integrity *)


(** The delete route of resources on a parsed id. *)
Lemma delete_api_resources_run (refuses : Call -> bool) (id : Z) (w : World) :
  Routes.delete_api_resources refuses (Some id) w =
  let d := database w in
  let called := calls w ++ [CallDeleteResource id] in
  if refuses (CallDeleteResource id) then
    (mkResponse 500 (JMessage "Failed to delete resource"), mkWorld d called)
  else
  if existsb (fun r => Resource.id r =? id) (resources_table d) then
    if existsb (fun b => Booking.resourceId b =? id) (bookings_table d) then
      (mkResponse 500 (JMessage "Failed to delete resource"),
       mkWorld d called)
    else
      (mkResponse 204 JNone,
       mkWorld
         (mkDatabase
            (filter (fun r => negb (Resource.id r =? id)) (resources_table d))
            (bookings_table d) (resources_id_seq d) (bookings_id_seq d))
         called)
  else (mkResponse 404 (JMessage "Resource not found"), mkWorld d called).
Proof.
  unfold Routes.delete_api_resources, Routes.catchAll.
  unfold bind. rewrite deleteResource_run. cbv zeta.
  destruct (refuses _); [reflexivity|].
  destruct (existsb _ (resources_table (database w))); [|reflexivity].
  cbn [negb].
  destruct (existsb _ (bookings_table (database w))); reflexivity.
Qed.

Section RoutesKeepReferences.
Variable refuses : Call -> bool.
Variable q : list Booking.t -> Z -> Date -> Date -> option Z -> option bool.


End RoutesKeepReferences.


(** X13.  Deleting a resource.  [DELETE /api/resources/:id] answers 204
    exactly when the database does not refuse the statement for its id,
    a resource with that id is stored and no booking refers to it.  It
    fails with 500 exactly when the statement is refused for its id (an
    id beyond 32 bits, whether or not such a resource exists) or the
    resource is stored and still has bookings; a missing resource gives
    404.  Short of 204 the database is left as it was.  The bookings
    are never touched. *)
Theorem delete_resource_outcome :
  forall (refuses : Call -> bool) (w : World) (id : Z),
    let res := fst (Routes.delete_api_resources refuses (Some id) w) in
    let d := database w in
    let d' :=
      database (snd (Routes.delete_api_resources refuses (Some id) w)) in
    (status res = 204 <->
     refuses (CallDeleteResource id) = false /\
     (exists r, In r (resources_table d) /\ Resource.id r = id) /\
     (forall b, In b (bookings_table d) -> Booking.resourceId b <> id)) /\
    (status res = 500 <->
     refuses (CallDeleteResource id) = true \/
     (exists r, In r (resources_table d) /\ Resource.id r = id) /\
     (exists b, In b (bookings_table d) /\ Booking.resourceId b = id)) /\
    (status res = 204 \/ status res = 500 \/ status res = 404) /\
    (status res <> 204 -> d' = d) /\
    (status res = 204 ->
     resources_table d' =
       filter (fun r => negb (Resource.id r =? id)) (resources_table d)) /\
    bookings_table d' = bookings_table d.
Proof.
  intros refuses w id res d d'. subst res d'.
  rewrite delete_api_resources_run. cbv zeta. fold d.
  destruct (refuses (CallDeleteResource id)) eqn:Hrefused.
  { cbn [fst snd status database resources_table bookings_table].
    split; [|split; [|split; [|split; [|split]]]]; auto; try discriminate.
    - split; [discriminate | intros (H & _); discriminate].
    - split; [intros _; left | intros _]; reflexivity. }
  assert (existsb (fun r => Resource.id r =? id) (resources_table d) = true
          <-> exists r, In r (resources_table d) /\ Resource.id r = id)
    as Hres.
  { rewrite existsb_exists. split; intros (r & Hin & Hid); exists r;
      (split; [exact Hin | apply Z.eqb_eq; exact Hid]). }
  assert (existsb (fun b => Booking.resourceId b =? id) (bookings_table d)
          = true
          <-> exists b, In b (bookings_table d) /\ Booking.resourceId b = id)
    as Hused.
  { rewrite existsb_exists. split; intros (b & Hin & Hid); exists b;
      (split; [exact Hin | apply Z.eqb_eq; exact Hid]). }
  destruct (existsb _ (resources_table d)) eqn:Hex.
  - destruct (existsb _ (bookings_table d)) eqn:Hb;
      cbn [fst snd status database resources_table bookings_table];
      (split; [|split; [|split; [|split; [|split]]]]);
      auto; try discriminate.
    + split; [discriminate|]. intros (_ & _ & Hfree). exfalso.
      destruct (proj1 Hused Logic.eq_refl) as (b & Hin & Hid).
      apply (Hfree b Hin Hid).
    + split; [|reflexivity]. intros _. right.
      split; [apply Hres | apply Hused]; reflexivity.
    + split; [|reflexivity]. intros _. split; [reflexivity|].
      split; [apply Hres; reflexivity|].
      intros b Hin Hid.
      assert (false = true) by (apply Hused; exists b; auto).
      discriminate.
    + split; [discriminate|]. intros [H|(_ & H)]; [discriminate|].
      apply Hused in H. discriminate.
    + intros H. exfalso. apply H. reflexivity.
  - cbn [fst snd status database resources_table bookings_table].
    split; [|split; [|split; [|split; [|split]]]]; auto; try discriminate.
    + split; [discriminate|]. intros (_ & H & _). apply Hres in H.
      discriminate.
    + split; [discriminate|]. intros [H|(H & _)]; [discriminate|].
      apply Hres in H. discriminate.
Qed.

(** ** Booking ids are not handed out twice *)





(* ================================================================== *)
(** * The client pages *)
(* ================================================================== *)

(** X15.  The status shown for a booking with [start < end] follows the
    clock: it is "upcoming" before the start, "active" from the start up
    to, not including, the end, and "completed" from the end on; as time
    passes a booking never goes back from active to upcoming, nor leaves
    completed. *)
Theorem booking_status_follows_time :
  forall (now now' : Date) (booking : BookingWithResource.t),
    let s := Booking.startTime (BookingWithResource.bookings booking) in
    let e := Booking.endTime (BookingWithResource.bookings booking) in
    s < e ->
    (BookingsPage.getBookingStatus now booking = "upcoming"%string
     <-> now < s) /\
    (BookingsPage.getBookingStatus now booking = "active"%string
     <-> s <= now < e) /\
    (BookingsPage.getBookingStatus now booking = "completed"%string
     <-> e <= now) /\
    (now <= now' ->
     (BookingsPage.getBookingStatus now booking = "active"%string ->
      BookingsPage.getBookingStatus now' booking <> "upcoming"%string) /\
     (BookingsPage.getBookingStatus now booking = "completed"%string ->
      BookingsPage.getBookingStatus now' booking = "completed"%string)).
Proof.
  intros now now' booking s e Hse.
  assert (forall t,
            (BookingsPage.getBookingStatus t booking = "upcoming"%string
             <-> t < s) /\
            (BookingsPage.getBookingStatus t booking = "active"%string
             <-> s <= t < e) /\
            (BookingsPage.getBookingStatus t booking = "completed"%string
             <-> e <= t)) as Hat.
  { intros t. unfold BookingsPage.getBookingStatus. fold s e.
    destruct (s <=? t) eqn:H1; destruct (t <? e) eqn:H2;
      destruct (t <? s) eqn:H3;
      try apply Z.leb_le in H1; try apply Z.leb_gt in H1;
      try apply Z.ltb_lt in H2; try apply Z.ltb_ge in H2;
      try apply Z.ltb_lt in H3; try apply Z.ltb_ge in H3;
      cbn [andb];
      (split; [|split]); split; intros H;
      try discriminate; try lia; try reflexivity. }
  destruct (Hat now) as (Hup & Hact & Hdone).
  destruct (Hat now') as (Hup' & Hact' & Hdone').
  split; [exact Hup|]. split; [exact Hact|]. split; [exact Hdone|].
  intros Hle. split.
  - intros H. apply Hact in H. intros H'. apply Hup' in H'. lia.
  - intros H. apply Hdone in H. apply Hdone'. lia.
Qed.

Lemma booking_status_follows_time_witness :
  (BookingsPage.getBookingStatus (clock 10 30)
     (BookingWithResource.mk (bookingA 1 1) None) = "upcoming"%string
   <-> clock 10 30 < clock 10 0) /\
  (BookingsPage.getBookingStatus (clock 10 30)
     (BookingWithResource.mk (bookingA 1 1) None) = "active"%string
   <-> clock 10 0 <= clock 10 30 < clock 11 0) /\
  (BookingsPage.getBookingStatus (clock 10 30)
     (BookingWithResource.mk (bookingA 1 1) None) = "completed"%string
   <-> clock 11 0 <= clock 10 30) /\
  (clock 10 30 <= clock 11 0 ->
   (BookingsPage.getBookingStatus (clock 10 30)
      (BookingWithResource.mk (bookingA 1 1) None) = "active"%string ->
    BookingsPage.getBookingStatus (clock 11 0)
      (BookingWithResource.mk (bookingA 1 1) None) <> "upcoming"%string) /\
   (BookingsPage.getBookingStatus (clock 10 30)
      (BookingWithResource.mk (bookingA 1 1) None) = "completed"%string ->
    BookingsPage.getBookingStatus (clock 11 0)
      (BookingWithResource.mk (bookingA 1 1) None) = "completed"%string)).
Proof.
  apply (booking_status_follows_time (clock 10 30) (clock 11 0)
           (BookingWithResource.mk (bookingA 1 1) None)).
  vm_compute. reflexivity.
Defined.






(** After two creation requests for [10:00,11:00) and [10:30,11:30) on
    room 1 whose checks both complete before either write, the dashboard
    lists, at 10:45, two bookings happening now on room 1. *)
Lemma interleaved_requests_show_two_active_bookings :
  let room :=
    Routes.serve part001Refusals part001Query [roomRequest] emptyWorld in
  let reached :=
    interleave [0%nat; 1%nat; 0%nat; 1%nat]
      (map (Routes.task part001Refusals part001Query)
         [bookingRequest 1 (clock 10 0) (clock 11 0);
          bookingRequest 1 (clock 10 30) (clock 11 30)])
      room in
  map (fun row => Booking.resourceId (BookingWithResource.bookings row))
    (Dashboard.activeBookings (clock 10 45)
       (StorageReads.getBookings (database (snd reached))))
  = [1; 1].
Proof. reflexivity. Qed.

Lemma in_firstn_in {A} (n : nat) (l : list A) (x : A) :
  In x (firstn n l) -> In x l.
Proof.
  revert l. induction n as [|n IH]; intros [|hd tl]; simpl;
    try (intros []; fail).
  intros [H|H]; [left; exact H | right; apply IH; exact H].
Qed.

(** X17.  The dashboard's list of available resources.  It has at most
    three entries; each is a resource flagged available and is not the
    resource of any of the (at most three) active bookings the dashboard
    lists.  When no more than three bookings are happening now, no
    listed resource is held by any booking happening now (resource id 0
    apart, which [filter(Boolean)] drops from the booked set). *)
Theorem listed_available_resources :
  forall (now : Date) (resources : list Resource.t)
         (bookings : list BookingWithResource.t) (r : Resource.t),
    In r (Dashboard.availableResources now resources bookings) ->
    (List.length (Dashboard.availableResources now resources bookings) <= 3
     /\ List.length (Dashboard.activeBookings now bookings) <= 3)%nat /\
    In r resources /\
    Resource.isAvailable r = true /\
    (forall b, In b (Dashboard.activeBookings now bookings) ->
       Booking.resourceId (BookingWithResource.bookings b) <> 0 ->
       Booking.resourceId (BookingWithResource.bookings b) <> Resource.id r)
    /\
    ((List.length (filter (Dashboard.happeningNow now) bookings) <= 3)%nat ->
     forall b, In b bookings -> Dashboard.happeningNow now b = true ->
       Booking.resourceId (BookingWithResource.bookings b) <> 0 ->
       Booking.resourceId (BookingWithResource.bookings b) <> Resource.id r).
Proof.
  intros now resources bookings r Hin.
  split; [split; apply firstn_le_length|].
  unfold Dashboard.availableResources in Hin.
  apply in_firstn_in in Hin. apply filter_In in Hin.
  destruct Hin as (Hr & Hc). apply andb_true_iff in Hc.
  destruct Hc as (Hav & Hfree). apply negb_true_iff in Hfree.
  assert (forall b, In b (Dashboard.activeBookings now bookings) ->
            Booking.resourceId (BookingWithResource.bookings b) <> 0 ->
            Booking.resourceId (BookingWithResource.bookings b)
              <> Resource.id r) as Hactive.
  { intros b Hb Hnz Heq.
    assert (existsb (fun id => id =? Resource.id r)
              (Dashboard.bookedResourceIds now bookings) = true) as H.
    { apply existsb_exists.
      exists (Booking.resourceId (BookingWithResource.bookings b)).
      split; [|apply Z.eqb_eq; exact Heq].
      unfold Dashboard.bookedResourceIds. apply filter_In. split.
      - apply in_map_iff. exists b. auto.
      - apply negb_true_iff, Z.eqb_neq. exact Hnz. }
    congruence. }
  split; [exact Hr|]. split; [exact Hav|]. split; [exact Hactive|].
  intros Hfew b Hb Hnow. apply Hactive.
  unfold Dashboard.activeBookings. rewrite firstn_all2 by exact Hfew.
  apply filter_In. auto.
Qed.

Lemma listed_available_resources_witness :
  let room2 := Resource.mk 2 "Room 2" None "HQ" 6 true in
  let busy := BookingWithResource.mk (bookingA 1 1) None in
  (List.length (Dashboard.availableResources (clock 10 30) [room2] [busy]) <= 3
   /\ List.length (Dashboard.activeBookings (clock 10 30) [busy]) <= 3)%nat /\
  In room2 [room2] /\
  Resource.isAvailable room2 = true /\
  (forall b, In b (Dashboard.activeBookings (clock 10 30) [busy]) ->
     Booking.resourceId (BookingWithResource.bookings b) <> 0 ->
     Booking.resourceId (BookingWithResource.bookings b) <> Resource.id room2)
  /\
  ((List.length (filter (Dashboard.happeningNow (clock 10 30)) [busy]) <= 3)%nat
   -> forall b, In b [busy] -> Dashboard.happeningNow (clock 10 30) b = true ->
     Booking.resourceId (BookingWithResource.bookings b) <> 0 ->
     Booking.resourceId (BookingWithResource.bookings b) <> Resource.id room2).
Proof.
  cbv zeta.
  apply (listed_available_resources (clock 10 30)
           [Resource.mk 2 "Room 2" None "HQ" 6 true]
           [BookingWithResource.mk (bookingA 1 1) None]
           (Resource.mk 2 "Room 2" None "HQ" 6 true)).
  vm_compute. left. reflexivity.
Defined.

(** The bound of three is needed: with four bookings happening now, the
    resource of the fourth is listed as available. *)
Lemma fourth_active_booking_is_overlooked :
  let busy i := BookingWithResource.mk (bookingA i i) None in
  let room4 := Resource.mk 4 "Room 4" None "HQ" 6 true in
  Dashboard.happeningNow (clock 10 30) (busy 4) = true /\
  In room4
    (Dashboard.availableResources (clock 10 30) [room4]
       [busy 1; busy 2; busy 3; busy 4]).
Proof. cbv zeta. split; [reflexivity|]. vm_compute. left. reflexivity. Qed.
